(** * Gree Amber AC: the device state model and the polling coordinator

    A shallow embedding of [greeclimate/device.py] and [coordinator.py].
    Python objects are records, a method is a function in a state and
    exception monad over the object it mutates, and a Python exception is a
    result that keeps the state reached when it was raised (assignments made
    before a [raise] are not rolled back). *)

From Stdlib Require Import ZArith Lia Ascii String List Bool.
From stdpp Require Import base option list gmap strings fin_maps.

Local Open Scope string_scope.
Local Open Scope list_scope.
Local Open Scope Z_scope.

(** ** Python values and exceptions *)

(** The values a property can hold: what the JSON status responses carry
    (integers, strings, null) and what the typed setters store (integers).
    Characters are code points below 256. *)
Inductive pyval : Type :=
  | VNone
  | VInt (n : Z)
  | VStr (s : string).

#[global] Instance pyval_eq_dec : EqDecision pyval.
Proof. solve_decision. Defined.

(** [a == b] on these values. *)
Definition py_eq (a b : pyval) : bool := bool_decide (a = b).

(** [bool(a)]: None, 0 and the empty string are falsy. *)
Definition py_bool (a : pyval) : bool :=
  match a with
  | VNone => false
  | VInt n => negb (n =? 0)
  | VStr s => negb (String.eqb s "")
  end.

Inductive exn : Type :=
  | ValueError
  | TypeError
  | IndexError
  | AsyncTimeoutError      (* asyncio.TimeoutError *)
  | DeviceTimeoutError
  | DeviceNotBoundError
  | UpdateFailed
  | AttributeError.

#[global] Instance exn_eq_dec : EqDecision exn.
Proof. solve_decision. Defined.

Inductive res (A : Type) : Type :=
  | Ok (a : A)
  | Raise (e : exn).
Arguments Ok {A} a.
Arguments Raise {A} e.

(** A method on an object of type [S]: the result and the object afterwards. *)
Definition Py (S A : Type) : Type := S -> res A * S.

Definition ret {S A} (a : A) : Py S A := fun s => (Ok a, s).
Definition raise {S A} (e : exn) : Py S A := fun s => (Raise e, s).
Definition bnd {S A B} (m : Py S A) (k : A -> Py S B) : Py S B :=
  fun s => match m s with
           | (Ok a, s') => k a s'
           | (Raise e, s') => (Raise e, s')
           end.
(** [try: m  except e: h] *)
Definition try_except {S A} (m : Py S A) (e : exn) (h : Py S A) : Py S A :=
  fun s => match m s with
           | (Raise e', s') => if bool_decide (e' = e) then h s' else (Raise e', s')
           | r => r
           end.
Definition get_self {S} : Py S S := fun s => (Ok s, s).
Definition modify {S} (f : S -> S) : Py S unit := fun s => (Ok tt, f s).
(** A read-only expression evaluated on the object. *)
Definition eval {S A} (f : S -> res A) : Py S A := fun s => (f s, s).

Notation "'let*' x := m 'in' k" := (bnd m (fun x => k))
  (at level 10, x name, m at level 100, k at level 200).
Notation "'run' m 'then' k" := (bnd m (fun _ => k))
  (at level 10, m at level 100, k at level 200).

(** ** Property names (class Props) *)

Inductive Props : Type :=
  | POWER | MODE
  | HUM_SET | HUM_SENSOR | CLEAN_FILTER | WATER_FULL | DEHUMIDIFIER_MODE
  | TEMP_SET | TEMP_SENSOR | TEMP_UNIT | TEMP_BIT
  | FAN_SPEED | FRESH_AIR | XFAN | ANION | SLEEP | SLEEP_MODE | LIGHT
  | SWING_HORIZ | SWING_VERT | QUIET | TURBO | STEADY_HEAT | POWER_SAVE
  | UNKNOWN_HEATCOOLTYPE.

(** [name.value]: the wire key. *)
Definition value (p : Props) : string :=
  match p with
  | POWER => "Pow" | MODE => "Mod"
  | HUM_SET => "Dwet" | HUM_SENSOR => "DwatSen" | CLEAN_FILTER => "Dfltr"
  | WATER_FULL => "DwatFul" | DEHUMIDIFIER_MODE => "Dmod"
  | TEMP_SET => "SetTem" | TEMP_SENSOR => "TemSen" | TEMP_UNIT => "TemUn"
  | TEMP_BIT => "TemRec"
  | FAN_SPEED => "WdSpd" | FRESH_AIR => "Air" | XFAN => "Blo"
  | ANION => "Health" | SLEEP => "SwhSlp" | SLEEP_MODE => "SlpMod"
  | LIGHT => "Lig" | SWING_HORIZ => "SwingLfRig" | SWING_VERT => "SwUpDn"
  | QUIET => "Quiet" | TURBO => "Tur" | STEADY_HEAT => "StHt"
  | POWER_SAVE => "SvSt" | UNKNOWN_HEATCOOLTYPE => "HeatCoolType"
  end.

(** [[x.value for x in Props]] *)
Definition all_props : list Props :=
  [POWER; MODE; HUM_SET; HUM_SENSOR; CLEAN_FILTER; WATER_FULL;
   DEHUMIDIFIER_MODE; TEMP_SET; TEMP_SENSOR; TEMP_UNIT; TEMP_BIT; FAN_SPEED;
   FRESH_AIR; XFAN; ANION; SLEEP; SLEEP_MODE; LIGHT; SWING_HORIZ; SWING_VERT;
   QUIET; TURBO; STEADY_HEAT; POWER_SAVE; UNKNOWN_HEATCOOLTYPE].

(** ** The protocol layer the Device inherits from

    [DeviceProtocol2] ([network.py]) and the cipher classes are not part of
    these sources.  What the Device calls of them is [send], [ready.wait()]
    and the [device_cipher] attribute; every call is recorded in [calls], and
    an environment decides, from the calls made so far, whether the awaited
    call runs into asyncio's timeout and which cipher object the protocol
    layer leaves in [device_cipher] when the call is over. *)

Inductive CipherKind : Type := CipherV1 | CipherV2.

#[global] Instance CipherKind_eq_dec : EqDecision CipherKind.
Proof. solve_decision. Defined.

(** A cipher object; [key = None] is the key its constructor starts with. *)
Record Cipher : Type := mkCipher { variant : CipherKind; key : option string }.

#[global] Instance Cipher_eq_dec : EqDecision Cipher.
Proof. solve_decision. Defined.

Record DeviceInfo : Type := mkDeviceInfo {
  ip : string; port : Z; mac : string; name : string
}.

Inductive Msg : Type :=
  | BindMsg (info : option DeviceInfo)                              (* create_bind_message *)
  | StatusMsg (info : option DeviceInfo) (cols : list string)       (* create_status_message *)
  | CommandMsg (info : option DeviceInfo) (opts : list (string * pyval)). (* create_command_message *)

Inductive NetCall : Type :=
  | CallSend (m : Msg) (cipher : option Cipher)
  | CallReadyWait.

Record NetReply : Type := mkReply {
  timed_out : bool;
  cipher_after : option Cipher -> option Cipher
}.

Definition Env : Type := list NetCall -> NetReply.

(** ** class Device *)

Record Device : Type := mkDevice {
  device_info : option DeviceInfo;
  device_cipher : option Cipher;
  _transport : bool;               (* False while [self._transport is None] *)
  calls : list NetCall;
  hid : pyval;
  version : option string;
  check_version : bool;
  _properties : gmap string pyval;
  _dirty : list string;
  _beep : bool
}.

(** [Device.__init__] *)
Definition Device_init (info : option DeviceInfo) : Device :=
  {| device_info := info; device_cipher := None; _transport := false;
     calls := []; hid := VNone; version := None; check_version := true;
     _properties := ∅; _dirty := []; _beep := false |}.

Definition set_props (f : gmap string pyval -> gmap string pyval) (d : Device) : Device :=
  {| device_info := device_info d; device_cipher := device_cipher d;
     _transport := _transport d; calls := calls d; hid := hid d;
     version := version d; check_version := check_version d;
     _properties := f (_properties d); _dirty := _dirty d; _beep := _beep d |}.

Definition set_dirty (f : list string -> list string) (d : Device) : Device :=
  {| device_info := device_info d; device_cipher := device_cipher d;
     _transport := _transport d; calls := calls d; hid := hid d;
     version := version d; check_version := check_version d;
     _properties := _properties d; _dirty := f (_dirty d); _beep := _beep d |}.

(** [dict.get(k)]: None for a missing key. *)
Definition dict_get (m : gmap string pyval) (k : string) : pyval :=
  default VNone (m !! k).

(** [get_property]: an empty dict is falsy, and reads as None as well. *)
Definition get_property (name : Props) : Py Device pyval :=
  fun self =>
    if bool_decide (_properties self = ∅) then (Ok VNone, self)
    else (Ok (dict_get (_properties self) (value name)), self).

(** [set_property] *)
Definition set_property (name : Props) (v : pyval) : Py Device unit :=
  fun self =>
    if py_eq (dict_get (_properties self) (value name)) v then (Ok tt, self)
    else
      let self1 := set_props (fun m => <[value name := v]> m) self in
      if bool_decide (value name ∈ _dirty self1) then (Ok tt, self1)
      else (Ok tt, set_dirty (fun l => l ++ [value name]) self1).

Definition set_hid (h : pyval) (d : Device) : Device :=
  {| device_info := device_info d; device_cipher := device_cipher d;
     _transport := _transport d; calls := calls d; hid := h;
     version := version d; check_version := check_version d;
     _properties := _properties d; _dirty := _dirty d; _beep := _beep d |}.

Definition set_version (v : option string) (d : Device) : Device :=
  {| device_info := device_info d; device_cipher := device_cipher d;
     _transport := _transport d; calls := calls d; hid := hid d;
     version := v; check_version := check_version d;
     _properties := _properties d; _dirty := _dirty d; _beep := _beep d |}.

Definition set_check_version (b : bool) (d : Device) : Device :=
  {| device_info := device_info d; device_cipher := device_cipher d;
     _transport := _transport d; calls := calls d; hid := hid d;
     version := version d; check_version := b;
     _properties := _properties d; _dirty := _dirty d; _beep := _beep d |}.

(** ** The temperature table *)

(** Python's [round(n / d)] for a positive [d]: nearest integer, ties to even. *)
Definition py_round_div (n d : Z) : Z :=
  let q := n / d in
  let r := n mod d in
  if 2 * r <? d then q
  else if d <? 2 * r then q + 1
  else if Z.even q then q else q + 1.

Record TempRecord : Type := mkTempRecord { f : Z; temSet : Z; temRec : Z }.

(** [generate_temperature_record].  The source computes
    [(temp_f - 32.0) * 5.0 / 9.0] in doubles; for an integer [temp_f] the
    product is an integer, the quotient is the double nearest to
    [5 (temp_f - 32) / 9], which is an integer or at least 1/9 away from one
    and never halfway between two, so that rounding it and taking the sign of
    its difference to the rounded value give what the exact fraction gives
    (as long as the product fits a double's 53 bits, far beyond any
    temperature). *)
Definition generate_temperature_record (temp_f : Z) : TempRecord :=
  let num := (temp_f - 32) * 5 in
  let temSet := py_round_div num 9 in
  let temRec := if 9 * temSet <? num then 1 else 0 in
  {| f := temp_f; temSet := temSet; temRec := temRec |}.

Definition TEMP_MIN : Z := 8.
Definition TEMP_MAX : Z := 30.
Definition TEMP_OFFSET : Z := 40.
Definition TEMP_MIN_F : Z := 46.
Definition TEMP_MAX_F : Z := 86.
Definition TEMP_MIN_TABLE : Z := -60.
Definition TEMP_MAX_TABLE : Z := 60.
Definition TEMP_MIN_TABLE_F : Z := -76.
Definition TEMP_MAX_TABLE_F : Z := 140.
Definition TEMP_TABLE : list TempRecord :=
  map generate_temperature_record
      (seqZ TEMP_MIN_TABLE_F (TEMP_MAX_TABLE_F + 1 - TEMP_MIN_TABLE_F)).
Definition HUMIDITY_MIN : Z := 30.
Definition HUMIDITY_MAX : Z := 80.

(** ** Arithmetic and comparisons on values *)

(** [a < k] and [a > k] for an integer [k]: only integers compare. *)
Definition py_lt (a : pyval) (k : Z) : res bool :=
  match a with VInt n => Ok (n <? k) | _ => Raise TypeError end.
Definition py_gt (a : pyval) (k : Z) : res bool :=
  match a with VInt n => Ok (k <? n) | _ => Raise TypeError end.

(** [a - k] *)
Definition py_sub (a : pyval) (k : Z) : res pyval :=
  match a with VInt n => Ok (VInt (n - k)) | _ => Raise TypeError end.

Fixpoint str_repeat (s : string) (n : nat) : string :=
  match n with O => "" | S n' => String.append s (str_repeat s n') end.

(** [a * k]: a string is repeated. *)
Definition py_mul (a : pyval) (k : Z) : res pyval :=
  match a with
  | VInt n => Ok (VInt (n * k))
  | VStr s => Ok (VStr (str_repeat s (Z.to_nat k)))
  | VNone => Raise TypeError
  end.

(** [k + a] for an integer [k] *)
Definition py_radd (k : Z) (a : pyval) : res pyval :=
  match a with VInt n => Ok (VInt (k + n)) | _ => Raise TypeError end.

(** ** Temperature accessors *)

Definition temperature_units : Py Device pyval := get_property TEMP_UNIT.

(** [_convert_to_units] *)
Definition _convert_to_units (v bit : pyval) : Py Device pyval :=
  let* units := temperature_units in
  if negb (py_eq units (VInt 1)) then ret v
  else
    let* below := eval (fun _ => py_lt v TEMP_MIN_TABLE) in
    let* outside :=
      (if below : bool then ret true else eval (fun _ => py_gt v TEMP_MAX_TABLE)) in
    if outside : bool then raise ValueError
    else
      let matching_temset :=
        List.filter (fun t => py_eq (VInt (temSet t)) v) TEMP_TABLE in
      match List.filter (fun t => py_eq (VInt (temRec t)) bit) matching_temset with
      | t :: _ => ret (VInt (f t))
      | [] =>
          match matching_temset with
          | t :: _ => ret (VInt (f t))
          | [] => raise IndexError
          end
      end.

(** [target_temperature] (getter) *)
Definition target_temperature : Py Device pyval :=
  let* temset := get_property TEMP_SET in
  let* temrec := get_property TEMP_BIT in
  _convert_to_units temset temrec.

Definition validate (val : Z) : Py Device unit :=
  if (TEMP_MAX <? val) || (val <? TEMP_MIN) then raise ValueError else ret tt.

(** [target_temperature.setter] *)
Definition target_temperature_setter (v : Z) : Py Device unit :=
  let* units := temperature_units in
  if py_eq units (VInt 1) then
    let rec := generate_temperature_record v in
    run validate (temSet rec) then
    run set_property TEMP_SET (VInt (temSet rec)) then
    set_property TEMP_BIT (VInt (temRec rec))
  else
    run validate v then
    set_property TEMP_SET (VInt v).

(** [temperature_units.setter] *)
Definition temperature_units_setter (v : Z) : Py Device unit :=
  set_property TEMP_UNIT (VInt v).

(** ** Firmware version strings *)

Definition code (c : ascii) : Z := Z.of_N (N_of_ascii c).

(** [\d] on code points below 256 *)
Definition is_digit (c : ascii) : bool := (48 <=? code c) && (code c <=? 57).

(** A character of the class [[\d.]] *)
Definition is_version_char (c : ascii) : bool :=
  is_digit c || bool_decide (c = "."%char).

(** What [int()] strips: Python's whitespace below 256. *)
Definition is_space (c : ascii) : bool :=
  let n := code c in
  ((9 <=? n) && (n <=? 13)) || ((28 <=? n) && (n <=? 32))
  || (n =? 133) || (n =? 160).

Definition chars (s : string) : list ascii := list_ascii_of_string s.
Definition of_chars (l : list ascii) : string := string_of_list_ascii l.

(** The longest prefix whose characters satisfy [p], and the rest. *)
Fixpoint span (p : ascii -> bool) (l : list ascii) : list ascii * list ascii :=
  match l with
  | c :: t => if p c then let '(a, b) := span p t in (c :: a, b) else ([], l)
  | [] => ([], [])
  end.

(** [l] without the prefix [pre], when it starts with it. *)
Fixpoint strip_prefix (pre l : list ascii) : option (list ascii) :=
  match pre, l with
  | [], _ => Some l
  | p :: pre', c :: l' => if bool_decide (p = c) then strip_prefix pre' l' else None
  | _ :: _, [] => None
  end.

(** [re.search(r"(?<=V)([\d.]+)\.bin$", hid)] and [match.group(1)].
    [$] matches at the end of the string or before a newline that ends it,
    so the match ends in the one [.bin] that closes the string; group 1 is a
    run of [[\d.]] characters that stops there and starts after a [V], which
    is not in the class: the whole run before [.bin].  The string is
    scanned from its end. *)
Definition version_of_hid (s : string) : option string :=
  let r := rev (chars s) in
  let r :=
    match r with
    | c :: r' =>
        if bool_decide (c = "010"%char) && bool_decide (is_Some (strip_prefix (chars "nib.") r'))
        then r' else r
    | [] => r
    end in
  match strip_prefix (chars "nib.") r with
  | Some before =>
      match span is_version_char before with
      | (c :: digits, "V"%char :: _) => Some (of_chars (rev (c :: digits)))
      | _ => None
      end
  | None => None
  end.

(** [s.split(".")[0]] *)
Definition first_component (s : string) : list ascii :=
  fst (span (fun c => negb (bool_decide (c = "."%char))) (chars s)).

(** The digits of a decimal literal: single underscores may separate digits.
    [seen] tells whether the previous character was a digit. *)
Fixpoint digits_value (acc : Z) (count : Z) (seen : bool) (l : list ascii) : option (Z * Z) :=
  match l with
  | [] => if seen then Some (acc, count) else None
  | c :: t =>
      if is_digit c then digits_value (10 * acc + (code c - 48)) (count + 1) true t
      else if bool_decide (c = "_"%char) && seen then digits_value acc count false t
      else None
  end.

(** [int(s)] in base 10: surrounding whitespace, an optional sign, digits;
    CPython refuses more than 4300 digits. *)
Definition py_int (l : list ascii) : res Z :=
  let l := snd (span is_space l) in
  let l := rev (snd (span is_space (rev l))) in
  let '(sign, l) :=
    match l with
    | "-"%char :: t => (-1, t)
    | "+"%char :: t => (1, t)
    | _ => (1, l)
    end in
  match digits_value 0 0 false l with
  | Some (n, count) => if 4300 <? count then Raise ValueError else Ok (sign * n)
  | None => Raise ValueError
  end.

(** [self.version and int(self.version.split(".")[0])]: [None] stands for a
    version that is None or empty, which is not the integer 4 either. *)
Definition major_version : Py Device (option Z) :=
  let* self := get_self in
  match version self with
  | None => ret None
  | Some s =>
      if String.eqb s "" then ret None
      else let* n := eval (fun _ => py_int (first_component s)) in ret (Some n)
  end.

(** [current_temperature]: [Some r] is a value returned from inside the
    [if], [None] falls through to the last line. *)
Definition current_temperature : Py Device pyval :=
  let* prop := get_property TEMP_SENSOR in
  let* bit := get_property TEMP_BIT in
  let* returned :=
    (if bool_decide (prop <> VNone) then
       let* v := major_version in
       try_except
         (if bool_decide (v = Some 4) then
            let* r := _convert_to_units prop bit in ret (Some r)
          else if negb (py_eq prop (VInt 0)) then
            let* p := eval (fun _ => py_sub prop TEMP_OFFSET) in
            let* r := _convert_to_units p bit in ret (Some r)
          else ret None)
         ValueError (ret None)
     else ret None) in
  match returned with
  | Some r => ret r
  | None => target_temperature
  end.

(** [handle_state_update], called with the columns of a status response *)
Definition handle_state_update (kwargs : gmap string pyval) : Py Device unit :=
  let* kwargs :=
    (match kwargs !! "hid" with
     | Some h =>
         run modify (set_hid h) then
         match h with
         | VStr s =>
             run modify (set_version (version_of_hid s)) then
             ret (delete "hid" kwargs)
         | _ => raise TypeError
         end
     | None => ret kwargs
     end) in
  run modify (set_props (fun m => kwargs ∪ m)) then
  let* self := get_self in
  if check_version self && bool_decide (is_Some (kwargs !! value TEMP_SENSOR)) then
    run modify (set_check_version false) then
    let* temp := get_property TEMP_SENSOR in
    let* low :=
      (if py_bool temp then eval (fun _ => py_lt temp TEMP_OFFSET) else ret false) in
    run (if low : bool then modify (set_version (Some "4.0")) else ret tt) then
    run current_temperature then
    ret tt
  else ret tt.

(** ** Boolean accessors *)

Definition bool_property (name : Props) : Py Device bool :=
  let* v := get_property name in ret (py_bool v).

Definition power : Py Device bool := bool_property POWER.
Definition fresh_air : Py Device bool := bool_property FRESH_AIR.
Definition xfan : Py Device bool := bool_property XFAN.
Definition anion : Py Device bool := bool_property ANION.
Definition sleep : Py Device bool := bool_property SLEEP.
Definition light : Py Device bool := bool_property LIGHT.
Definition turbo : Py Device bool := bool_property TURBO.
Definition steady_heat : Py Device bool := bool_property STEADY_HEAT.
Definition power_save : Py Device bool := bool_property POWER_SAVE.
Definition clean_filter : Py Device bool := bool_property CLEAN_FILTER.
Definition water_full : Py Device bool := bool_property WATER_FULL.

(** [power.setter] and its like store [int(value)]. *)
Definition power_setter (v : bool) : Py Device unit :=
  set_property POWER (VInt (if v then 1 else 0)).

(** ** Humidity *)

(** [target_humidity] (getter): the body is an expression statement, so the
    sum is evaluated and the method returns None. *)
Definition target_humidity : Py Device pyval :=
  let* h := get_property HUM_SET in
  let* p := eval (fun _ => py_mul h 5) in
  let* _ := eval (fun _ => py_radd 15 p) in
  ret VNone.

(** [target_humidity.setter]: the inner [validate] is defined and not called. *)
Definition target_humidity_setter (v : Z) : Py Device unit :=
  set_property HUM_SET (VInt ((v - 15) / 5)).

(** ** Binding and the two exchanges with the device *)

Definition after_call (c : NetCall) (r : NetReply) (d : Device) : Device :=
  {| device_info := device_info d;
     device_cipher := cipher_after r (device_cipher d);
     _transport := _transport d; calls := calls d ++ [c]; hid := hid d;
     version := version d; check_version := check_version d;
     _properties := _properties d; _dirty := _dirty d; _beep := _beep d |}.

Definition set_cipher (c : option Cipher) (d : Device) : Device :=
  {| device_info := device_info d; device_cipher := c;
     _transport := _transport d; calls := calls d; hid := hid d;
     version := version d; check_version := check_version d;
     _properties := _properties d; _dirty := _dirty d; _beep := _beep d |}.

Definition set_transport (b : bool) (d : Device) : Device :=
  {| device_info := device_info d; device_cipher := device_cipher d;
     _transport := b; calls := calls d; hid := hid d;
     version := version d; check_version := check_version d;
     _properties := _properties d; _dirty := _dirty d; _beep := _beep d |}.

(** [CipherV1()] and [CipherV2()] *)
Definition CipherV1_new : Cipher := {| variant := CipherV1; key := None |}.
Definition CipherV2_new : Cipher := {| variant := CipherV2; key := None |}.

(** A dict under construction: a key keeps the place of its first insertion. *)
Fixpoint dict_set (l : list (string * pyval)) (k : string) (v : pyval) : list (string * pyval) :=
  match l with
  | [] => [(k, v)]
  | (k', v') :: t => if String.eqb k' k then (k, v) :: t else (k', v') :: dict_set t k v
  end.

Section Network.
Variable env : Env.

(** An awaited call into the protocol layer. *)
Definition await_net (c : NetCall) : Py Device unit :=
  fun self =>
    let r := env (calls self ++ [c]) in
    let self' := after_call c r self in
    if timed_out r then (Raise AsyncTimeoutError, self') else (Ok tt, self').

(** [self.send(message, cipher=...)] *)
Definition send (m : Msg) (cipher : option Cipher) : Py Device unit :=
  await_net (CallSend m cipher).

(** [__bind_internal] *)
Definition bind_internal (cipher : Cipher) : Py Device unit :=
  let* self := get_self in
  run send (BindMsg (device_info self)) (Some cipher) then
  await_net CallReadyWait.

(** [bind]: a key is truthy when it is a non-empty string. *)
Definition bind (k : option string) (cipher : option Cipher) : Py Device unit :=
  match k, cipher with
  | Some (String _ _ as k'), None => raise ValueError
  | Some (String _ _ as k'), Some c =>
      modify (set_cipher (Some {| variant := variant c; key := Some k' |}))
  | _, _ =>
      let* self := get_self in
      if bool_decide (device_info self = None) then raise DeviceNotBoundError
      else
        run (if _transport self then ret tt else modify (set_transport true)) then
        run try_except
              (match cipher with
               | Some c => bind_internal c
               | None =>
                   try_except (bind_internal CipherV1_new)
                              AsyncTimeoutError
                              (bind_internal CipherV2_new)
               end)
              AsyncTimeoutError
              (raise DeviceTimeoutError) then
        let* self := get_self in
        if bool_decide (device_cipher self = None) then raise DeviceNotBoundError
        else ret tt
  end.

Definition ensure_bound : Py Device unit :=
  let* self := get_self in
  if bool_decide (device_cipher self = None) then bind None None else ret tt.

(** [update_state] *)
Definition update_state : Py Device unit :=
  run ensure_bound then
  let* self := get_self in
  let props :=
    map value all_props ++ (if py_bool (hid self) then [] else ["hid"]) in
  try_except (send (StatusMsg (device_info self) props) None)
             AsyncTimeoutError
             (raise DeviceTimeoutError).

(** The dict [props] that [push_state_update] builds from the dirty keys. *)
Definition push_props (self : Device) : list (string * pyval) :=
  let get k := dict_get (_properties self) k in
  let props :=
    fold_left
      (fun props name =>
         let props := dict_set props name (get name) in
         if String.eqb name (value TEMP_SET) then
           dict_set (dict_set props (value TEMP_BIT) (get (value TEMP_BIT)))
                    (value TEMP_UNIT) (get (value TEMP_UNIT))
         else props)
      (_dirty self) [] in
  if _beep self then props else dict_set props "Buzzer_ON_OFF" (VInt 1).

(** [push_state_update] *)
Definition push_state_update : Py Device unit :=
  let* self := get_self in
  match _dirty self with
  | [] => ret tt
  | _ :: _ =>
      run ensure_bound then
      let* self := get_self in
      let props := push_props self in
      run modify (set_dirty (fun _ => [])) then
      try_except (send (CommandMsg (device_info self) props) None)
                 AsyncTimeoutError
                 (raise DeviceTimeoutError)
  end.
End Network.

(** [handle_device_bound]: [self.device_cipher.key = key].  The protocol
    layer calls it when the device's confirmation names a key.  The key goes
    into the cipher object that is installed; on a Device without one the
    assignment finds [None] and raises AttributeError. *)
Definition handle_device_bound (k : string) : Py Device unit :=
  let* self := get_self in
  match device_cipher self with
  | Some c => modify (set_cipher (Some {| variant := variant c; key := Some k |}))
  | None => raise AttributeError
  end.

(** ** class DeviceDataUpdateCoordinator

    Datetimes and timedeltas are integer counts of one time unit.  The
    attributes [last_update_success], [update_interval] and [data] are those
    of homeassistant's [DataUpdateCoordinator]. *)

Record Coordinator : Type := mkCoordinator {
  device : Device;
  update_interval : option Z;
  last_update_success : bool;
  data : gmap string pyval;
  _error_count : Z;
  _last_response_time : Z;
  _last_error_time : option Z
}.

Definition set_device (d : Device) (c : Coordinator) : Coordinator :=
  {| device := d; update_interval := update_interval c;
     last_update_success := last_update_success c; data := data c;
     _error_count := _error_count c;
     _last_response_time := _last_response_time c;
     _last_error_time := _last_error_time c |}.

Definition set_error_count (n : Z) (c : Coordinator) : Coordinator :=
  {| device := device c; update_interval := update_interval c;
     last_update_success := last_update_success c; data := data c;
     _error_count := n;
     _last_response_time := _last_response_time c;
     _last_error_time := _last_error_time c |}.

Definition set_last_response_time (t : Z) (c : Coordinator) : Coordinator :=
  {| device := device c; update_interval := update_interval c;
     last_update_success := last_update_success c; data := data c;
     _error_count := _error_count c;
     _last_response_time := t;
     _last_error_time := _last_error_time c |}.

Definition set_last_error_time (t : option Z) (c : Coordinator) : Coordinator :=
  {| device := device c; update_interval := update_interval c;
     last_update_success := last_update_success c; data := data c;
     _error_count := _error_count c;
     _last_response_time := _last_response_time c;
     _last_error_time := t |}.

Definition set_updated (ok : bool) (dat : gmap string pyval) (c : Coordinator) : Coordinator :=
  {| device := device c; update_interval := update_interval c;
     last_update_success := ok; data := dat;
     _error_count := _error_count c;
     _last_response_time := _last_response_time c;
     _last_error_time := _last_error_time c |}.

(** A method of the device, called on [self.device]. *)
Definition on_device {A} (m : Py Device A) : Py Coordinator A :=
  fun c => let '(r, d) := m (device c) in (r, set_device d c).

(** A timedelta is truthy unless it is zero. *)
Definition timedelta_bool (t : option Z) : bool :=
  match t with Some n => negb (n =? 0) | None => false end.

Section Polling.
Variable env : Env.
(** From [const.py], which is not part of these sources. *)
Variable MAX_ERRORS : Z.
Variable MAX_EXPECTED_RESPONSE_TIME_INTERVAL : Z.
Variable UPDATE_INTERVAL : Z.

(** [DeviceDataUpdateCoordinator.__init__], at time [now] *)
Definition Coordinator_init (d : Device) (now : Z) : Coordinator :=
  {| device := d; update_interval := Some UPDATE_INTERVAL;
     last_update_success := true; data := ∅;
     _error_count := 0; _last_response_time := now;
     _last_error_time := None |}.

(** [device_state_updated], at time [now]; [async_set_updated_data] stores
    the data and marks the last update as successful. *)
Definition device_state_updated (now : Z) : Py Coordinator unit :=
  run modify (set_error_count 0) then
  run modify (set_last_response_time now) then
  let* self := get_self in
  modify (set_updated true (_properties (device self))).

(** The last two lines of [_async_update_data]. *)
Definition finish_cycle (now_end : Z) : Py Coordinator (gmap string pyval) :=
  run modify (set_last_response_time now_end) then
  let* self := get_self in
  ret (_properties (device self)).

(** The [except DeviceTimeoutError] block. *)
Definition on_timeout : Py Coordinator unit :=
  let* self := get_self in
  run modify (set_error_count (_error_count self + 1)) then
  let* self := get_self in
  if last_update_success self && (MAX_ERRORS <=? _error_count self)
  then raise UpdateFailed else ret tt.

(** The [else] block of the [try], with [now = utcnow()]. *)
Definition on_sent (now : Z) : Py Coordinator unit :=
  let* self := get_self in
  let elapsed_success := now - _last_response_time self in
  run (if timedelta_bool (update_interval self)
          && (MAX_EXPECTED_RESPONSE_TIME_INTERVAL <=? elapsed_success)
       then
         match _last_error_time self, update_interval self with
         | Some t, Some i =>
             if t <=? now - i then
               run modify (set_last_error_time (Some now)) then
               modify (set_error_count (_error_count self + 1))
             else ret tt
         | _, _ =>
             run modify (set_last_error_time (Some now)) then
             modify (set_error_count (_error_count self + 1))
         end
       else modify (set_error_count 0)) then
  let* self := get_self in
  if last_update_success self && (MAX_ERRORS <=? _error_count self)
  then raise UpdateFailed else ret tt.

(** [_async_update_data]; [now] and [now_end] are the two readings of
    [utcnow()] the method takes. *)
Definition _async_update_data (now now_end : Z) : Py Coordinator (gmap string pyval) :=
  fun self =>
    match on_device (update_state env) self with
    | (Raise DeviceNotBoundError, self') => (Raise UpdateFailed, self')
    | (Raise DeviceTimeoutError, self') =>
        (run on_timeout then finish_cycle now_end) self'
    | (Raise e, self') => (Raise e, self')
    | (Ok _, self') =>
        (run on_sent now then finish_cycle now_end) self'
    end.

(** One polling cycle as homeassistant's [DataUpdateCoordinator] runs it:
    it awaits [_async_update_data], keeps the data and sets
    [last_update_success] when the method returns, clears
    [last_update_success] when the method raises.  The result is that of
    [_async_update_data]. *)
Definition refresh (now now_end : Z) : Py Coordinator (gmap string pyval) :=
  fun self =>
    match _async_update_data now now_end self with
    | (Ok dat, self') => (Ok dat, set_updated true dat self')
    | (Raise e, self') => (Raise e, set_updated false (data self') self')
    end.

(** [DeviceDataUpdateCoordinator.push_state_update] *)
Definition coordinator_push_state_update : Py Coordinator unit :=
  try_except (on_device (push_state_update env)) DeviceTimeoutError (ret tt).
End Polling.

(** ** The remaining accessors of the Device *)

(** [int(value)] of a bool *)
Definition int_of_bool (v : bool) : Z := if v then 1 else 0.

Definition mode : Py Device pyval := get_property MODE.
Definition mode_setter (v : Z) : Py Device unit := set_property MODE (VInt v).
Definition quiet : Py Device pyval := get_property QUIET.
Definition quiet_setter (v : Z) : Py Device unit := set_property QUIET (VInt v).
Definition fan_speed : Py Device pyval := get_property FAN_SPEED.
Definition fan_speed_setter (v : Z) : Py Device unit := set_property FAN_SPEED (VInt v).
Definition horizontal_swing : Py Device pyval := get_property SWING_HORIZ.
Definition horizontal_swing_setter (v : Z) : Py Device unit :=
  set_property SWING_HORIZ (VInt v).
Definition vertical_swing : Py Device pyval := get_property SWING_VERT.
Definition vertical_swing_setter (v : Z) : Py Device unit :=
  set_property SWING_VERT (VInt v).
Definition dehumidifier_mode : Py Device pyval := get_property DEHUMIDIFIER_MODE.
Definition current_humidity : Py Device pyval := get_property HUM_SENSOR.

Definition fresh_air_setter (v : bool) : Py Device unit :=
  set_property FRESH_AIR (VInt (int_of_bool v)).
Definition xfan_setter (v : bool) : Py Device unit :=
  set_property XFAN (VInt (int_of_bool v)).
Definition anion_setter (v : bool) : Py Device unit :=
  set_property ANION (VInt (int_of_bool v)).
(** [sleep.setter] stores the flag under two keys. *)
Definition sleep_setter (v : bool) : Py Device unit :=
  run set_property SLEEP (VInt (int_of_bool v)) then
  set_property SLEEP_MODE (VInt (int_of_bool v)).
Definition light_setter (v : bool) : Py Device unit :=
  set_property LIGHT (VInt (int_of_bool v)).
Definition turbo_setter (v : bool) : Py Device unit :=
  set_property TURBO (VInt (int_of_bool v)).
Definition steady_heat_setter (v : bool) : Py Device unit :=
  set_property STEADY_HEAT (VInt (int_of_bool v)).
Definition power_save_setter (v : bool) : Py Device unit :=
  set_property POWER_SAVE (VInt (int_of_bool v)).

Definition set_beep (b : bool) (d : Device) : Device :=
  {| device_info := device_info d; device_cipher := device_cipher d;
     _transport := _transport d; calls := calls d; hid := hid d;
     version := version d; check_version := check_version d;
     _properties := _properties d; _dirty := _dirty d; _beep := b |}.

Definition beep : Py Device bool := fun self => (Ok (_beep self), self).
Definition beep_setter (v : bool) : Py Device unit := modify (set_beep v).

(** [raw_properties] *)
Definition raw_properties : Py Device (gmap string pyval) :=
  fun self => (Ok (_properties self), self).

(** [request_version] *)
Definition request_version (env : Env) : Py Device unit :=
  run ensure_bound env then
  let* self := get_self in
  try_except (send env (StatusMsg (device_info self) ["hid"]) None)
             AsyncTimeoutError
             (raise DeviceTimeoutError).

(** ** class GreeAmberClimateEntity ([climate.py])

    The entity reads and writes the Device of its coordinator.  The names
    of modes are those of homeassistant's climate component; writing the
    entity state back to Home Assistant ([async_write_ha_state]) changes
    nothing here. *)

(** The members of homeassistant's [HVACMode]. *)
Inductive HVACMode : Type :=
  | HVAC_OFF | HVAC_HEAT | HVAC_COOL | HVAC_HEAT_COOL | HVAC_AUTO | HVAC_DRY
  | HVAC_FAN_ONLY.

#[global] Instance HVACMode_eq_dec : EqDecision HVACMode.
Proof. solve_decision. Defined.

(** [HVAC_MODES], keyed by the integers of [Mode]. *)
Definition HVAC_MODES : list (Z * HVACMode) :=
  [(0, HVAC_AUTO); (1, HVAC_COOL); (2, HVAC_DRY); (3, HVAC_FAN_ONLY); (4, HVAC_HEAT)].

(** [{v: k for k, v in d.items()}]: of two items with one value the later
    one stays. *)
Definition reverse_dict {K V} `{EqDecision V} (d : list (K * V)) : list (V * K) :=
  fold_left
    (fun acc '(k, v) =>
       if bool_decide (v ∈ map fst acc)
       then map (fun '(v', k') => if bool_decide (v' = v) then (v', k) else (v', k')) acc
       else acc ++ [(v, k)])
    d [].

(** [d.get(key)] on a list of items *)
Fixpoint items_get {K V} `{EqDecision K} (d : list (K * V)) (key : K) : option V :=
  match d with
  | [] => None
  | (k, v) :: t => if bool_decide (k = key) then Some v else items_get t key
  end.

Definition HVAC_MODES_REVERSE : list (HVACMode * Z) := reverse_dict HVAC_MODES.

Definition PRESET_ECO : string := "eco".
Definition PRESET_AWAY : string := "away".
Definition PRESET_BOOST : string := "boost".
Definition PRESET_NONE : string := "none".
Definition PRESET_SLEEP : string := "sleep".
Definition PRESET_MODES : list string :=
  [PRESET_ECO; PRESET_AWAY; PRESET_BOOST; PRESET_NONE; PRESET_SLEEP].

Definition SWING_OFF : string := "off".
Definition SWING_VERTICAL : string := "vertical".
Definition SWING_HORIZONTAL : string := "horizontal".
Definition SWING_BOTH : string := "both".
Definition SWING_MODES : list string :=
  [SWING_OFF; SWING_VERTICAL; SWING_HORIZONTAL; SWING_BOTH].

Definition FAN_AUTO : string := "auto".
Definition FAN_LOW : string := "low".
Definition FAN_MEDIUM : string := "medium".
Definition FAN_HIGH : string := "high".

Inductive UnitOfTemperature : Type := CELSIUS | FAHRENHEIT.

#[global] Instance UnitOfTemperature_eq_dec : EqDecision UnitOfTemperature.
Proof. solve_decision. Defined.

Record ClimateEntity : Type := mkClimateEntity {
  coordinator : Coordinator;
  _attr_temperature_unit : UnitOfTemperature;
  _attr_min_temp : Z;
  _attr_max_temp : Z
}.

(** The class attributes an entity starts with. *)
Definition ClimateEntity_init (c : Coordinator) : ClimateEntity :=
  {| coordinator := c; _attr_temperature_unit := CELSIUS;
     _attr_min_temp := TEMP_MIN; _attr_max_temp := TEMP_MAX |}.

Definition set_coordinator (c : Coordinator) (e : ClimateEntity) : ClimateEntity :=
  {| coordinator := c; _attr_temperature_unit := _attr_temperature_unit e;
     _attr_min_temp := _attr_min_temp e; _attr_max_temp := _attr_max_temp e |}.

Definition set_unit (u : UnitOfTemperature) (lo hi : Z) (e : ClimateEntity) : ClimateEntity :=
  {| coordinator := coordinator e; _attr_temperature_unit := u;
     _attr_min_temp := lo; _attr_max_temp := hi |}.

(** A method of the coordinator, called on [self.coordinator]. *)
Definition on_coordinator {A} (m : Py Coordinator A) : Py ClimateEntity A :=
  fun e => let '(r, c) := m (coordinator e) in (r, set_coordinator c e).

(** A method or property of the device, on [self.coordinator.device]. *)
Definition on_entity_device {A} (m : Py Device A) : Py ClimateEntity A :=
  on_coordinator (on_device m).

Section Climate.
Variable env : Env.
(** From [const.py], which is not part of these sources. *)
Variable FAN_MEDIUM_LOW : string.
Variable FAN_MEDIUM_HIGH : string.

(** [FAN_MODES], keyed by the integers of [FanSpeed]. *)
Definition FAN_MODES : list (Z * string) :=
  [(0, FAN_AUTO); (1, FAN_LOW); (2, FAN_MEDIUM_LOW); (3, FAN_MEDIUM);
   (4, FAN_MEDIUM_HIGH); (5, FAN_HIGH)].

Definition FAN_MODES_REVERSE : list (string * Z) := reverse_dict FAN_MODES.

(** [self.coordinator.push_state_update()] *)
Definition entity_push : Py ClimateEntity unit :=
  on_coordinator (coordinator_push_state_update env).

(** [d.get(v)] for a dict keyed by integers and a property value [v] *)
Definition get_by_value {V} (d : list (Z * V)) (v : pyval) : option V :=
  match v with
  | VInt n => items_get d n
  | _ => None
  end.

(** [hvac_mode] *)
Definition hvac_mode : Py ClimateEntity (option HVACMode) :=
  let* on := on_entity_device power in
  if negb on then ret (Some HVAC_OFF)
  else
    let* m := on_entity_device mode in
    ret (get_by_value HVAC_MODES m).

(** [async_set_hvac_mode] *)
Definition async_set_hvac_mode (hvac : HVACMode) : Py ClimateEntity unit :=
  if negb (bool_decide (hvac ∈ map fst HVAC_MODES_REVERSE ++ [HVAC_OFF]))
  then raise ValueError
  else if bool_decide (hvac = HVAC_OFF) then
    run on_entity_device (power_setter false) then
    entity_push
  else
    let* on := on_entity_device power in
    run (if negb on then on_entity_device (power_setter true) else ret tt) then
    run match items_get HVAC_MODES_REVERSE hvac with
        | Some m => on_entity_device (mode_setter m)
        | None => raise TypeError
        end then
    entity_push.

(** [async_set_temperature], called with the keyword arguments
    [temperature] and [hvac_mode] when they are given. *)
Definition async_set_temperature (temperature : option Z) (hvac : option HVACMode)
  : Py ClimateEntity unit :=
  match temperature with
  | None => raise ValueError
  | Some t =>
      run match hvac with
          | Some h => async_set_hvac_mode h
          | None => ret tt
          end then
      run on_entity_device (target_temperature_setter t) then
      entity_push
  end.

(** [async_turn_on] and [async_turn_off] *)
Definition async_turn_on : Py ClimateEntity unit :=
  run on_entity_device (power_setter true) then entity_push.
Definition async_turn_off : Py ClimateEntity unit :=
  run on_entity_device (power_setter false) then entity_push.

(** [preset_mode] *)
Definition preset_mode : Py ClimateEntity string :=
  let* away := on_entity_device steady_heat in
  if away : bool then ret PRESET_AWAY
  else
    let* eco := on_entity_device power_save in
    if eco : bool then ret PRESET_ECO
    else
      let* asleep := on_entity_device sleep in
      if asleep : bool then ret PRESET_SLEEP
      else
        let* boost := on_entity_device turbo in
        if boost : bool then ret PRESET_BOOST else ret PRESET_NONE.

(** [async_set_preset_mode] *)
Definition async_set_preset_mode (preset : string) : Py ClimateEntity unit :=
  if negb (bool_decide (preset ∈ PRESET_MODES)) then raise ValueError
  else
    run on_entity_device (steady_heat_setter false) then
    run on_entity_device (power_save_setter false) then
    run on_entity_device (turbo_setter false) then
    run on_entity_device (sleep_setter false) then
    run (if String.eqb preset PRESET_AWAY then on_entity_device (steady_heat_setter true)
         else if String.eqb preset PRESET_ECO then on_entity_device (power_save_setter true)
         else if String.eqb preset PRESET_BOOST then on_entity_device (turbo_setter true)
         else if String.eqb preset PRESET_SLEEP then on_entity_device (sleep_setter true)
         else ret tt) then
    entity_push.

(** [fan_mode] *)
Definition fan_mode : Py ClimateEntity (option string) :=
  let* speed := on_entity_device fan_speed in
  ret (get_by_value FAN_MODES speed).

(** [async_set_fan_mode] *)
Definition async_set_fan_mode (fan : string) : Py ClimateEntity unit :=
  match items_get FAN_MODES_REVERSE fan with
  | None => raise ValueError
  | Some speed =>
      run on_entity_device (fan_speed_setter speed) then
      entity_push
  end.

(** [swing_mode]; [HorizontalSwing.FullSwing] and [VerticalSwing.FullSwing]
    are both 1. *)
Definition swing_mode : Py ClimateEntity string :=
  let* h := on_entity_device horizontal_swing in
  let* v := on_entity_device vertical_swing in
  let h_swing := py_eq h (VInt 1) in
  let v_swing := py_eq v (VInt 1) in
  if h_swing && v_swing then ret SWING_BOTH
  else if h_swing then ret SWING_HORIZONTAL
  else if v_swing then ret SWING_VERTICAL
  else ret SWING_OFF.

(** [async_set_swing_mode]; [HorizontalSwing.Center] and
    [VerticalSwing.FixedMiddle] are both 4. *)
Definition async_set_swing_mode (swing : string) : Py ClimateEntity unit :=
  if negb (bool_decide (swing ∈ SWING_MODES)) then raise ValueError
  else
    run on_entity_device (horizontal_swing_setter 4) then
    run on_entity_device (vertical_swing_setter 4) then
    run (if String.eqb swing SWING_BOTH || String.eqb swing SWING_HORIZONTAL
         then on_entity_device (horizontal_swing_setter 1) else ret tt) then
    run (if String.eqb swing SWING_BOTH || String.eqb swing SWING_VERTICAL
         then on_entity_device (vertical_swing_setter 1) else ret tt) then
    entity_push.

(** [_handle_coordinator_update], up to the call of the base class *)
Definition _handle_coordinator_update : Py ClimateEntity unit :=
  let* units := on_entity_device temperature_units in
  let* self := get_self in
  if py_eq units (VInt 0) && negb (bool_decide (_attr_temperature_unit self = CELSIUS))
  then modify (set_unit CELSIUS TEMP_MIN TEMP_MAX)
  else if py_eq units (VInt 1)
          && negb (bool_decide (_attr_temperature_unit self = FAHRENHEIT))
  then modify (set_unit FAHRENHEIT TEMP_MIN_F TEMP_MAX_F)
  else ret tt.
End Climate.

(** * Vocabulary of the statements and sample devices *)

Definition demo_device : Device :=
  set_dirty (fun _ => ["Mod"])
    (set_props (fun _ => <["Mod" := VInt 1]> {["Pow" := VInt 0]}) (Device_init None)).

(** The boolean accessors of the Device, each with the property it reads. *)
Definition boolean_accessors : list (Props * Py Device bool) :=
  [(POWER, power); (FRESH_AIR, fresh_air); (XFAN, xfan); (ANION, anion);
   (SLEEP, sleep); (LIGHT, light); (TURBO, turbo); (STEADY_HEAT, steady_heat);
   (POWER_SAVE, power_save); (CLEAN_FILTER, clean_filter);
   (WATER_FULL, water_full)].

(** The two list comprehensions of [_convert_to_units] on their own. *)
Definition matching_rows (c : Z) : list TempRecord :=
  List.filter (fun t => py_eq (VInt (temSet t)) (VInt c)) TEMP_TABLE.

Definition bit_rows (c : Z) (bit : pyval) : list TempRecord :=
  List.filter (fun t => py_eq (VInt (temRec t)) bit) (matching_rows c).

Definition reverse_lookup (c : Z) (bit : pyval) : option Z :=
  match bit_rows c bit with
  | t :: _ => Some (f t)
  | [] => match matching_rows c with t :: _ => Some (f t) | [] => None end
  end.

#[global] Instance TempRecord_eq_dec : EqDecision TempRecord.
Proof. solve_decision. Defined.

Definition round_trip_ok (x : Z) : bool :=
  let r := generate_temperature_record x in
  match reverse_lookup (temSet r) (VInt (temRec r)) with
  | Some y =>
      bool_decide (y ∈ map f TEMP_TABLE)
      && (TEMP_MIN_TABLE_F <=? y) && (y <=? TEMP_MAX_TABLE_F)
      && (temSet (generate_temperature_record y) =? temSet r)
      && (temRec (generate_temperature_record y) =? temRec r)
      && (TEMP_MIN_TABLE <=? temSet r) && (temSet r <=? TEMP_MAX_TABLE)
      && bool_decide (r ∈ TEMP_TABLE)
  | None => false
  end.

(** The [hid] column of a status response is a string when it is present. *)
Definition hid_ok (kwargs : gmap string pyval) : Prop :=
  match kwargs !! "hid" with
  | Some (VStr _) | None => True
  | Some _ => False
  end.

(** The version once the [hid] column, if any, has been parsed. *)
Definition version_after_hid (kwargs : gmap string pyval) (self : Device) : option string :=
  match kwargs !! "hid" with
  | Some (VStr s) => version_of_hid s
  | _ => version self
  end.

(** The Device once [hid] is parsed and the columns are merged in. *)
Definition merged (kwargs : gmap string pyval) (self : Device) : Device :=
  set_props (fun m => delete "hid" kwargs ∪ m)
    match kwargs !! "hid" with
    | Some h => set_version (version_after_hid kwargs self) (set_hid h self)
    | None => self
    end.

Definition first_report_low : gmap string pyval :=
  <["hid" := VStr "362001000762+U-CS532AE(LT)V3.31.bin"]> {["TemSen" := VInt 25]}.

Definition first_report_high : gmap string pyval :=
  <["hid" := VStr "362001000762+U-CS532AE(LT)V3.31.bin"]> {["TemSen" := VInt 65]}.

Definition version_4_zero : Device :=
  snd (handle_state_update
         (<["hid" := VStr "362001000762+U-CS532AE(LT)V4.12.bin"]>
            (<["SetTem" := VInt 25]> {["TemSen" := VInt 0]}))
         (Device_init None)).

Definition unversioned_zero : Device :=
  snd (handle_state_update (<["SetTem" := VInt 25]> {["TemSen" := VInt 0]})
         (Device_init None)).

(** The cipher variants of the bind requests among recorded calls. *)
Fixpoint bind_trials (cs : list NetCall) : list CipherKind :=
  match cs with
  | CallSend (BindMsg _) (Some c) :: t => variant c :: bind_trials t
  | _ :: t => bind_trials t
  | [] => []
  end.

(** What no call into the protocol layer touches. *)
Definition same_model (d d' : Device) : Prop :=
  device_info d' = device_info d /\ hid d' = hid d /\ version d' = version d /\
  check_version d' = check_version d /\ _properties d' = _properties d /\
  _dirty d' = _dirty d /\ _beep d' = _beep d.

(** The Device once [bind] has made sure that the transport exists. *)
Definition opened (self : Device) : Device :=
  if _transport self then self else set_transport true self.

(** The last statement of [bind]. *)
Definition verdict (d : Device) : res unit * Device :=
  (if bool_decide (device_cipher d = None) then Raise DeviceNotBoundError else Ok tt, d).

Definition some_info : option DeviceInfo :=
  Some {| ip := "192.168.1.29"; port := 7000; mac := "f4911e7aca59"; name := "ac" |}.

(** A device that never answers: every awaited call times out. *)
Definition silent : Env := fun _ => {| timed_out := true; cipher_after := id |}.

(** A protocol layer whose calls return without ever installing a cipher. *)
Definition keyless : Env := fun _ => {| timed_out := false; cipher_after := fun _ => None |}.

(** A device that answers bind requests under CipherV2 only, with a key. *)
Definition speaks_v2 : Env := fun cs =>
  match last cs with
  | Some CallReadyWait =>
      if bool_decide (CipherV2 ∈ bind_trials cs)
      then {| timed_out := false;
              cipher_after := fun _ => Some {| variant := CipherV2; key := Some "a3K8Bx%2r8Y7#xDh" |} |}
      else {| timed_out := true; cipher_after := id |}
  | _ => {| timed_out := false; cipher_after := id |}
  end.

(** The session key the Device holds: the key of its cipher object, if it
    has one. *)
Definition session_key (d : Device) : option string :=
  match device_cipher d with
  | Some c => key c
  | None => None
  end.

(** A protocol layer that keeps the cipher object of a bind request as the
    Device's cipher, and whose wait returns without the device having named a
    key: [handle_device_bound] is never called. *)
Definition installs_unkeyed : Env := fun cs =>
  match last cs with
  | Some (CallSend (BindMsg _) (Some c)) =>
      {| timed_out := false; cipher_after := fun _ => Some c |}
  | _ => {| timed_out := false; cipher_after := id |}
  end.

Definition unbound_dirty : Device := snd (power_setter true (Device_init some_info)).

Definition bound_dirty : Device :=
  set_cipher (Some {| variant := CipherV1; key := Some "a3K8Bx%2r8Y7#xDh" |}) unbound_dirty.

(** The cycle's [update_state] raises DeviceTimeoutError. *)
Definition times_out (env : Env) (c : Coordinator) : Prop :=
  fst (update_state env (device c)) = Raise DeviceTimeoutError.

(** The cycle's [update_state] returns. *)
Definition request_sent (env : Env) (c : Coordinator) : Prop :=
  fst (update_state env (device c)) = Ok tt.

(** More than the expected response interval has passed since the last
    response, on a coordinator that polls. *)
Definition stale (max_interval : Z) (now : Z) (c : Coordinator) : Prop :=
  timedelta_bool (update_interval c) = true /\
  max_interval <= now - _last_response_time c.

Definition is_status_request (c : NetCall) : bool :=
  match c with CallSend (StatusMsg _ _) _ => true | _ => false end.

(** A device that binds under CipherV1 and answers the first status request
    only. *)
Definition answers_once : Env := fun cs =>
  match last cs with
  | Some CallReadyWait =>
      {| timed_out := false;
         cipher_after := fun _ => Some {| variant := CipherV1; key := Some "a3K8Bx%2r8Y7#xDh" |} |}
  | Some (CallSend (StatusMsg _ _) _) =>
      {| timed_out := (1 <? length (List.filter is_status_request cs))%nat;
         cipher_after := id |}
  | _ => {| timed_out := false; cipher_after := id |}
  end.

Definition fresh_coordinator : Coordinator :=
  Coordinator_init 60 (Device_init some_info) 0.

(** The dirty list names each changed property once, by its wire key, and
    every dirty key has a stored value. *)
Definition dirty_wf (d : Device) : Prop :=
  NoDup (_dirty d) /\
  forall k, k ∈ _dirty d -> is_Some (_properties d !! k) /\ exists p, k = value p.

(** The boolean properties that can be written, getter and setter. *)
Definition boolean_setters : list (Py Device bool * (bool -> Py Device unit)) :=
  [(power, power_setter); (fresh_air, fresh_air_setter); (xfan, xfan_setter);
   (anion, anion_setter); (sleep, sleep_setter); (light, light_setter);
   (turbo, turbo_setter); (steady_heat, steady_heat_setter);
   (power_save, power_save_setter)].

(** The integer properties that are written unchecked, getter and setter. *)
Definition integer_setters : list (Py Device pyval * (Z -> Py Device unit)) :=
  [(mode, mode_setter); (quiet, quiet_setter); (fan_speed, fan_speed_setter);
   (horizontal_swing, horizontal_swing_setter);
   (vertical_swing, vertical_swing_setter);
   (temperature_units, temperature_units_setter)].

(** The reverse lookup of the row of [x] gives [x] back. *)
Definition round_trip_exact (x : Z) : bool :=
  let r := generate_temperature_record x in
  match reverse_lookup (temSet r) (VInt (temRec r)) with
  | Some y => y =? x
  | None => false
  end.

(** The first table row with Celsius value [c]. *)
Definition first_row (c : Z) : option Z :=
  match matching_rows c with t :: _ => Some (f t) | [] => None end.

(** Every lookup of the Celsius value [c] lands on a Fahrenheit value of the
    table that converts to [c], with the bit asked for when it is 0 or 1 and
    some row has it. *)
Definition celsius_lookup_ok (c : Z) : bool :=
  let sound (bit : pyval) :=
    match reverse_lookup c bit with
    | Some y =>
        (TEMP_MIN_TABLE_F <=? y) && (y <=? TEMP_MAX_TABLE_F)
        && (temSet (generate_temperature_record y) =? c)
    | None => false
    end in
  sound (VInt 0) && sound (VInt 1) && sound VNone
  && forallb (fun t => (temRec t =? 0) || (temRec t =? 1)) (matching_rows c).

(** The columns of a full status request. *)
Definition status_columns (self : Device) : list string :=
  map value all_props ++ (if py_bool (hid self) then [] else ["hid"]).

(** The keys of the command built from a dirty list: the dirty keys, and the
    compensation bit and the unit along with the target temperature. *)
Definition command_keys (dirty : list string) : list string :=
  dirty ++ (if bool_decide ("SetTem" ∈ dirty) then ["TemRec"; "TemUn"] else []).

(** The last staleness error is at least one polling interval old, or there
    was none. *)
Definition error_due (now : Z) (c : Coordinator) : Prop :=
  match _last_error_time c, update_interval c with
  | Some t, Some i => t <= now - i
  | _, _ => True
  end.

(** The Device behind a climate entity, and the entity with another Device. *)
Definition entity_device (e : ClimateEntity) : Device := device (coordinator e).

Definition with_device (d : Device) (e : ClimateEntity) : ClimateEntity :=
  set_coordinator (set_device d (coordinator e)) e.

(** A property of the entity's Device, as stored. *)
Definition stored (e : ClimateEntity) (k : string) : pyval :=
  dict_get (_properties (entity_device e)) k.

(** A climate entity on an unbound Device with nothing stored. *)
Definition fresh_entity : ClimateEntity := ClimateEntity_init fresh_coordinator.

(** The entity's unit and limits belong together. *)
Definition unit_consistent (e : ClimateEntity) : Prop :=
  (_attr_temperature_unit e = CELSIUS /\
   _attr_min_temp e = TEMP_MIN /\ _attr_max_temp e = TEMP_MAX) \/
  (_attr_temperature_unit e = FAHRENHEIT /\
   _attr_min_temp e = TEMP_MIN_F /\ _attr_max_temp e = TEMP_MAX_F).

(** * Properties *)

(** ** The generic property store *)

Lemma dict_get_insert_eq (m : gmap string pyval) (k : string) (v : pyval) :
  dict_get (<[k := v]> m) k = v.
Proof. unfold dict_get. by rewrite lookup_insert_eq. Qed.

Lemma py_eq_true (a b : pyval) : py_eq a b = true <-> a = b.
Proof. unfold py_eq. apply bool_decide_eq_true. Qed.

Lemma py_eq_false (a b : pyval) : py_eq a b = false <-> a <> b.
Proof. unfold py_eq. apply bool_decide_eq_false. Qed.

Lemma py_eq_refl (a : pyval) : py_eq a a = true.
Proof. by apply py_eq_true. Qed.

Lemma get_property_value (name : Props) (self : Device) :
  get_property name self = (Ok (dict_get (_properties self) (value name)), self).
Proof.
  unfold get_property. case_bool_decide as Hempty; [|done].
  by rewrite Hempty.
Qed.

Lemma set_property_same (name : Props) (v : pyval) (self : Device) :
  dict_get (_properties self) (value name) = v ->
  set_property name v self = (Ok tt, self).
Proof.
  intros Hv. unfold set_property. by rewrite (proj2 (py_eq_true _ _) Hv).
Qed.

Lemma set_property_stores (name : Props) (v : pyval) (self : Device) :
  dict_get (_properties (snd (set_property name v self))) (value name) = v.
Proof.
  unfold set_property.
  destruct (py_eq _ v) eqn:Heq; [by apply py_eq_true in Heq|].
  case_bool_decide; cbn; apply dict_get_insert_eq.
Qed.

Lemma set_property_ok (name : Props) (v : pyval) (self : Device) :
  fst (set_property name v self) = Ok tt.
Proof.
  unfold set_property. destruct (py_eq _ v); [done|]. by case_bool_decide.
Qed.

Lemma count_occ_app_fresh (l : list string) (k : string) :
  k ∉ l -> count_occ string_dec (l ++ [k]) k = 1%nat.
Proof.
  intros Hk. rewrite count_occ_app.
  rewrite (proj1 (count_occ_not_In string_dec l k)).
  - cbn. by destruct (string_dec k k).
  - by rewrite <- list_elem_of_In.
Qed.

(** C6. The generic setter and dirty tracking: reading a property leaves the
    Device as it is; storing the value a property already reads as changes
    nothing, however often it is repeated; storing a different value updates
    the store and appends the key to the dirty list unless it is there
    already, so that storing a new value twice in a row leaves the key in the
    dirty list exactly once. *)
Theorem set_property_dirty_once (name : Props) (v : pyval) (self : Device) :
  (snd (get_property name self) = self) /\
  (fst (get_property name self) = Ok v ->
     forall n : nat,
       Nat.iter n (fun d => snd (set_property name v d)) self = self /\
       set_property name v self = (Ok tt, self)) /\
  (fst (get_property name self) <> Ok v ->
     let self' := snd (set_property name v self) in
     _properties self' = <[value name := v]> (_properties self) /\
     _dirty self' =
       (if bool_decide (value name ∈ _dirty self) then _dirty self
        else _dirty self ++ [value name]) /\
     set_property name v self' = (Ok tt, self')) /\
  (fst (get_property name self) <> Ok v ->
   value name ∉ _dirty self ->
     let self'' := snd (set_property name v (snd (set_property name v self))) in
     count_occ string_dec (_dirty self'') (value name) = 1%nat).
Proof.
  rewrite get_property_value. cbn [fst snd].
  split; [done|]. split; [|split].
  - intros [= Hv] n. split; [|by apply set_property_same].
    induction n as [|n IH]; [done|]. rewrite Nat.iter_succ, IH.
    by rewrite set_property_same.
  - intros Hne. cbn zeta.
    assert (dict_get (_properties self) (value name) <> v) as Hne'
      by (intros Heq; apply Hne; by rewrite Heq).
    split; [|split].
    + unfold set_property. rewrite (proj2 (py_eq_false _ _) Hne').
      by case_bool_decide.
    + unfold set_property. rewrite (proj2 (py_eq_false _ _) Hne'). cbn.
      by case_bool_decide.
    + apply set_property_same, set_property_stores.
  - intros Hne Hfresh. cbn zeta.
    assert (dict_get (_properties self) (value name) <> v) as Hne'
      by (intros Heq; apply Hne; by rewrite Heq).
    rewrite (set_property_same name v (snd (set_property name v self)))
      by apply set_property_stores.
    cbn [snd]. unfold set_property. rewrite (proj2 (py_eq_false _ _) Hne').
    cbn. rewrite bool_decide_eq_false_2 by done. cbn.
    by apply count_occ_app_fresh.
Qed.

Lemma set_property_dirty_once_witness :
  set_property POWER (VInt 0) demo_device = (Ok tt, demo_device) /\
  _dirty (snd (set_property POWER (VInt 1) demo_device)) = ["Mod"; "Pow"] /\
  count_occ string_dec
    (_dirty (snd (set_property POWER (VInt 1)
                    (snd (set_property POWER (VInt 1) demo_device))))) "Pow" = 1%nat.
Proof.
  destruct (set_property_dirty_once POWER (VInt 0) demo_device) as (_ & Hsame & _).
  destruct (set_property_dirty_once POWER (VInt 1) demo_device) as (_ & _ & Hnew & Honce).
  split; [|split].
  - apply (Hsame eq_refl 0%nat).
  - destruct Hnew as (_ & Hd & _); [discriminate|]. exact Hd.
  - apply Honce; [discriminate|].
    cbn. intros Hin. apply list_elem_of_In in Hin. cbn in Hin.
    destruct Hin as [H|[]]. discriminate H.
Defined.

(** ** Boolean accessors *)

Lemma boolean_accessors_spec (name : Props) (acc : Py Device bool) :
  In (name, acc) boolean_accessors -> acc = bool_property name.
Proof.
  cbn. intros H.
  repeat (destruct H as [[= <- <-]|H]; [reflexivity|]). destruct H.
Qed.

Lemma bool_property_value (name : Props) (self : Device) :
  bool_property name self =
  (Ok (py_bool (dict_get (_properties self) (value name))), self).
Proof. unfold bool_property, bnd. by rewrite get_property_value. Qed.

(** C10. Each boolean accessor (power, fresh_air, xfan, anion, sleep, light,
    turbo, steady_heat, power_save, clean_filter, water_full) returns False,
    without raising and without changing the Device, when its wire key is
    absent from the property store, exactly as it does for a stored 0. *)
Theorem boolean_accessor_absent_is_false
    (name : Props) (acc : Py Device bool) (self : Device) :
  In (name, acc) boolean_accessors ->
  (_properties self !! value name = None -> acc self = (Ok false, self)) /\
  (_properties self !! value name = Some (VInt 0) -> acc self = (Ok false, self)).
Proof.
  intros Hin. rewrite (boolean_accessors_spec _ _ Hin), bool_property_value.
  unfold dict_get. split; intros ->; reflexivity.
Qed.

Lemma boolean_accessor_absent_is_false_witness :
  water_full (Device_init None) = (Ok false, Device_init None) /\
  power demo_device = (Ok false, demo_device).
Proof.
  destruct (boolean_accessor_absent_is_false WATER_FULL water_full (Device_init None))
    as [Habsent _]; [cbn; tauto|].
  destruct (boolean_accessor_absent_is_false POWER power demo_device)
    as [_ Hzero]; [cbn; tauto|].
  split; [apply Habsent | apply Hzero]; reflexivity.
Defined.

(** ** Target humidity *)

(** C3, as the code behaves: with an integer stored under [Dwet] the getter
    evaluates [15 + h * 5] and returns None. *)
Theorem target_humidity_returns_None (h : Z) (self : Device) :
  let self' := set_props (fun m => <["Dwet" := VInt h]> m) self in
  target_humidity self' = (Ok VNone, self').
Proof.
  cbn zeta. unfold target_humidity, bnd. rewrite get_property_value.
  cbn [value set_props _properties]. by rewrite dict_get_insert_eq.
Qed.

(** ** Target temperature *)

Lemma py_round_div_9_bounds (n : Z) :
  9 * py_round_div n 9 - 4 <= n <= 9 * py_round_div n 9 + 4.
Proof.
  unfold py_round_div.
  pose proof (Z.div_mod n 9 ltac:(lia)) as Hdm.
  pose proof (Z.mod_pos_bound n 9 ltac:(lia)) as Hr.
  repeat case_match; lia.
Qed.

Lemma temperature_units_value (self : Device) :
  temperature_units self = (Ok (dict_get (_properties self) "TemUn"), self).
Proof. apply get_property_value. Qed.

Lemma validate_in_range (v : Z) (self : Device) :
  TEMP_MIN <= v <= TEMP_MAX -> validate v self = (Ok tt, self).
Proof.
  unfold validate, TEMP_MIN, TEMP_MAX. intros H.
  destruct (30 <? v) eqn:H1; [lia|]. destruct (v <? 8) eqn:H2; [lia|]. done.
Qed.

Lemma validate_out_of_range (v : Z) (self : Device) :
  v < TEMP_MIN \/ TEMP_MAX < v -> validate v self = (Raise ValueError, self).
Proof.
  unfold validate, TEMP_MIN, TEMP_MAX. intros H.
  destruct (30 <? v) eqn:H1; [done|]. destruct (v <? 8) eqn:H2; [done|]. lia.
Qed.

Lemma fahrenheit_in_range (v : Z) :
  TEMP_MIN_F <= v <= TEMP_MAX_F <->
  TEMP_MIN <= temSet (generate_temperature_record v) <= TEMP_MAX.
Proof.
  unfold TEMP_MIN_F, TEMP_MAX_F, TEMP_MIN, TEMP_MAX. cbn.
  pose proof (py_round_div_9_bounds ((v - 32) * 5)). lia.
Qed.



(** ** The Fahrenheit table *)

Lemma convert_fahrenheit (c : Z) (bit : pyval) (self : Device) :
  dict_get (_properties self) "TemUn" = VInt 1 ->
  TEMP_MIN_TABLE <= c <= TEMP_MAX_TABLE ->
  _convert_to_units (VInt c) bit self =
  (match reverse_lookup c bit with Some y => Ok (VInt y) | None => Raise IndexError end,
   self).
Proof.
  intros Hu Hc. unfold _convert_to_units, bnd.
  rewrite temperature_units_value, Hu, py_eq_refl. cbn [negb eval py_lt py_gt].
  unfold TEMP_MIN_TABLE, TEMP_MAX_TABLE in *.
  destruct (c <? -60) eqn:H1; [lia|]. destruct (60 <? c) eqn:H2; [lia|].
  unfold reverse_lookup, bit_rows, matching_rows, eval, ret, raise.
  set (m := List.filter _ TEMP_TABLE).
  destruct (List.filter _ m); [destruct m|]; reflexivity.
Qed.

(** A row found by filtering is the first row of the list that passes. *)
Lemma filter_head {A} (p : A -> bool) (l : list A) (t : A) (rest : list A) :
  List.filter p l = t :: rest ->
  exists before behind,
    l = before ++ t :: behind /\ p t = true /\ forallb (fun x => negb (p x)) before = true.
Proof.
  induction l as [|x l IH]; [discriminate|]. cbn.
  destruct (p x) eqn:Hp.
  - intros [= -> _]. by exists [], l.
  - intros H. destruct (IH H) as (before & behind & -> & Ht & Hb).
    exists (x :: before), behind. cbn. by rewrite Hp.
Qed.

Lemma filter_nil {A} (p : A -> bool) (l : list A) :
  List.filter p l = [] -> forallb (fun x => negb (p x)) l = true.
Proof.
  induction l as [|x l IH]; [done|]. cbn. destruct (p x); [discriminate|]. exact IH.
Qed.

Lemma round_trip_table :
  forallb round_trip_ok
    (seqZ TEMP_MIN_TABLE_F (TEMP_MAX_TABLE_F + 1 - TEMP_MIN_TABLE_F)) = true.
Proof. vm_compute. reflexivity. Qed.

Lemma filter_twice {A} (p q : A -> bool) (l : list A) :
  List.filter q (List.filter p l) = List.filter (fun x => p x && q x) l.
Proof.
  induction l as [|x l IH]; [done|]. cbn.
  destruct (p x); cbn; [destruct (q x)|]; by rewrite IH.
Qed.

Lemma round_trip_ok_in_range (x : Z) :
  TEMP_MIN_TABLE_F <= x <= TEMP_MAX_TABLE_F -> round_trip_ok x = true.
Proof.
  intros Hx. pose proof round_trip_table as Hall.
  rewrite forallb_forall in Hall. apply Hall.
  apply list_elem_of_In, elem_of_seqZ. lia.
Qed.

(** C5. In Fahrenheit mode every integer Fahrenheit value of the table range
    [-76, 140] has its row in the table, with the Celsius value the integer
    nearest to (f - 32) * 5 / 9 and the bit 1 exactly when the fraction
    exceeds that integer. Converting the Celsius value and bit of the row
    back gives a Fahrenheit value that is in the table, lies in the range and
    has the same Celsius value and bit. For any bit the reverse lookup
    returns a value: that of the first table row with the Celsius value whose
    bit matches, or of the first row with the Celsius value when no bit
    matches; the result depends on the Celsius value and the bit alone. *)
Theorem fahrenheit_round_trip (x : Z) (self : Device) :
  dict_get (_properties self) "TemUn" = VInt 1 ->
  -76 <= x <= 140 ->
  let r := generate_temperature_record x in
  r ∈ TEMP_TABLE /\
  (9 * temSet r - 4 <= (x - 32) * 5 <= 9 * temSet r + 4 /\
   (temRec r = 1 <-> 9 * temSet r < (x - 32) * 5) /\
   (temRec r = 0 \/ temRec r = 1)) /\
  (exists y,
     _convert_to_units (VInt (temSet r)) (VInt (temRec r)) self = (Ok (VInt y), self) /\
     y ∈ map f TEMP_TABLE /\ -76 <= y <= 140 /\
     temSet (generate_temperature_record y) = temSet r /\
     temRec (generate_temperature_record y) = temRec r) /\
  (forall bit : pyval,
     exists y, fst (_convert_to_units (VInt (temSet r)) bit self) = Ok (VInt y)) /\
  (forall (bit : pyval) (y : pyval),
     fst (_convert_to_units (VInt (temSet r)) bit self) = Ok y ->
     exists before t behind,
       TEMP_TABLE = before ++ t :: behind /\ y = VInt (f t) /\ temSet t = temSet r /\
       ((VInt (temRec t) = bit /\
         forall t', t' ∈ before -> ~ (temSet t' = temSet r /\ VInt (temRec t') = bit)) \/
        ((forall t', t' ∈ TEMP_TABLE -> ~ (temSet t' = temSet r /\ VInt (temRec t') = bit)) /\
         forall t', t' ∈ before -> temSet t' <> temSet r))) /\
  (forall (bit : pyval) (other : Device),
     dict_get (_properties other) "TemUn" = VInt 1 ->
     fst (_convert_to_units (VInt (temSet r)) bit other)
     = fst (_convert_to_units (VInt (temSet r)) bit self)).
Proof.
  intros Hu Hx r.
  pose proof (round_trip_ok_in_range x Hx) as Hok. unfold round_trip_ok in Hok.
  fold r in Hok.
  destruct (reverse_lookup (temSet r) (VInt (temRec r))) as [y|] eqn:Hy; [|done].
  repeat (apply andb_prop in Hok as [Hok ?]).
  repeat match goal with
         | H : bool_decide _ = true |- _ => apply bool_decide_eq_true in H
         | H : (_ <=? _) = true |- _ => apply Z.leb_le in H
         | H : (_ =? _) = true |- _ => apply Z.eqb_eq in H
         end.
  assert (TEMP_MIN_TABLE <= temSet r <= TEMP_MAX_TABLE) as Hc by lia.
  split; [done|]. split; [|split; [|split; [|split]]].
  - subst r. unfold generate_temperature_record. cbn [temSet temRec].
    pose proof (py_round_div_9_bounds ((x - 32) * 5)) as Hb.
    destruct (9 * py_round_div ((x - 32) * 5) 9 <? (x - 32) * 5) eqn:Hlt;
      [apply Z.ltb_lt in Hlt | apply Z.ltb_ge in Hlt]; lia.
  - exists y. rewrite (convert_fahrenheit _ _ _ Hu Hc), Hy.
    unfold TEMP_MIN_TABLE_F, TEMP_MAX_TABLE_F in *. done.
  - intros bit. rewrite (convert_fahrenheit _ _ _ Hu Hc). cbn [fst].
    unfold reverse_lookup in *.
    destruct (bit_rows (temSet r) bit) as [|t rest]; [|by eexists].
    destruct (matching_rows (temSet r)) as [|t rest] eqn:Hm; [|by eexists].
    unfold bit_rows in Hy. rewrite Hm in Hy. discriminate Hy.
  - intros bit v. rewrite (convert_fahrenheit _ _ _ Hu Hc). cbn [fst].
    unfold reverse_lookup.
    destruct (bit_rows (temSet r) bit) as [|t rest] eqn:Hb.
    + destruct (matching_rows (temSet r)) as [|t rest] eqn:Hm; [done|].
      intros [= <-].
      destruct (filter_head _ _ _ _ Hm) as (before & behind & Ht & Hpt & Hbefore).
      exists before, t, behind. apply py_eq_true in Hpt as [= Hset].
      split; [done|]. split; [done|]. split; [done|]. right. split.
      * intros t' Hin [Hs Hr].
        apply filter_nil in Hb. rewrite forallb_forall in Hb.
        assert (In t' (matching_rows (temSet r))) as Hin'.
        { apply filter_In. split; [by apply list_elem_of_In|].
          apply py_eq_true. by rewrite Hs. }
        specialize (Hb t' Hin'). apply negb_true_iff, py_eq_false in Hb. done.
      * intros t' Hin Hs. rewrite forallb_forall in Hbefore.
        apply list_elem_of_In in Hin. specialize (Hbefore t' Hin).
        apply negb_true_iff, py_eq_false in Hbefore. apply Hbefore. by rewrite Hs.
    + intros [= <-]. unfold bit_rows, matching_rows in Hb.
      rewrite filter_twice in Hb.
      destruct (filter_head _ _ _ _ Hb) as (before & behind & Ht & Hpt & Hbefore).
      exists before, t, behind.
      apply andb_prop in Hpt as [[= Hset]%py_eq_true Hbit%py_eq_true].
      split; [done|]. split; [done|]. split; [done|]. left. split; [done|].
      intros t' Hin [Hs Hr]. rewrite forallb_forall in Hbefore.
      apply list_elem_of_In in Hin. specialize (Hbefore t' Hin).
      apply negb_true_iff, andb_false_iff in Hbefore.
      destruct Hbefore as [Hn%py_eq_false|Hn%py_eq_false]; apply Hn; congruence.
  - intros bit other Hu'.
    by rewrite (convert_fahrenheit _ _ _ Hu Hc), (convert_fahrenheit _ _ _ Hu' Hc).
Qed.

Lemma fahrenheit_round_trip_witness :
  let self := set_props (fun m => <["TemUn" := VInt 1]> m) demo_device in
  generate_temperature_record 70 ∈ TEMP_TABLE /\
  exists y, _convert_to_units (VInt 21) (VInt 1) self = (Ok (VInt y), self) /\
            -76 <= y <= 140.
Proof.
  cbn zeta.
  destruct (fahrenheit_round_trip 70
              (set_props (fun m => <["TemUn" := VInt 1]> m) demo_device))
    as (Hrow & _ & (y & Hy & _ & Hrange & _) & _); [reflexivity | lia |].
  split; [exact Hrow|]. exists y. split; [exact Hy | exact Hrange].
Defined.

(** ** Reading the current temperature *)

Lemma convert_state (v bit : pyval) (self : Device) :
  snd (_convert_to_units v bit self) = self.
Proof.
  unfold _convert_to_units, bnd. rewrite temperature_units_value.
  destruct (negb _); [done|]. unfold eval.
  destruct (py_lt v TEMP_MIN_TABLE) as [[|]|]; [done| |done].
  destruct (py_gt v TEMP_MAX_TABLE) as [[|]|]; [done| |done].
  destruct (List.filter _ (List.filter _ TEMP_TABLE)); [|done].
  by destruct (List.filter _ TEMP_TABLE).
Qed.

Lemma convert_celsius (v bit : pyval) (self : Device) :
  dict_get (_properties self) "TemUn" <> VInt 1 ->
  _convert_to_units v bit self = (Ok v, self).
Proof.
  intros Hu. unfold _convert_to_units, bnd. rewrite temperature_units_value.
  by rewrite (proj2 (py_eq_false _ _) Hu).
Qed.

Lemma target_temperature_value (self : Device) :
  target_temperature self =
  _convert_to_units (dict_get (_properties self) "SetTem")
                    (dict_get (_properties self) "TemRec") self.
Proof. unfold target_temperature, bnd. by rewrite !get_property_value. Qed.

Lemma major_version_state (self : Device) : snd (major_version self) = self.
Proof.
  unfold major_version, bnd, get_self, eval.
  destruct (version self) as [s|]; [|done].
  destruct (String.eqb s ""); [done|]. by destruct (py_int _).
Qed.

(** What [current_temperature] does once the raw value and the major version
    are known. *)
Lemma current_temperature_unfold (self : Device) (p : pyval) (v : option Z) :
  dict_get (_properties self) "TemSen" = p -> p <> VNone ->
  fst (major_version self) = Ok v ->
  current_temperature self =
  let bit := dict_get (_properties self) "TemRec" in
  if bool_decide (v = Some 4) then
    match _convert_to_units p bit self with
    | (Raise ValueError, _) => target_temperature self
    | r => r
    end
  else if negb (py_eq p (VInt 0)) then
    match py_sub p TEMP_OFFSET with
    | Ok q =>
        match _convert_to_units q bit self with
        | (Raise ValueError, _) => target_temperature self
        | r => r
        end
    | Raise e => (Raise e, self)
    end
  else target_temperature self.
Proof.
  intros Hp Hnone Hv. unfold current_temperature, bnd.
  rewrite !get_property_value. cbn [value]. rewrite Hp.
  rewrite bool_decide_eq_true_2 by done.
  pose proof (major_version_state self) as Hs.
  destruct (major_version self) as [r s]. cbn in Hv, Hs. subst r s.
  cbn zeta. unfold try_except, bnd.
  case_bool_decide.
  - pose proof (convert_state p (dict_get (_properties self) "TemRec") self) as Hc.
    destruct (_convert_to_units p _ self) as [[r|e] s]; cbn in Hc; subst s; [done|].
    case_bool_decide; [by subst e|]. by destruct e.
  - destruct (negb _); [|done]. unfold eval.
    destruct (py_sub p TEMP_OFFSET) as [q|e] eqn:Hsub.
    + pose proof (convert_state q (dict_get (_properties self) "TemRec") self) as Hc.
      destruct (_convert_to_units q _ self) as [[r|e] s]; cbn in Hc; subst s; [done|].
      case_bool_decide; [by subst e|]. by destruct e.
    + case_bool_decide; [|done]. subst e. by destruct p.
Qed.

Lemma target_temperature_state (self : Device) :
  snd (target_temperature self) = self.
Proof. rewrite target_temperature_value. apply convert_state. Qed.

Lemma current_temperature_state (self : Device) :
  snd (current_temperature self) = self.
Proof.
  unfold current_temperature, bnd. rewrite !get_property_value.
  case_bool_decide; [|apply target_temperature_state].
  pose proof (major_version_state self) as Hs.
  destruct (major_version self) as [[v|e] s]; cbn in Hs; subst s; [|done].
  unfold try_except, bnd, eval.
  set (p := dict_get (_properties self) (value TEMP_SENSOR)).
  set (bit := dict_get (_properties self) (value TEMP_BIT)).
  assert (forall q, match
            (let (r, s') := _convert_to_units q bit self in
             match r with
             | Ok a => ret (Some a) s'
             | Raise e => (Raise e, s')
             end)
          with
          | (Raise e', s') =>
              if bool_decide (e' = ValueError) then ret None s' else (Raise e', s')
          | r => r
          end = (match _convert_to_units q bit self with
                 | (Ok a, _) => Ok (Some a)
                 | (Raise ValueError, _) => Ok None
                 | (Raise e, _) => Raise e
                 end, self)) as Hconv.
  { intros q. pose proof (convert_state q bit self) as Hc.
    destruct (_convert_to_units q bit self) as [[r|e] s]; cbn in Hc; subst s; [done|].
    by destruct e. }
  case_bool_decide.
  - rewrite Hconv.
    destruct (_convert_to_units p bit self) as [[r|[]] s];
      try done; apply target_temperature_state.
  - destruct (negb _); [|apply target_temperature_state].
    destruct (py_sub p TEMP_OFFSET) as [q|e] eqn:Hsub.
    + rewrite Hconv.
      destruct (_convert_to_units q bit self) as [[r|[]] s];
        try done; apply target_temperature_state.
    + destruct p; cbn in Hsub; try discriminate; injection Hsub as <-; done.
Qed.

(** ** The one-shot offset detection *)

Lemma current_temperature_then (self : Device) :
  snd (let (r, s') := current_temperature self in
       match r with
       | Ok _ => ret tt s'
       | Raise e => (Raise e, s')
       end) = self.
Proof.
  pose proof (current_temperature_state self) as Hs.
  by destruct (current_temperature self) as [[r|e] s].
Qed.

Lemma handle_state_update_after (kwargs : gmap string pyval) (self : Device) :
  hid_ok kwargs ->
  snd (handle_state_update kwargs self) =
  let d := merged kwargs self in
  if check_version self && bool_decide (is_Some (kwargs !! "TemSen")) then
    match dict_get (_properties d) "TemSen" with
    | VInt n =>
        if negb (n =? 0) && (n <? 40)
        then set_version (Some "4.0") (set_check_version false d)
        else set_check_version false d
    | _ => set_check_version false d
    end
  else d.
Proof.
  intros Hhid. unfold hid_ok in Hhid.
  assert (exists kw d1,
    kw = delete "hid" kwargs /\
    d1 = match kwargs !! "hid" with
         | Some h => set_version (version_after_hid kwargs self) (set_hid h self)
         | None => self
         end /\
    handle_state_update kwargs self =
    (run modify (set_props (fun m => kw ∪ m)) then
     let* self := get_self in
     if check_version self && bool_decide (is_Some (kw !! value TEMP_SENSOR)) then
       run modify (set_check_version false) then
       let* temp := get_property TEMP_SENSOR in
       let* low :=
         (if py_bool temp then eval (fun _ => py_lt temp TEMP_OFFSET) else ret false) in
       run (if low : bool then modify (set_version (Some "4.0")) else ret tt) then
       run current_temperature then
       ret tt
     else ret tt) d1) as (kw & d1 & Hkw & Hd1 & ->).
  { unfold handle_state_update, version_after_hid.
    destruct (kwargs !! "hid") as [[| |s]|] eqn:Hh; try done.
    - by eexists _, _.
    - eexists _, _. split; [done|]. split; [done|].
      by rewrite delete_id. }
  unfold merged. rewrite <- Hkw, <- Hd1. cbn zeta.
  assert (check_version d1 = check_version self) as Hcv
    by (subst d1; by destruct (kwargs !! "hid")).
  assert (kw !! "TemSen" = kwargs !! "TemSen") as Hts
    by (subst kw; by rewrite lookup_delete_ne).
  unfold bnd, modify, get_self. cbn [check_version set_props value].
  rewrite Hcv, Hts.
  destruct (check_version self && _); [|done].
  rewrite get_property_value.
  cbn [_properties set_check_version set_props value].
  set (d2 := set_props _ d1).
  destruct (dict_get _ "TemSen") as [|n|s] eqn:Ht.
  - cbn [py_bool]. unfold ret. apply current_temperature_then.
  - cbn [py_bool]. unfold ret, eval, py_lt, TEMP_OFFSET.
    destruct (n =? 0); cbn [negb andb]; [apply current_temperature_then|].
    destruct (n <? 40); apply current_temperature_then.
  - cbn [py_bool]. unfold ret, eval, py_lt.
    destruct (negb _); [done | apply current_temperature_then].
Qed.

Lemma merged_fields (kwargs : gmap string pyval) (self : Device) :
  hid_ok kwargs ->
  check_version (merged kwargs self) = check_version self /\
  version (merged kwargs self) = version_after_hid kwargs self /\
  _properties (merged kwargs self) = delete "hid" kwargs ∪ _properties self.
Proof.
  unfold hid_ok, merged, version_after_hid.
  by destruct (kwargs !! "hid") as [[| |s]|].
Qed.

Lemma merged_sensor (kwargs : gmap string pyval) (self : Device) (p : pyval) :
  hid_ok kwargs -> kwargs !! "TemSen" = Some p ->
  dict_get (_properties (merged kwargs self)) "TemSen" = p.
Proof.
  intros Hhid Hp. destruct (merged_fields kwargs self Hhid) as (_ & _ & ->).
  unfold dict_get.
  rewrite (lookup_union_Some_l _ _ _ p); [done|]. by rewrite lookup_delete_ne.
Qed.

Lemma major_version_4 (self : Device) :
  version self = Some "4.0" -> fst (major_version self) = Ok (Some 4).
Proof. intros Hv. unfold major_version, bnd, get_self. by rewrite Hv. Qed.

(** C1, as the code has it. The detection runs on the first status update
    that carries a raw sensor reading and never again: the one-shot flag
    [check_version] is cleared by that update and stays cleared, later
    updates leave the version to the [hid] parser. When the flag was set and
    the reading is a non-zero integer below 40, the version becomes "4.0"
    whatever was parsed, and [current_temperature] hands the raw value to the
    unit conversion without an offset. Otherwise the version stays as parsed,
    and [current_temperature] subtracts 40 from a non-zero raw value before
    the unit conversion when the major version is not 4, and nothing when it
    is 4. *)
Theorem offset_detection_one_shot
    (kwargs : gmap string pyval) (self : Device) (n : Z) :
  hid_ok kwargs ->
  kwargs !! "TemSen" = Some (VInt n) ->
  let self' := snd (handle_state_update kwargs self) in
  let bit := dict_get (_properties self') "TemRec" in
  check_version self' = false /\
  (forall later, hid_ok later ->
     let self'' := snd (handle_state_update later self') in
     check_version self'' = false /\
     version self'' = version_after_hid later self') /\
  (check_version self = true -> n <> 0 -> n < 40 ->
     version self' = Some "4.0" /\
     (fst (_convert_to_units (VInt n) bit self') <> Raise ValueError ->
      current_temperature self' = _convert_to_units (VInt n) bit self')) /\
  (check_version self = true -> n = 0 \/ 40 <= n ->
     version self' = version_after_hid kwargs self /\
     (forall v, fst (major_version self') = Ok v -> v <> Some 4 -> n <> 0 ->
        fst (_convert_to_units (VInt (n - 40)) bit self') <> Raise ValueError ->
        current_temperature self' = _convert_to_units (VInt (n - 40)) bit self') /\
     (fst (major_version self') = Ok (Some 4) ->
        fst (_convert_to_units (VInt n) bit self') <> Raise ValueError ->
        current_temperature self' = _convert_to_units (VInt n) bit self')).
Proof.
  intros Hhid Hn. cbn zeta.
  pose proof (handle_state_update_after kwargs self Hhid) as Hafter.
  cbn zeta in Hafter. rewrite Hn in Hafter.
  rewrite bool_decide_eq_true_2, andb_true_r in Hafter by done.
  rewrite (merged_sensor kwargs self (VInt n) Hhid Hn) in Hafter.
  destruct (merged_fields kwargs self Hhid) as (Hcv & Hver & Hprops).
  set (self' := snd (handle_state_update kwargs self)) in *.
  assert (check_version self' = false) as Hcleared.
  { rewrite Hafter. destruct (check_version self) eqn:Hc.
    - by destruct (negb (n =? 0) && (n <? 40)).
    - rewrite Hcv. done. }
  assert (dict_get (_properties self') "TemSen" = VInt n) as Hsensor.
  { rewrite Hafter.
    pose proof (merged_sensor kwargs self (VInt n) Hhid Hn) as Hm.
    destruct (check_version self); [|done].
    by destruct (negb (n =? 0) && (n <? 40)). }
  split; [done|]. split; [|split].
  - intros later Hlater. cbn zeta.
    rewrite (handle_state_update_after later self' Hlater). cbn zeta.
    rewrite Hcleared. cbn [andb].
    destruct (merged_fields later self' Hlater) as (-> & -> & _). done.
  - intros Hc Hn0 Hlow.
    assert (negb (n =? 0) && (n <? 40) = true) as Hdet.
    { apply andb_true_iff. split; [apply negb_true_iff|]; lia. }
    rewrite Hc, Hdet in Hafter.
    assert (version self' = Some "4.0") as Hv by (by rewrite Hafter).
    split; [done|]. intros Hconv.
    rewrite (current_temperature_unfold self' (VInt n) (Some 4) Hsensor);
      [|done|by apply major_version_4].
    cbn zeta. rewrite bool_decide_eq_true_2 by done.
    destruct (_convert_to_units (VInt n) _ self') as [[r|e] s]; [done|].
    by destruct e.
  - intros Hc Hhigh.
    assert (negb (n =? 0) && (n <? 40) = false) as Hdet.
    { apply andb_false_iff. destruct Hhigh as [->|Hhigh]; [by left|right; lia]. }
    rewrite Hc, Hdet in Hafter.
    split; [by rewrite Hafter|]. split.
    + intros v Hv Hv4 Hn0 Hconv.
      rewrite (current_temperature_unfold self' (VInt n) v Hsensor); [|done|done].
      cbn zeta. rewrite bool_decide_eq_false_2 by done.
      rewrite (proj2 (py_eq_false (VInt n) (VInt 0))) by congruence.
      cbn [negb py_sub]. unfold TEMP_OFFSET.
      destruct (_convert_to_units (VInt (n - 40)) _ self') as [[r|e] s]; [done|].
      by destruct e.
    + intros Hv Hconv.
      rewrite (current_temperature_unfold self' (VInt n) (Some 4) Hsensor); [|done|done].
      cbn zeta. rewrite bool_decide_eq_true_2 by done.
      destruct (_convert_to_units (VInt n) _ self') as [[r|e] s]; [done|].
      by destruct e.
Qed.

Lemma offset_detection_one_shot_witness :
  let low := snd (handle_state_update first_report_low (Device_init None)) in
  let high := snd (handle_state_update first_report_high (Device_init None)) in
  (check_version low = false /\ version low = Some "4.0" /\
   current_temperature low = (Ok (VInt 25), low)) /\
  (check_version high = false /\ version high = Some "3.31" /\
   current_temperature high = (Ok (VInt 25), high)).
Proof.
  cbn zeta. split.
  - destruct (offset_detection_one_shot first_report_low (Device_init None) 25)
      as (Hflag & _ & Hlow & _); [exact I | reflexivity |].
    destruct Hlow as [Hv Hread]; [reflexivity | lia | lia |].
    split; [exact Hflag|]. split; [exact Hv|].
    rewrite Hread by (vm_compute; discriminate).
    apply convert_celsius. vm_compute. discriminate.
  - destruct (offset_detection_one_shot first_report_high (Device_init None) 65)
      as (Hflag & _ & _ & Hhigh); [exact I | reflexivity |].
    destruct Hhigh as (Hv & Hread & _); [reflexivity | lia |].
    split; [exact Hflag|]. split; [exact Hv|].
    rewrite (Hread (Some 3)); [| vm_compute; reflexivity | discriminate | lia
                               | vm_compute; discriminate].
    apply convert_celsius. vm_compute. discriminate.
Defined.

(** The first report of a device whose [hid] parses to version 3.31 carries
    the raw value 25, non-zero and below 40: the reading is then returned as
    it is, 25 and not 25 - 40; with the raw value 65, not below 40, the
    offset is subtracted. *)
Lemma offset_detection_counterexample :
  let low := snd (handle_state_update first_report_low (Device_init None)) in
  let high := snd (handle_state_update first_report_high (Device_init None)) in
  version_of_hid "362001000762+U-CS532AE(LT)V3.31.bin" = Some "3.31" /\
  fst (current_temperature low) = Ok (VInt 25) /\
  fst (current_temperature low) <> Ok (VInt (25 - 40)) /\
  fst (current_temperature high) = Ok (VInt (65 - 40)) /\
  fst (current_temperature high) <> Ok (VInt 65).
Proof. vm_compute. repeat split; discriminate. Qed.

(** ** A raw sensor value of 0 *)

(** C2, as the code has it. With the raw sensor value 0 in the store,
    [current_temperature] returns what [target_temperature] returns when the
    version is unset or its major number is not 4; when the major number is
    4 the 0 is a reading like any other and is converted: 0 in Celsius, 32 in
    Fahrenheit. *)
Theorem current_temperature_zero (self : Device) :
  _properties self !! "TemSen" = Some (VInt 0) ->
  (forall v, fst (major_version self) = Ok v -> v <> Some 4 ->
     current_temperature self = target_temperature self) /\
  (fst (major_version self) = Ok (Some 4) ->
     current_temperature self =
     (Ok (VInt (if py_eq (dict_get (_properties self) "TemUn") (VInt 1) then 32 else 0)),
      self)).
Proof.
  intros H0.
  assert (dict_get (_properties self) "TemSen" = VInt 0) as Hs
    by (unfold dict_get; by rewrite H0).
  split.
  - intros v Hv Hv4.
    rewrite (current_temperature_unfold self (VInt 0) v Hs); [|done|done].
    cbn zeta. by rewrite bool_decide_eq_false_2.
  - intros Hv.
    rewrite (current_temperature_unfold self (VInt 0) (Some 4) Hs); [|done|done].
    cbn zeta. rewrite bool_decide_eq_true_2 by done.
    destruct (py_eq _ (VInt 1)) eqn:Hu.
    + apply py_eq_true in Hu.
      rewrite (convert_fahrenheit 0 _ self Hu) by (unfold TEMP_MIN_TABLE, TEMP_MAX_TABLE; lia).
      assert (forall bit, reverse_lookup 0 bit = Some 32) as ->; [|done].
      intros bit. unfold reverse_lookup, bit_rows.
      replace (matching_rows 0) with [generate_temperature_record 32]
        by (vm_compute; reflexivity).
      cbn [List.filter]. by destruct (py_eq _ bit).
    + apply py_eq_false in Hu. by rewrite convert_celsius.
Qed.

Lemma current_temperature_zero_witness :
  current_temperature unversioned_zero = target_temperature unversioned_zero /\
  current_temperature version_4_zero = (Ok (VInt 0), version_4_zero).
Proof.
  destruct (current_temperature_zero unversioned_zero) as [Hother _]; [reflexivity|].
  destruct (current_temperature_zero version_4_zero) as [_ Hfour]; [reflexivity|].
  split.
  - apply (Hother None); [reflexivity | discriminate].
  - apply Hfour. reflexivity.
Defined.

(** A device whose firmware id parses to version 4.12 reports the raw value
    0 and the target 25: the reading returned is 0, not the target. *)
Lemma current_temperature_zero_counterexample :
  version version_4_zero = Some "4.12" /\
  _properties version_4_zero !! "TemSen" = Some (VInt 0) /\
  fst (current_temperature version_4_zero) = Ok (VInt 0) /\
  fst (target_temperature version_4_zero) = Ok (VInt 25) /\
  fst (current_temperature version_4_zero) <> fst (target_temperature version_4_zero).
Proof. vm_compute. repeat split; discriminate. Qed.

(** ** Binding *)

Lemma same_model_refl (d : Device) : same_model d d.
Proof. by repeat split. Qed.

Lemma same_model_trans (d1 d2 d3 : Device) :
  same_model d1 d2 -> same_model d2 d3 -> same_model d1 d3.
Proof. unfold same_model. intuition congruence. Qed.

Lemma opened_same_model (d : Device) : same_model d (opened d).
Proof. unfold opened. destruct (_transport d); by repeat split. Qed.

Section NetworkFacts.
Variable env : Env.

Lemma await_net_spec (c : NetCall) (self : Device) :
  let r := await_net env c self in
  (fst r = Ok tt \/ fst r = Raise AsyncTimeoutError) /\
  calls (snd r) = calls self ++ [c] /\ same_model self (snd r).
Proof.
  cbn zeta. unfold await_net.
  destruct (timed_out _); cbn; (split; [tauto|]); by repeat split.
Qed.

Lemma bind_internal_spec (c : Cipher) (self : Device) :
  let r := bind_internal env c self in
  (fst r = Ok tt \/ fst r = Raise AsyncTimeoutError) /\
  (exists rest, calls (snd r) = calls self ++ rest /\ bind_trials rest = [variant c]) /\
  same_model self (snd r).
Proof.
  cbn zeta. unfold bind_internal, send, bnd, get_self.
  set (m := CallSend (BindMsg (device_info self)) (Some c)).
  destruct (await_net_spec m self) as (H1 & Hc1 & Hm1).
  destruct (await_net env m self) as [[[]|e] s1]; cbn [fst snd] in *.
  - destruct (await_net_spec CallReadyWait s1) as (H2 & Hc2 & Hm2).
    split; [done|]. split; [|by eapply same_model_trans].
    exists [m; CallReadyWait]. rewrite Hc2, Hc1, <- app_assoc. done.
  - split; [done|]. split; [|done]. by exists [m].
Qed.
End NetworkFacts.

Lemma bind_unfold (env : Env) (self : Device) :
  device_info self <> None ->
  bind env None None self =
  let first := bind_internal env CipherV1_new (opened self) in
  match fst first with
  | Ok _ => verdict (snd first)
  | Raise _ =>
      let second := bind_internal env CipherV2_new (snd first) in
      match fst second with
      | Ok _ => verdict (snd second)
      | Raise _ => (Raise DeviceTimeoutError, snd second)
      end
  end.
Proof.
  intros Hinfo. unfold bind, bnd, get_self, try_except, verdict, opened.
  rewrite bool_decide_eq_false_2 by done.
  assert ((if _transport self then ret tt else modify (set_transport true)) self
          = (Ok tt, if _transport self then self else set_transport true self)) as ->
    by (by destruct (_transport self)).
  set (d0 := if _transport self then self else set_transport true self).
  destruct (bind_internal_spec env CipherV1_new d0) as ([H1|H1] & _ & _);
    destruct (bind_internal env CipherV1_new d0) as [r1 s1]; cbn [fst snd] in *;
    subst r1; cbn -[bind_internal].
  - by destruct (bool_decide _).
  - destruct (bind_internal_spec env CipherV2_new s1) as ([H2|H2] & _ & _);
      destruct (bind_internal env CipherV2_new s1) as [r2 s2]; cbn [fst snd] in *;
      subst r2; cbn -[bind_internal];
      rewrite !(bool_decide_eq_true_2 (AsyncTimeoutError = AsyncTimeoutError)) by done;
      cbn -[bind_internal]; [by destruct (bool_decide _) | done].
Qed.

Lemma verdict_spec (d : Device) :
  let r := verdict d in
  (device_cipher (snd r) = None -> fst r = Raise DeviceNotBoundError) /\
  (device_cipher (snd r) <> None -> fst r = Ok tt) /\
  (session_key (snd r) <> None -> fst r = Ok tt) /\
  (fst r = Raise DeviceNotBoundError -> session_key (snd r) = None) /\
  (forall k,
     (fst r = Ok tt ->
        let d' := snd (handle_device_bound k (snd r)) in
        fst (handle_device_bound k (snd r)) = Ok tt /\
        session_key d' = Some k /\ same_model (snd r) d' /\ calls d' = calls (snd r)) /\
     (fst r = Raise DeviceNotBoundError ->
        handle_device_bound k (snd r) = (Raise AttributeError, snd r))).
Proof.
  cbn zeta. unfold verdict, session_key, handle_device_bound, bnd, get_self. cbn [fst snd].
  destruct (device_cipher d) as [c|] eqn:Hc.
  - rewrite bool_decide_eq_false_2 by done.
    split; [done|]. split; [done|]. split; [done|]. split; [done|].
    intros k. split; [|done]. intros _. cbn.
    split; [done|]. split; [done|]. split; [|done]. by repeat split.
  - rewrite bool_decide_eq_true_2 by done.
    split; [done|]. split; [done|]. split; [done|]. split; [done|].
    intros k. split; [done|]. intros _. done.
Qed.




(** ** Pushing dirty properties *)

Lemma bind_none_spec (env : Env) (self : Device) :
  let r := bind env None None self in
  same_model self (snd r) /\
  (fst r = Ok tt \/ fst r = Raise DeviceTimeoutError \/ fst r = Raise DeviceNotBoundError).
Proof.
  cbn zeta. destruct (device_info self) as [info|] eqn:Hinfo.
  - rewrite bind_unfold by (rewrite Hinfo; done). cbn zeta.
    destruct (bind_internal_spec env CipherV1_new (opened self)) as (_ & _ & Hm1).
    pose proof (same_model_trans _ _ _ (opened_same_model self) Hm1) as Hm1'.
    destruct (bind_internal env CipherV1_new (opened self)) as [r1 s1].
    cbn [fst snd] in *.
    destruct (bind_internal_spec env CipherV2_new s1) as (_ & _ & Hm2).
    pose proof (same_model_trans _ _ _ Hm1' Hm2) as Hm2'.
    destruct (bind_internal env CipherV2_new s1) as [r2 s2].
    cbn [fst snd] in *. unfold verdict.
    destruct r1; [|destruct r2]; cbn [fst snd];
      (split; [done|]); try case_bool_decide; tauto.
  - unfold bind, bnd, get_self. rewrite Hinfo. cbn.
    split; [apply same_model_refl | tauto].
Qed.

Lemma push_after_binding (env : Env) (self : Device) :
  let r :=
    (let* self := get_self in
     let props := push_props self in
     run modify (set_dirty (fun _ => [])) then
     try_except (send env (CommandMsg (device_info self) props) None)
                AsyncTimeoutError
                (raise DeviceTimeoutError)) self in
  _dirty (snd r) = [] /\ (fst r = Ok tt \/ fst r = Raise DeviceTimeoutError).
Proof.
  cbn zeta. unfold bnd, get_self, modify, try_except, send.
  set (d := set_dirty _ self). set (m := CallSend _ _).
  destruct (await_net_spec env m d) as (Hr & _ & Hm).
  destruct (await_net env m d) as [r s]. cbn [fst snd] in *.
  destruct Hm as (_ & _ & _ & _ & _ & Hd & _).
  destruct Hr as [-> | ->]; [by split; [|left]|].
  rewrite bool_decide_eq_true_2 by done. split; [done | by right].
Qed.

(** C7, as the code has it. A push with an empty dirty list returns at once
    and leaves the Device, its record of network calls included, as it was.
    With dirty keys, a push that gets to the command (the Device has a
    cipher, or the bind it starts with succeeds) leaves the dirty list empty
    whether the send returns or times out, and so does every push that
    returns; a push whose bind fails raises the error of the bind and keeps
    the dirty list. *)
Theorem push_state_update_dirty (env : Env) (self : Device) :
  let r := push_state_update env self in
  let b := bind env None None self in
  (_dirty self = [] -> r = (Ok tt, self)) /\
  (fst r = Ok tt -> _dirty (snd r) = []) /\
  (device_cipher self <> None \/ fst b = Ok tt ->
     _dirty (snd r) = [] /\ (fst r = Ok tt \/ fst r = Raise DeviceTimeoutError)) /\
  (_dirty self <> [] -> device_cipher self = None ->
   forall e, fst b = Raise e ->
     fst r = Raise e /\ _dirty (snd r) = _dirty self /\
     (e = DeviceTimeoutError \/ e = DeviceNotBoundError)).
Proof.
  cbn zeta.
  assert (_dirty self = [] -> push_state_update env self = (Ok tt, self)) as Hempty.
  { intros Hd. unfold push_state_update, bnd, get_self. by rewrite Hd. }
  assert (_dirty self <> [] ->
          push_state_update env self =
          match ensure_bound env self with
          | (Ok _, s) =>
              (let* self := get_self in
               let props := push_props self in
               run modify (set_dirty (fun _ => [])) then
               try_except (send env (CommandMsg (device_info self) props) None)
                          AsyncTimeoutError
                          (raise DeviceTimeoutError)) s
          | (Raise e, s) => (Raise e, s)
          end) as Hdirty.
  { intros Hd. unfold push_state_update at 1. unfold bnd at 1, get_self at 1.
    destruct (_dirty self); [done|]. unfold bnd at 1. reflexivity. }
  assert (ensure_bound env self =
          if bool_decide (device_cipher self = None)
          then bind env None None self else (Ok tt, self)) as Hensure.
  { unfold ensure_bound, bnd, get_self. by case_bool_decide. }
  destruct (bind_none_spec env self) as (Hmodel & Hres).
  split; [done|]. split; [|split].
  - destruct (decide (_dirty self = [])) as [Hd|Hd].
    + rewrite (Hempty Hd). done.
    + rewrite (Hdirty Hd). destruct (ensure_bound env self) as [[[]|e] s]; [|done].
      intros _. apply push_after_binding.
  - intros Hbound.
    destruct (decide (_dirty self = [])) as [Hd|Hd].
    + rewrite (Hempty Hd). by split; [|left].
    + rewrite (Hdirty Hd), Hensure.
      case_bool_decide as Hc.
      * destruct Hbound as [Hbound|Hbound]; [done|].
        destruct (bind env None None self) as [rb sb]. cbn in Hbound. subst rb.
        apply push_after_binding.
      * apply push_after_binding.
  - intros Hd Hc e He. rewrite (Hdirty Hd), Hensure.
    rewrite bool_decide_eq_true_2 by done.
    destruct (bind env None None self) as [rb sb]. cbn [fst snd] in *. subst rb.
    split; [done|]. split; [apply Hmodel|].
    destruct Hres as [?|[[= ->]|[= ->]]]; [done|by left|by right].
Qed.

Lemma push_state_update_dirty_witness :
  push_state_update silent (Device_init some_info) = (Ok tt, Device_init some_info) /\
  _dirty (snd (push_state_update silent bound_dirty)) = [] /\
  _dirty (snd (push_state_update speaks_v2 unbound_dirty)) = [] /\
  (fst (push_state_update silent unbound_dirty) = Raise DeviceTimeoutError /\
   _dirty (snd (push_state_update silent unbound_dirty)) = ["Pow"]).
Proof.
  destruct (push_state_update_dirty silent (Device_init some_info)) as (Hempty & _).
  destruct (push_state_update_dirty silent bound_dirty) as (_ & _ & Hbound & _).
  destruct (push_state_update_dirty speaks_v2 unbound_dirty) as (_ & _ & Hbinds & _).
  destruct (push_state_update_dirty silent unbound_dirty) as (_ & _ & _ & Hfails).
  split; [|split; [|split]].
  - apply Hempty. reflexivity.
  - apply Hbound. left. discriminate.
  - apply Hbinds. right. reflexivity.
  - destruct (Hfails ltac:(discriminate) eq_refl DeviceTimeoutError eq_refl)
      as (Hr & Hd & _).
    split; [exact Hr | exact Hd].
Defined.

(** An unbound Device with the dirty key [Pow] and a device that never
    answers: the push raises DeviceTimeoutError out of the bind, before the
    dirty list is cleared. *)
Lemma push_state_update_dirty_counterexample :
  let r := push_state_update silent unbound_dirty in
  fst r = Raise DeviceTimeoutError /\ _dirty (snd r) = ["Pow"] /\ _dirty (snd r) <> [].
Proof. vm_compute. repeat split; discriminate. Qed.

(** ** The polling coordinator *)

Section PollingFacts.
Variable env : Env.
Variable MAX_ERRORS : Z.
Variable MAX_EXPECTED_RESPONSE_TIME_INTERVAL : Z.

Abbreviation cycle := (_async_update_data env MAX_ERRORS MAX_EXPECTED_RESPONSE_TIME_INTERVAL).
Abbreviation poll := (refresh env MAX_ERRORS MAX_EXPECTED_RESPONSE_TIME_INTERVAL).

Lemma cycle_timeout (now now_end : Z) (c : Coordinator) :
  times_out env c ->
  let r := cycle now now_end c in
  _error_count (snd r) = _error_count c + 1 /\
  last_update_success (snd r) = last_update_success c /\
  (last_update_success c = true /\ MAX_ERRORS <= _error_count c + 1 ->
     fst r = Raise UpdateFailed) /\
  (~ (last_update_success c = true /\ MAX_ERRORS <= _error_count c + 1) ->
     exists dat, fst r = Ok dat).
Proof.
  unfold times_out. intros Ht. cbn zeta.
  unfold _async_update_data, on_device.
  destruct (update_state env (device c)) as [ru d]. cbn in Ht. subst ru.
  unfold on_timeout, finish_cycle, bnd, get_self, modify. cbn.
  destruct (last_update_success c) eqn:Hl; cbn; rewrite ?Hl.
  - destruct (MAX_ERRORS <=? _error_count c + 1) eqn:Hm; cbn; rewrite ?Hl.
    + split; [done|]. split; [done|]. split; [done|].
      intros H. exfalso. apply H. split; [done|lia].
    + split; [done|]. split; [done|]. split; [|by eexists]. intros [_ H]. lia.
  - split; [done|]. split; [done|]. split; [|by eexists]. by intros [H _].
Qed.

Lemma cycle_fresh (now now_end : Z) (c : Coordinator) :
  request_sent env c ->
  ~ stale MAX_EXPECTED_RESPONSE_TIME_INTERVAL now c ->
  let r := cycle now now_end c in
  _error_count (snd r) = 0 /\
  last_update_success (snd r) = last_update_success c /\
  (0 < MAX_ERRORS -> exists dat, fst r = Ok dat).
Proof.
  unfold request_sent, stale. intros Hs Hfresh. cbn zeta.
  unfold _async_update_data, on_device.
  destruct (update_state env (device c)) as [ru d]. cbn in Hs. subst ru.
  unfold on_sent, finish_cycle, bnd, get_self, modify.
  cbn [update_interval set_device _last_response_time].
  assert (timedelta_bool (update_interval c)
          && (MAX_EXPECTED_RESPONSE_TIME_INTERVAL <=? now - _last_response_time c)
          = false) as ->.
  { apply not_true_is_false. intros [H1 H2%Z.leb_le]%andb_true_iff. by apply Hfresh. }
  cbn. destruct (last_update_success c) eqn:Hl; cbn; rewrite ?Hl.
  - destruct (MAX_ERRORS <=? 0) eqn:Hm; cbn; rewrite ?Hl;
      (split; [done|]); (split; [done|]); intros; [lia | by eexists].
  - split; [done|]. split; [done|]. by eexists.
Qed.

Lemma poll_health (now now_end : Z) (c : Coordinator) :
  let r := poll now now_end c in
  fst r = fst (cycle now now_end c) /\
  _error_count (snd r) = _error_count (snd (cycle now now_end c)) /\
  device (snd r) = device (snd (cycle now now_end c)) /\
  (last_update_success (snd r) = true <-> exists dat, fst r = Ok dat).
Proof.
  cbn zeta. unfold refresh.
  destruct (cycle now now_end c) as [[dat|e] c']; cbn; repeat split;
    try done; try (by eexists). by intros [dat [=]].
Qed.
End PollingFacts.

Lemma three_timeouts (env : Env) (max_interval : Z) (c : Coordinator)
    (t1 e1 t2 e2 t3 e3 : Z) :
  let poll := refresh env 3 max_interval in
  let c1 := snd (poll t1 e1 c) in
  let c2 := snd (poll t2 e2 c1) in
  let c3 := snd (poll t3 e3 c2) in
  _error_count c = 0 ->
  times_out env c -> times_out env c1 -> times_out env c2 ->
  (exists dat, fst (poll t1 e1 c) = Ok dat) /\
  (exists dat, fst (poll t2 e2 c1) = Ok dat) /\
  last_update_success c1 = true /\ last_update_success c2 = true /\
  fst (poll t3 e3 c2) = Raise UpdateFailed /\ last_update_success c3 = false.
Proof.
  cbn zeta. intros H0 T1 T2 T3.
  destruct (poll_health env 3 max_interval t1 e1 c) as (Hr1 & He1 & _ & Hl1).
  destruct (cycle_timeout env 3 max_interval t1 e1 c T1) as (Hc1 & _ & _ & Hok1).
  set (c1 := snd (refresh env 3 max_interval t1 e1 c)) in *.
  destruct (poll_health env 3 max_interval t2 e2 c1) as (Hr2 & He2 & _ & Hl2).
  destruct (cycle_timeout env 3 max_interval t2 e2 c1 T2) as (Hc2 & _ & _ & Hok2).
  set (c2 := snd (refresh env 3 max_interval t2 e2 c1)) in *.
  destruct (poll_health env 3 max_interval t3 e3 c2) as (Hr3 & He3 & _ & Hl3).
  destruct (cycle_timeout env 3 max_interval t3 e3 c2 T3) as (Hc3 & _ & Hfail3 & _).
  assert (exists dat, fst (refresh env 3 max_interval t1 e1 c) = Ok dat) as Hd1.
  { rewrite Hr1. apply Hok1. intros [_ ?]. lia. }
  assert (exists dat, fst (refresh env 3 max_interval t2 e2 c1) = Ok dat) as Hd2.
  { rewrite Hr2. apply Hok2. intros [_ ?]. lia. }
  assert (fst (refresh env 3 max_interval t3 e3 c2) = Raise UpdateFailed) as Hf3.
  { rewrite Hr3. apply Hfail3. split; [by apply Hl2|]. lia. }
  repeat split; try done; [by apply Hl1 | by apply Hl2 |].
  apply not_true_is_false. intros [dat Hdat]%Hl3. congruence.
Qed.

(** C9. In the read path a cycle that ends in a device timeout adds one to
    the error counter and raises UpdateFailed exactly when the counter has
    then reached MAX_ERRORS and the last update counted as successful; a
    cycle whose request goes out and which is not stale sets the counter to
    zero, as does a status response. With MAX_ERRORS = 3 and the counter at
    zero, of three consecutive timeouts the first two are absorbed and the
    third fails the update; after one successful, non-stale cycle it again
    takes three consecutive timeouts to fail. *)
Theorem timeout_threshold
    (env : Env) (MAX_ERRORS max_interval : Z) (c : Coordinator) (now now_end : Z) :
  let cycle := _async_update_data env MAX_ERRORS max_interval in
  let poll := refresh env MAX_ERRORS max_interval in
  (times_out env c ->
     _error_count (snd (cycle now now_end c)) = _error_count c + 1 /\
     (fst (cycle now now_end c) = Raise UpdateFailed <->
      last_update_success c = true /\ MAX_ERRORS <= _error_count c + 1)) /\
  (request_sent env c -> ~ stale max_interval now c ->
     _error_count (snd (cycle now now_end c)) = 0) /\
  _error_count (snd (device_state_updated now c)) = 0 /\
  (MAX_ERRORS = 3 -> _error_count c = 0 ->
   forall t1 e1 t2 e2 t3 e3,
     let c1 := snd (poll t1 e1 c) in
     let c2 := snd (poll t2 e2 c1) in
     let c3 := snd (poll t3 e3 c2) in
     times_out env c -> times_out env c1 -> times_out env c2 ->
     last_update_success c1 = true /\ last_update_success c2 = true /\
     fst (poll t3 e3 c2) = Raise UpdateFailed /\ last_update_success c3 = false) /\
  (MAX_ERRORS = 3 -> request_sent env c -> ~ stale max_interval now c ->
   forall t1 e1 t2 e2 t3 e3,
     let c0 := snd (poll now now_end c) in
     let c1 := snd (poll t1 e1 c0) in
     let c2 := snd (poll t2 e2 c1) in
     let c3 := snd (poll t3 e3 c2) in
     times_out env c0 -> times_out env c1 -> times_out env c2 ->
     _error_count c0 = 0 /\
     last_update_success c1 = true /\ last_update_success c2 = true /\
     fst (poll t3 e3 c2) = Raise UpdateFailed /\ last_update_success c3 = false).
Proof.
  cbn zeta. split; [|split; [|split; [|split]]].
  - intros Ht.
    destruct (cycle_timeout env MAX_ERRORS max_interval now now_end c Ht)
      as (Hc & _ & Hfail & Hok).
    split; [done|]. split; [|done].
    intros Hraise.
    destruct (decide (last_update_success c = true /\ MAX_ERRORS <= _error_count c + 1))
      as [H|H]; [done|].
    destruct (Hok H) as [dat Hdat]. congruence.
  - intros Hs Hfresh.
    by destruct (cycle_fresh env MAX_ERRORS max_interval now now_end c Hs Hfresh).
  - done.
  - intros -> H0 t1 e1 t2 e2 t3 e3 T1 T2 T3.
    destruct (three_timeouts env max_interval c t1 e1 t2 e2 t3 e3 H0 T1 T2 T3)
      as (_ & _ & H1 & H2 & H3 & H4). done.
  - intros -> Hs Hfresh t1 e1 t2 e2 t3 e3 T1 T2 T3.
    destruct (cycle_fresh env 3 max_interval now now_end c Hs Hfresh) as (H0 & _).
    destruct (poll_health env 3 max_interval now now_end c) as (_ & He & _).
    rewrite <- He in H0.
    destruct (three_timeouts env max_interval _ t1 e1 t2 e2 t3 e3 H0 T1 T2 T3)
      as (_ & _ & H1 & H2 & H3 & H4). done.
Qed.

Lemma timeout_threshold_witness :
  (let r := _async_update_data silent 3 120 60 60 fresh_coordinator in
   _error_count (snd r) = 1 /\ fst r <> Raise UpdateFailed) /\
  _error_count (snd (_async_update_data answers_once 3 120 60 60 fresh_coordinator)) = 0 /\
  (let poll := refresh silent 3 120 in
   let c1 := snd (poll 60 60 fresh_coordinator) in
   let c2 := snd (poll 120 120 c1) in
   let c3 := snd (poll 180 180 c2) in
   last_update_success c1 = true /\ last_update_success c2 = true /\
   fst (poll 180 180 c2) = Raise UpdateFailed /\ last_update_success c3 = false) /\
  (let poll := refresh answers_once 3 120 in
   let c0 := snd (poll 60 60 fresh_coordinator) in
   let c1 := snd (poll 120 120 c0) in
   let c2 := snd (poll 180 180 c1) in
   let c3 := snd (poll 240 240 c2) in
   _error_count c0 = 0 /\
   last_update_success c1 = true /\ last_update_success c2 = true /\
   fst (poll 240 240 c2) = Raise UpdateFailed /\ last_update_success c3 = false).
Proof.
  assert (~ stale 120 60 fresh_coordinator) as Hfresh by (unfold stale; cbn; lia).
  destruct (timeout_threshold silent 3 120 fresh_coordinator 60 60)
    as (Hcycle & _ & _ & Hthree & _).
  destruct (timeout_threshold answers_once 3 120 fresh_coordinator 60 60)
    as (_ & Hreset & _ & _ & Hagain).
  split; [|split; [|split]].
  - destruct (Hcycle eq_refl) as [Hcount Hiff]. split; [exact Hcount|].
    intros Hraise. apply Hiff in Hraise as [_ Hle]. cbn in Hle. lia.
  - apply Hreset; [reflexivity | exact Hfresh].
  - apply (Hthree eq_refl eq_refl 60 60 120 120 180 180); reflexivity.
  - apply (Hagain eq_refl); [reflexivity | exact Hfresh | reflexivity ..].
Defined.

(** * Further properties of the Device *)

(** ** Reading back what was written *)

Lemma value_inj (p q : Props) : value p = value q -> p = q.
Proof. destruct p, q; cbn; intros H; try reflexivity; discriminate H. Qed.

Lemma set_property_lookup (name : Props) (v : pyval) (self : Device) (k : string) :
  dict_get (_properties (snd (set_property name v self))) k =
  if bool_decide (k = value name) then v else dict_get (_properties self) k.
Proof.
  case_bool_decide as Hk; [subst k; apply set_property_stores|].
  unfold set_property. destruct (py_eq _ v); [done|].
  case_bool_decide; cbn; unfold dict_get; by rewrite lookup_insert_ne.
Qed.

Lemma set_property_frame (name : Props) (v : pyval) (self : Device) :
  let self' := snd (set_property name v self) in
  device_info self' = device_info self /\ device_cipher self' = device_cipher self /\
  _transport self' = _transport self /\ calls self' = calls self /\
  hid self' = hid self /\ version self' = version self /\
  check_version self' = check_version self /\ _beep self' = _beep self.
Proof.
  cbn zeta. unfold set_property. destruct (py_eq _ v); [done|].
  by case_bool_decide.
Qed.

(** X1. Whatever is written with [set_property] is what [get_property] reads
    afterwards, every other property reads as before, and nothing but the
    store and the dirty list changes: every other key of the store keeps its
    entry, the dirty list stays as it is or gains the written key at its end,
    and the device info, the cipher, the transport, the record of calls, the
    hid, the version, the one-shot flag and the beep flag are left alone. *)
Theorem get_after_set (name other : Props) (v : pyval) (self : Device) :
  let self' := snd (set_property name v self) in
  fst (get_property name self') = Ok v /\
  (other <> name -> fst (get_property other self') = fst (get_property other self)) /\
  (forall k, k <> value name -> _properties self' !! k = _properties self !! k) /\
  (_dirty self' = _dirty self \/ _dirty self' = _dirty self ++ [value name]) /\
  device_info self' = device_info self /\ device_cipher self' = device_cipher self /\
  _transport self' = _transport self /\ calls self' = calls self /\
  hid self' = hid self /\ version self' = version self /\
  check_version self' = check_version self /\ _beep self' = _beep self.
Proof.
  cbn zeta. rewrite !get_property_value. cbn [fst].
  rewrite !set_property_lookup. rewrite bool_decide_eq_true_2 by done.
  split; [done|]. split; [|split; [|split]].
  - intros Hne. rewrite bool_decide_eq_false_2; [done|].
    intros Heq. by apply Hne, value_inj.
  - intros k Hk. unfold set_property. destruct (py_eq _ v); [done|].
    case_bool_decide; cbn; by rewrite lookup_insert_ne.
  - unfold set_property. destruct (py_eq _ v); [by left|].
    case_bool_decide; cbn; [by left | by right].
  - apply set_property_frame.
Qed.

Lemma get_after_set_witness :
  fst (get_property POWER (snd (set_property MODE (VInt 4) demo_device)))
  = fst (get_property POWER demo_device).
Proof.
  destruct (get_after_set MODE POWER (VInt 4) demo_device) as (_ & Hother & _).
  apply Hother. discriminate.
Defined.

(** ** The dirty list *)

Lemma set_property_dirty_wf (name : Props) (v : pyval) (self : Device) :
  dirty_wf self -> dirty_wf (snd (set_property name v self)).
Proof.
  intros [Hnd Hk]. unfold set_property.
  destruct (py_eq _ v); [done|].
  case_bool_decide as Hin; cbn [snd]; split; cbn.
  - done.
  - intros k Hkin. destruct (Hk k Hkin) as [[x Hx] Hp]. split; [|done].
    destruct (decide (k = value name)) as [->|Hne];
      [rewrite lookup_insert_eq | rewrite lookup_insert_ne by done]; eauto.
  - apply NoDup_app. split; [done|]. split; [|apply NoDup_singleton].
    intros k Hkin ->%list_elem_of_singleton. done.
  - intros k [Hkin| ->%list_elem_of_singleton]%elem_of_app.
    + destruct (Hk k Hkin) as [[x Hx] Hp]. split; [|done].
      destruct (decide (k = value name)) as [->|Hne];
        [rewrite lookup_insert_eq | rewrite lookup_insert_ne by done]; eauto.
    + rewrite lookup_insert_eq. split; [eauto|]. by exists name.
Qed.

Lemma handle_state_update_store (kwargs : gmap string pyval) (self : Device) :
  let self' := snd (handle_state_update kwargs self) in
  _dirty self' = _dirty self /\
  (_properties self' = _properties self \/
   _properties self' = delete "hid" kwargs ∪ _properties self).
Proof.
  cbn zeta.
  destruct (kwargs !! "hid") as [h|] eqn:Hh.
  - destruct h as [| |s].
    + unfold handle_state_update, bnd. rewrite Hh. cbn. by split; [|left].
    + unfold handle_state_update, bnd. rewrite Hh. cbn. by split; [|left].
    + assert (hid_ok kwargs) as Hok by (unfold hid_ok; by rewrite Hh).
      rewrite (handle_state_update_after kwargs self Hok). cbn zeta.
      destruct (merged_fields kwargs self Hok) as (_ & _ & Hp).
      assert (_dirty (merged kwargs self) = _dirty self) as Hd
        by (unfold merged; by rewrite Hh).
      destruct (check_version self && _); [|by split; [|right]].
      destruct (dict_get _ "TemSen") as [|n|s']; try (by split; [|right]).
      destruct (negb (n =? 0) && (n <? 40)); by split; [|right].
  - assert (hid_ok kwargs) as Hok by (unfold hid_ok; by rewrite Hh).
    rewrite (handle_state_update_after kwargs self Hok). cbn zeta.
    destruct (merged_fields kwargs self Hok) as (_ & _ & Hp).
    assert (_dirty (merged kwargs self) = _dirty self) as Hd
      by (unfold merged; by rewrite Hh).
    destruct (check_version self && _); [|by split; [|right]].
    destruct (dict_get _ "TemSen") as [|n|s']; try (by split; [|right]).
    destruct (negb (n =? 0) && (n <? 40)); by split; [|right].
Qed.

(** ** What the exchanges leave alone *)

Lemma guarded_send_spec (env : Env) (m : Msg) (self : Device) :
  let r := try_except (send env m None) AsyncTimeoutError (raise DeviceTimeoutError) self in
  let lost := timed_out (env (calls self ++ [CallSend m None])) in
  fst r = (if lost then Raise DeviceTimeoutError else Ok tt) /\
  calls (snd r) = calls self ++ [CallSend m None] /\
  same_model self (snd r) /\
  device_cipher (snd r)
  = cipher_after (env (calls self ++ [CallSend m None])) (device_cipher self).
Proof.
  cbn zeta. unfold try_except, send, await_net, raise.
  destruct (timed_out _); cbn; rewrite ?bool_decide_eq_true_2 by done; cbn;
    repeat split.
Qed.

Lemma bind_explicit_unfold (env : Env) (c : Cipher) (self : Device) :
  device_info self <> None ->
  bind env None (Some c) self =
  let a := bind_internal env c (opened self) in
  match fst a with
  | Ok _ => verdict (snd a)
  | Raise _ => (Raise DeviceTimeoutError, snd a)
  end.
Proof.
  intros Hinfo. unfold bind, bnd, get_self, try_except, verdict, opened.
  rewrite bool_decide_eq_false_2 by done.
  assert ((if _transport self then ret tt else modify (set_transport true)) self
          = (Ok tt, if _transport self then self else set_transport true self)) as ->
    by (by destruct (_transport self)).
  set (d0 := if _transport self then self else set_transport true self).
  destruct (bind_internal_spec env c d0) as ([H1|H1] & _ & _);
    destruct (bind_internal env c d0) as [r1 s1]; cbn [fst snd] in *;
    subst r1; cbn -[bind_internal].
  - by destruct (bool_decide _).
  - done.
Qed.

Lemma bind_empty_key (env : Env) (c : option Cipher) (self : Device) :
  bind env (Some "") c self = bind env None c self.
Proof. by destruct c. Qed.

Lemma bind_model (env : Env) (k : option string) (c : option Cipher) (self : Device) :
  same_model self (snd (bind env k c self)).
Proof.
  assert (forall c', same_model self (snd (bind env None c' self))) as Hnone.
  { intros [c'|]; [|apply bind_none_spec].
    destruct (device_info self) as [info|] eqn:Hinfo.
    - rewrite bind_explicit_unfold by (rewrite Hinfo; done). cbn zeta.
      destruct (bind_internal_spec env c' (opened self)) as (_ & _ & Hm).
      pose proof (same_model_trans _ _ _ (opened_same_model self) Hm) as Hm'.
      destruct (bind_internal env c' (opened self)) as [[[]|e] s]; done.
    - unfold bind, bnd, get_self. rewrite Hinfo. cbn. apply same_model_refl. }
  destruct k as [[|a k]|]; [rewrite bind_empty_key; apply Hnone | | apply Hnone].
  destruct c as [c|]; cbn; by repeat split.
Qed.

Lemma ensure_bound_unfold (env : Env) (self : Device) :
  ensure_bound env self =
  if bool_decide (device_cipher self = None)
  then bind env None None self else (Ok tt, self).
Proof. unfold ensure_bound, bnd, get_self. by case_bool_decide. Qed.

Lemma ensure_bound_model (env : Env) (self : Device) :
  same_model self (snd (ensure_bound env self)).
Proof.
  rewrite ensure_bound_unfold. case_bool_decide; [apply bind_model|].
  apply same_model_refl.
Qed.

Lemma update_state_unfold (env : Env) (self : Device) :
  update_state env self =
  match ensure_bound env self with
  | (Ok _, s) =>
      try_except
        (send env (StatusMsg (device_info s)
                     (map value all_props ++ (if py_bool (hid s) then [] else ["hid"])))
              None)
        AsyncTimeoutError (raise DeviceTimeoutError) s
  | (Raise e, s) => (Raise e, s)
  end.
Proof.
  unfold update_state, bnd at 1.
  destruct (ensure_bound env self) as [[[]|e] s]; [|done]. reflexivity.
Qed.

Lemma request_version_unfold (env : Env) (self : Device) :
  request_version env self =
  match ensure_bound env self with
  | (Ok _, s) =>
      try_except (send env (StatusMsg (device_info s) ["hid"]) None)
                 AsyncTimeoutError (raise DeviceTimeoutError) s
  | (Raise e, s) => (Raise e, s)
  end.
Proof.
  unfold request_version, bnd at 1.
  destruct (ensure_bound env self) as [[[]|e] s]; [|done]. reflexivity.
Qed.

Lemma push_state_update_unfold (env : Env) (self : Device) :
  push_state_update env self =
  match _dirty self with
  | [] => (Ok tt, self)
  | _ :: _ =>
      match ensure_bound env self with
      | (Ok _, s) =>
          try_except (send env (CommandMsg (device_info s) (push_props s)) None)
                     AsyncTimeoutError (raise DeviceTimeoutError)
                     (set_dirty (fun _ => []) s)
      | (Raise e, s) => (Raise e, s)
      end
  end.
Proof.
  unfold push_state_update, bnd at 1, get_self at 1.
  destruct (_dirty self) as [|k0 rest]; [done|]. unfold bnd at 1.
  destruct (ensure_bound env self) as [[[]|e] s]; [|done]. reflexivity.
Qed.

Lemma update_state_model (env : Env) (self : Device) :
  same_model self (snd (update_state env self)).
Proof.
  rewrite update_state_unfold.
  pose proof (ensure_bound_model env self) as Hm.
  destruct (ensure_bound env self) as [[[]|e] s]; [|done].
  destruct (guarded_send_spec env
              (StatusMsg (device_info s)
                 (map value all_props ++ (if py_bool (hid s) then [] else ["hid"]))) s)
    as (_ & _ & Hs & _).
  by eapply same_model_trans.
Qed.

Lemma request_version_model (env : Env) (self : Device) :
  same_model self (snd (request_version env self)).
Proof.
  rewrite request_version_unfold.
  pose proof (ensure_bound_model env self) as Hm.
  destruct (ensure_bound env self) as [[[]|e] s]; [|done].
  destruct (guarded_send_spec env (StatusMsg (device_info s) ["hid"]) s)
    as (_ & _ & Hs & _).
  by eapply same_model_trans.
Qed.

Lemma push_state_update_model (env : Env) (self : Device) :
  let self' := snd (push_state_update env self) in
  same_model (set_dirty (fun _ => _dirty self') self) self' /\
  (_dirty self' = _dirty self \/ _dirty self' = []).
Proof.
  cbn zeta. rewrite push_state_update_unfold.
  destruct (_dirty self) as [|k0 rest] eqn:Hd.
  { split; [|by left]. unfold same_model. cbn. by rewrite Hd. }
  pose proof (ensure_bound_model env self) as Hm.
  destruct (ensure_bound env self) as [[[]|e] s]; cbn [snd].
  + destruct (guarded_send_spec env (CommandMsg (device_info s) (push_props s))
                (set_dirty (fun _ => []) s)) as (_ & _ & Hs & _).
    set (s2 := snd (try_except _ _ _ _)) in *.
    destruct Hm as (? & ? & ? & ? & ? & ? & ?).
    destruct Hs as (? & ? & ? & ? & ? & Hdirty & ?). cbn in *.
    split; [|by right]. unfold same_model. cbn.
    repeat split; congruence.
  + destruct Hm as (? & ? & ? & ? & ? & Hdirty & ?). cbn [snd] in *.
    split; [|left; by rewrite Hdirty]. unfold same_model. cbn. by repeat split.
Qed.

(** X2. No exchange with the device writes to the Device's model of it: [bind],
    [update_state] and [request_version] leave the device info, [hid], the
    version, the one-shot flag, the property store, the dirty list and the
    beep flag as they were, and [push_state_update] leaves all of these but
    the dirty list, which it keeps or empties. *)
Theorem exchanges_keep_model
    (env : Env) (k : option string) (c : option Cipher) (self : Device) :
  same_model self (snd (bind env k c self)) /\
  same_model self (snd (update_state env self)) /\
  same_model self (snd (request_version env self)) /\
  (let self' := snd (push_state_update env self) in
   same_model (set_dirty (fun _ => _dirty self') self) self' /\
   (_dirty self' = _dirty self \/ _dirty self' = [])).
Proof.
  split; [apply bind_model|].
  split; [apply update_state_model|].
  split; [apply request_version_model|].
  apply push_state_update_model.
Qed.



(** ** Typed setters *)

Lemma bool_roundtrip (name : Props) (b : bool) (self : Device) :
  bool_property name (snd (set_property name (VInt (int_of_bool b)) self))
  = (Ok b, snd (set_property name (VInt (int_of_bool b)) self)).
Proof.
  rewrite bool_property_value, set_property_stores. by destruct b.
Qed.

(** X4. A boolean property reads back as it was written, for each of power,
    fresh_air, xfan, anion, sleep, light, turbo, steady_heat and power_save;
    the setter never raises, and the sleep setter stores the same flag under
    [SlpMod] too. *)
Theorem boolean_setter_round_trip
    (get : Py Device bool) (set : bool -> Py Device unit) (b : bool) (self : Device) :
  In (get, set) boolean_setters ->
  fst (set b self) = Ok tt /\
  fst (get (snd (set b self))) = Ok b /\
  dict_get (_properties (snd (sleep_setter b self))) "SlpMod" = VInt (int_of_bool b).
Proof.
  intros Hin.
  assert (dict_get (_properties (snd (sleep_setter b self))) "SlpMod"
          = VInt (int_of_bool b)) as Hslp.
  { unfold sleep_setter, bnd.
    destruct (set_property SLEEP (VInt (int_of_bool b)) self) as [[[]|e] s] eqn:E.
    - apply (set_property_stores SLEEP_MODE).
    - pose proof (set_property_ok SLEEP (VInt (int_of_bool b)) self) as H.
      rewrite E in H. discriminate H. }
  assert ((exists n, get = bool_property n /\
                     set = (fun b => set_property n (VInt (int_of_bool b)))) \/
          (get = sleep /\ set = sleep_setter)) as [(n & -> & ->)|[-> ->]].
  { cbn in Hin.
    destruct Hin as [H|[H|[H|[H|[H|[H|[H|[H|[H|[]]]]]]]]]]; injection H as <- <-;
      first [by right | left; eexists; split; reflexivity]. }
  - split; [apply set_property_ok|]. split; [|exact Hslp].
    by rewrite bool_roundtrip.
  - pose proof (set_property_ok SLEEP (VInt (int_of_bool b)) self) as H.
    pose proof (set_property_stores SLEEP (VInt (int_of_bool b)) self) as Hst.
    unfold sleep_setter, bnd, sleep in *.
    destruct (set_property SLEEP (VInt (int_of_bool b)) self) as [[[]|e] s];
      [|discriminate H].
    cbn [fst snd] in *. split; [apply set_property_ok|]. split; [|exact Hslp].
    rewrite bool_property_value. cbn [fst].
    rewrite set_property_lookup. rewrite bool_decide_eq_false_2 by done.
    rewrite Hst. by destruct b.
Qed.

Lemma boolean_setter_round_trip_witness :
  fst (turbo (snd (turbo_setter true demo_device))) = Ok true.
Proof.
  destruct (boolean_setter_round_trip turbo turbo_setter true demo_device)
    as (_ & Hget & _); [cbn; tauto | exact Hget].
Defined.

(** X5. An enumerated property (mode, quiet, fan_speed, horizontal_swing,
    vertical_swing, temperature_units) takes any integer without checking
    it against its enumeration and reads back as that integer. *)
Theorem integer_setter_round_trip
    (get : Py Device pyval) (set : Z -> Py Device unit) (v : Z) (self : Device) :
  In (get, set) integer_setters ->
  fst (set v self) = Ok tt /\ fst (get (snd (set v self))) = Ok (VInt v).
Proof.
  intros Hin.
  assert (exists n, get = get_property n /\ set = (fun v => set_property n (VInt v)))
    as (n & -> & ->).
  { cbn in Hin.
    destruct Hin as [H|[H|[H|[H|[H|[H|[]]]]]]]; injection H as <- <-;
      eexists; split; reflexivity. }
  split; [apply set_property_ok|].
  rewrite get_property_value. cbn [fst]. apply f_equal, set_property_stores.
Qed.

Lemma integer_setter_round_trip_witness :
  fst (vertical_swing (snd (vertical_swing_setter 99 demo_device))) = Ok (VInt 99).
Proof.
  destruct (integer_setter_round_trip vertical_swing vertical_swing_setter 99 demo_device)
    as [_ Hget]; [cbn; tauto | exact Hget].
Defined.

(** ** The temperature table, both ways *)

Lemma round_trip_exact_table :
  forallb round_trip_exact
    (seqZ TEMP_MIN_TABLE_F (TEMP_MAX_TABLE_F + 1 - TEMP_MIN_TABLE_F)) = true.
Proof. vm_compute. reflexivity. Qed.

Lemma celsius_lookup_table :
  forallb celsius_lookup_ok
    (seqZ TEMP_MIN_TABLE (TEMP_MAX_TABLE + 1 - TEMP_MIN_TABLE)) = true.
Proof. vm_compute. reflexivity. Qed.

Lemma reverse_lookup_exact (z : Z) :
  -76 <= z <= 140 ->
  let rz := generate_temperature_record z in
  reverse_lookup (temSet rz) (VInt (temRec rz)) = Some z /\
  TEMP_MIN_TABLE <= temSet rz <= TEMP_MAX_TABLE.
Proof.
  intros Hz. pose proof round_trip_exact_table as Hall.
  rewrite forallb_forall in Hall.
  assert (round_trip_exact z = true) as Hok.
  { apply Hall, list_elem_of_In, elem_of_seqZ.
    unfold TEMP_MIN_TABLE_F, TEMP_MAX_TABLE_F. lia. }
  pose proof (round_trip_ok_in_range z) as Hrange.
  unfold TEMP_MIN_TABLE_F, TEMP_MAX_TABLE_F in Hrange. specialize (Hrange Hz).
  unfold round_trip_exact in Hok. unfold round_trip_ok in Hrange. cbn zeta in *.
  destruct (reverse_lookup _ _) as [y|]; [|done].
  apply Z.eqb_eq in Hok. subst y. split; [done|].
  repeat (apply andb_prop in Hrange as [Hrange ?]).
  repeat match goal with
         | H : (_ <=? _) = true |- _ => apply Z.leb_le in H
         end.
  lia.
Qed.

Lemma convert_back_exact (x : Z) (self : Device) :
  dict_get (_properties self) "TemUn" = VInt 1 ->
  -76 <= x <= 140 ->
  let r := generate_temperature_record x in
  _convert_to_units (VInt (temSet r)) (VInt (temRec r)) self = (Ok (VInt x), self).
Proof.
  intros Hu Hx r. subst r.
  destruct (reverse_lookup_exact x Hx) as [Hlook Hc]. cbn zeta in *.
  by rewrite (convert_fahrenheit _ _ _ Hu Hc), Hlook.
Qed.

(** X6. In Fahrenheit mode no two Fahrenheit values of the table range share a
    Celsius value and compensation bit, and converting the Celsius value and
    bit of a Fahrenheit value back returns that very value. *)
Theorem fahrenheit_round_trip_exact (x : Z) (self : Device) :
  dict_get (_properties self) "TemUn" = VInt 1 ->
  -76 <= x <= 140 ->
  let r := generate_temperature_record x in
  _convert_to_units (VInt (temSet r)) (VInt (temRec r)) self = (Ok (VInt x), self) /\
  (forall y, -76 <= y <= 140 ->
     temSet (generate_temperature_record y) = temSet r ->
     temRec (generate_temperature_record y) = temRec r -> y = x).
Proof.
  intros Hu Hx r. split.
  - by apply convert_back_exact.
  - intros y Hy Hs Hr. subst r.
    destruct (reverse_lookup_exact x Hx) as [Hlook _].
    destruct (reverse_lookup_exact y Hy) as [Hlook' _]. cbn zeta in *.
    rewrite Hs, Hr in Hlook'. congruence.
Qed.

Lemma fahrenheit_round_trip_exact_witness :
  let self := set_props (fun m => <["TemUn" := VInt 1]> m) demo_device in
  _convert_to_units (VInt 21) (VInt 0) self = (Ok (VInt 69), self).
Proof.
  cbn zeta.
  destruct (fahrenheit_round_trip_exact 69
              (set_props (fun m => <["TemUn" := VInt 1]> m) demo_device))
    as [Hback _]; [reflexivity | lia | exact Hback].
Defined.

(** X7. In Fahrenheit mode every Celsius value of the table range [-60, 60]
    converts, whatever the bit (0, 1, missing or anything else), to a
    Fahrenheit value of the table whose Celsius value is the one given. *)
Theorem celsius_to_fahrenheit_sound (c : Z) (bit : pyval) (self : Device) :
  dict_get (_properties self) "TemUn" = VInt 1 ->
  -60 <= c <= 60 ->
  exists y,
    _convert_to_units (VInt c) bit self = (Ok (VInt y), self) /\
    -76 <= y <= 140 /\
    temSet (generate_temperature_record y) = c.
Proof.
  intros Hu Hc.
  pose proof celsius_lookup_table as Hall. rewrite forallb_forall in Hall.
  assert (celsius_lookup_ok c = true) as Hok.
  { apply Hall, list_elem_of_In, elem_of_seqZ.
    unfold TEMP_MIN_TABLE, TEMP_MAX_TABLE. lia. }
  unfold celsius_lookup_ok in Hok.
  apply andb_prop in Hok as [Hok Hbits].
  apply andb_prop in Hok as [Hok Hnone].
  apply andb_prop in Hok as [H0 H1].
  rewrite (convert_fahrenheit c bit self Hu)
    by (unfold TEMP_MIN_TABLE, TEMP_MAX_TABLE; lia).
  assert (exists b', reverse_lookup c bit = reverse_lookup c b' /\
                     (b' = VInt 0 \/ b' = VInt 1 \/ b' = VNone)) as (b' & -> & Hb').
  { destruct (decide (bit = VInt 0)) as [->|Hn0]; [by exists (VInt 0); auto|].
    destruct (decide (bit = VInt 1)) as [->|Hn1]; [by exists (VInt 1); auto|].
    exists VNone. split; [|auto].
    assert (forall b, b <> VInt 0 -> b <> VInt 1 -> bit_rows c b = []) as Hempty.
    { intros b Hb0 Hb1. unfold bit_rows.
      rewrite forallb_forall in Hbits.
      induction (matching_rows c) as [|t l IH]; [done|]. cbn.
      assert ((temRec t =? 0) || (temRec t =? 1) = true) as Ht
        by (apply Hbits; by left).
      rewrite (proj2 (py_eq_false (VInt (temRec t)) b)).
      - apply IH. intros x Hx. apply Hbits. by right.
      - apply orb_true_iff in Ht as [->%Z.eqb_eq| ->%Z.eqb_eq]; congruence. }
    unfold reverse_lookup. by rewrite !Hempty. }
  assert (match reverse_lookup c b' with
          | Some y =>
              (TEMP_MIN_TABLE_F <=? y) && (y <=? TEMP_MAX_TABLE_F)
              && (temSet (generate_temperature_record y) =? c)
          | None => false
          end = true) as Hsound
    by (destruct Hb' as [->|[->| ->]]; done).
  destruct (reverse_lookup c b') as [y|]; [|done].
  apply andb_prop in Hsound as [[Hlo%Z.leb_le Hhi%Z.leb_le]%andb_prop Hs%Z.eqb_eq].
  exists y. unfold TEMP_MIN_TABLE_F, TEMP_MAX_TABLE_F in *. done.
Qed.

Lemma celsius_to_fahrenheit_sound_witness :
  let self := set_props (fun m => <["TemUn" := VInt 1]> m) demo_device in
  exists y, _convert_to_units (VInt 20) VNone self = (Ok (VInt y), self) /\
            -76 <= y <= 140 /\ temSet (generate_temperature_record y) = 20.
Proof.
  cbn zeta.
  apply (celsius_to_fahrenheit_sound 20 VNone
           (set_props (fun m => <["TemUn" := VInt 1]> m) demo_device));
    [reflexivity | lia].
Defined.

(** ** Target temperature: write, then read *)

Lemma target_temperature_setter_celsius (v : Z) (self : Device) :
  dict_get (_properties self) "TemUn" <> VInt 1 -> 8 <= v <= 30 ->
  target_temperature_setter v self = set_property TEMP_SET (VInt v) self.
Proof.
  intros Hu Hv. unfold target_temperature_setter, bnd.
  rewrite temperature_units_value, (proj2 (py_eq_false _ _) Hu).
  by rewrite validate_in_range.
Qed.

Lemma target_temperature_setter_fahrenheit (v : Z) (self : Device) :
  dict_get (_properties self) "TemUn" = VInt 1 -> 46 <= v <= 86 ->
  let r := generate_temperature_record v in
  target_temperature_setter v self =
  set_property TEMP_BIT (VInt (temRec r))
    (snd (set_property TEMP_SET (VInt (temSet r)) self)).
Proof.
  intros Hu Hv. cbn zeta. unfold target_temperature_setter, bnd.
  rewrite temperature_units_value, (proj2 (py_eq_true _ _) Hu).
  rewrite validate_in_range by (by apply fahrenheit_in_range).
  pose proof (set_property_ok TEMP_SET
                (VInt (temSet (generate_temperature_record v))) self) as Hok.
  destruct (set_property TEMP_SET _ self) as [[[]|e] s]; [done | discriminate Hok].
Qed.

(** X8. A target temperature accepted by the setter is the one the getter returns
    afterwards: in Celsius for 8..30, and in Fahrenheit for 46..86, where the
    value passes through the Celsius value and compensation bit and comes
    back exactly. *)
Theorem target_temperature_round_trip (v : Z) (self : Device) :
  let units := dict_get (_properties self) "TemUn" in
  (units <> VInt 1 -> 8 <= v <= 30 ->
     fst (target_temperature (snd (target_temperature_setter v self))) = Ok (VInt v)) /\
  (units = VInt 1 -> 46 <= v <= 86 ->
     fst (target_temperature (snd (target_temperature_setter v self))) = Ok (VInt v)).
Proof.
  cbn zeta. split; intros Hu Hv.
  - rewrite target_temperature_setter_celsius by done.
    rewrite target_temperature_value, convert_celsius.
    + cbn [fst]. by rewrite (set_property_lookup TEMP_SET).
    + by rewrite (set_property_lookup TEMP_SET).
  - rewrite target_temperature_setter_fahrenheit by done.
    set (r := generate_temperature_record v).
    set (s1 := snd (set_property TEMP_SET (VInt (temSet r)) self)).
    set (s2 := snd (set_property TEMP_BIT (VInt (temRec r)) s1)).
    rewrite target_temperature_value.
    assert (dict_get (_properties s2) "SetTem" = VInt (temSet r)) as ->.
    { unfold s2. rewrite (set_property_lookup TEMP_BIT).
      rewrite bool_decide_eq_false_2 by done.
      unfold s1. by rewrite (set_property_lookup TEMP_SET). }
    assert (dict_get (_properties s2) "TemRec" = VInt (temRec r)) as ->.
    { unfold s2. by rewrite (set_property_lookup TEMP_BIT). }
    assert (dict_get (_properties s2) "TemUn" = VInt 1) as Hu2.
    { unfold s2. rewrite (set_property_lookup TEMP_BIT).
      rewrite bool_decide_eq_false_2 by done.
      unfold s1. rewrite (set_property_lookup TEMP_SET).
      by rewrite bool_decide_eq_false_2. }
    pose proof (convert_back_exact v s2 Hu2 ltac:(lia)) as Hback. cbn zeta in Hback.
    fold r in Hback. by rewrite Hback.
Qed.

Lemma target_temperature_round_trip_witness :
  fst (target_temperature (snd (target_temperature_setter 24 demo_device)))
    = Ok (VInt 24) /\
  fst (target_temperature
         (snd (target_temperature_setter 75
                 (set_props (fun m => <["TemUn" := VInt 1]> m) demo_device))))
    = Ok (VInt 75).
Proof.
  destruct (target_temperature_round_trip 24 demo_device) as [Hc _].
  destruct (target_temperature_round_trip 75
              (set_props (fun m => <["TemUn" := VInt 1]> m) demo_device)) as [_ Hf].
  split; [apply Hc; [discriminate | lia] | apply Hf; [reflexivity | lia]].
Defined.

(** ** Conversions that fail *)

Lemma convert_out_of_table (c : Z) (bit : pyval) (self : Device) :
  dict_get (_properties self) "TemUn" = VInt 1 -> c < -60 \/ 60 < c ->
  _convert_to_units (VInt c) bit self = (Raise ValueError, self).
Proof.
  intros Hu Hc. unfold _convert_to_units, bnd.
  rewrite temperature_units_value, Hu, py_eq_refl. cbn [negb eval py_lt py_gt].
  unfold TEMP_MIN_TABLE, TEMP_MAX_TABLE.
  destruct (c <? -60) eqn:H1; [done|].
  destruct (60 <? c) eqn:H2; [done|]. lia.
Qed.

Lemma convert_not_integer (w b : pyval) (self : Device) :
  dict_get (_properties self) "TemUn" = VInt 1 -> (forall c, w <> VInt c) ->
  _convert_to_units w b self = (Raise TypeError, self).
Proof.
  intros Hu Hni. unfold _convert_to_units, bnd.
  rewrite temperature_units_value, Hu, py_eq_refl. cbn [negb].
  destruct w as [|c|s]; [done | by destruct (Hni c) | done].
Qed.

(** X9. In Fahrenheit mode the unit conversion raises ValueError for an integer
    outside the table range [-60, 60] and TypeError for a value that is
    missing or not an integer, so a Fahrenheit Device without a stored target
    raises TypeError when its target temperature is read; in Celsius mode
    every value, a missing one too, is returned as it is. None of this
    changes the Device. *)
Theorem convert_to_units_errors (v bit : pyval) (self : Device) :
  let units := dict_get (_properties self) "TemUn" in
  (units = VInt 1 -> forall c, v = VInt c -> c < -60 \/ 60 < c ->
     _convert_to_units v bit self = (Raise ValueError, self)) /\
  (units = VInt 1 -> (forall c, v <> VInt c) ->
     _convert_to_units v bit self = (Raise TypeError, self)) /\
  (units = VInt 1 -> _properties self !! "SetTem" = None ->
     target_temperature self = (Raise TypeError, self)) /\
  (units <> VInt 1 -> _convert_to_units v bit self = (Ok v, self)).
Proof.
  cbn zeta. split; [|split; [|split]].
  - intros Hu c -> Hc. by apply convert_out_of_table.
  - intros Hu Hni. by apply convert_not_integer.
  - intros Hu Hnone. rewrite target_temperature_value.
    apply convert_not_integer; [done|]. unfold dict_get. by rewrite Hnone.
  - apply convert_celsius.
Qed.

Lemma convert_to_units_errors_witness :
  let fahrenheit := set_props (fun m => <["TemUn" := VInt 1]> m) demo_device in
  _convert_to_units (VInt 61) (VInt 0) fahrenheit = (Raise ValueError, fahrenheit) /\
  _convert_to_units (VStr "21") (VInt 0) fahrenheit = (Raise TypeError, fahrenheit) /\
  target_temperature fahrenheit = (Raise TypeError, fahrenheit) /\
  _convert_to_units VNone VNone demo_device = (Ok VNone, demo_device).
Proof.
  cbn zeta.
  set (fahrenheit := set_props (fun m => <["TemUn" := VInt 1]> m) demo_device).
  destruct (convert_to_units_errors (VInt 61) (VInt 0) fahrenheit) as (Hrange & _).
  destruct (convert_to_units_errors (VStr "21") (VInt 0) fahrenheit)
    as (_ & Htype & Htarget & _).
  destruct (convert_to_units_errors VNone VNone demo_device) as (_ & _ & _ & Hc).
  split; [|split; [|split]].
  - apply (Hrange eq_refl 61 eq_refl). lia.
  - apply (Htype eq_refl). discriminate.
  - apply (Htarget eq_refl). reflexivity.
  - apply Hc. discriminate.
Defined.

(** ** Falling back to the target temperature *)

(** X10. [current_temperature] is the target temperature when no raw sensor value
    is stored, whatever the version string, and, in Fahrenheit mode, when the
    value to convert (the raw value for major version 4, the raw value less
    40 otherwise) is outside the table range [-60, 60]: the ValueError of the
    conversion is swallowed. *)
Theorem current_temperature_fallback (self : Device) :
  (dict_get (_properties self) "TemSen" = VNone ->
     current_temperature self = target_temperature self) /\
  (forall n v,
     dict_get (_properties self) "TemUn" = VInt 1 ->
     dict_get (_properties self) "TemSen" = VInt n ->
     fst (major_version self) = Ok v ->
     let shown := if bool_decide (v = Some 4) then n else n - 40 in
     shown < -60 \/ 60 < shown ->
     current_temperature self = target_temperature self).
Proof.
  split.
  - intros Hnone. unfold current_temperature, bnd.
    rewrite !get_property_value. cbn [value]. rewrite Hnone.
    by rewrite bool_decide_eq_false_2 by (intros H; by apply H).
  - intros n v Hu Hs Hv. cbn zeta. intros Hout.
    rewrite (current_temperature_unfold self (VInt n) v Hs); [|done|done].
    cbn zeta. case_bool_decide.
    + by rewrite (convert_out_of_table n _ self Hu Hout).
    + destruct (negb _); [|done]. cbn [py_sub]. unfold TEMP_OFFSET.
      by rewrite (convert_out_of_table (n - 40) _ self Hu Hout).
Qed.

Lemma current_temperature_fallback_witness :
  let hot := set_props (fun _ => <["TemUn" := VInt 1]>
                                   (<["SetTem" := VInt 21]> {["TemSen" := VInt 120]}))
               (Device_init None) in
  current_temperature demo_device = target_temperature demo_device /\
  current_temperature hot = target_temperature hot.
Proof.
  cbn zeta.
  set (hot := set_props _ (Device_init None)).
  destruct (current_temperature_fallback demo_device) as [Habsent _].
  destruct (current_temperature_fallback hot) as [_ Hout].
  split; [apply Habsent; reflexivity|].
  apply (Hout 120 None); [reflexivity | reflexivity | reflexivity |].
  right. reflexivity.
Defined.

(** ** The version in the firmware id *)

Lemma chars_app (a b : string) : chars (String.append a b) = chars a ++ chars b.
Proof.
  unfold chars. induction a as [|c a IH]; [done|].
  change (String.append (String c a) b) with (String c (String.append a b)).
  cbn. by f_equal.
Qed.

Lemma of_chars_chars (s : string) : of_chars (chars s) = s.
Proof. apply string_of_list_ascii_of_string. Qed.

Lemma chars_of_chars (l : list ascii) : chars (of_chars l) = l.
Proof. apply list_ascii_of_string_of_list_ascii. Qed.

Lemma strip_prefix_app (pre l : list ascii) : strip_prefix pre (pre ++ l) = Some l.
Proof.
  induction pre as [|p pre IH]; [by destruct l|]. cbn.
  by rewrite bool_decide_eq_true_2.
Qed.

Lemma strip_prefix_Some (pre l rest : list ascii) :
  strip_prefix pre l = Some rest -> l = pre ++ rest.
Proof.
  revert l. induction pre as [|p pre IH]; intros l.
  - destruct l; cbn; intros [= <-]; done.
  - destruct l as [|c l]; [done|]. cbn.
    case_bool_decide as Hpc; [|done]. subst c. intros H. by rewrite (IH l H).
Qed.

Lemma span_app (p : ascii -> bool) (a b : list ascii) (x : ascii) :
  forallb p a = true -> p x = false -> span p (a ++ x :: b) = (a, x :: b).
Proof.
  induction a as [|c a IH]; cbn; intros Ha Hx; [by rewrite Hx|].
  apply andb_prop in Ha as [-> Ha]. by rewrite IH.
Qed.

Lemma span_spec (p : ascii -> bool) (l a b : list ascii) :
  span p l = (a, b) ->
  l = a ++ b /\ forallb p a = true /\ match b with x :: _ => p x = false | [] => True end.
Proof.
  revert a b. induction l as [|c l IH]; intros a b; cbn.
  - by intros [= <- <-].
  - destruct (p c) eqn:Hc.
    + destruct (span p l) as [a' b'] eqn:Hs. intros [= <- <-].
      destruct (IH a' b' eq_refl) as (-> & Ha & Hb). cbn. by rewrite Hc.
    + by intros [= <- <-].
Qed.

Lemma version_of_hid_parses (s prefix ver : string) :
  ver <> "" -> forallb is_version_char (chars ver) = true ->
  s = String.append prefix (String.append "V" (String.append ver ".bin")) \/
  s = String.append prefix
        (String.append "V" (String.append ver (String.append ".bin" (String "010" "")))) ->
  version_of_hid s = Some ver.
Proof.
  intros Hne Hver Hs.
  assert (forall tail, (tail = [] \/ tail = ["010"%char]) ->
            chars s = chars prefix ++ "V"%char :: chars ver ++ chars ".bin" ++ tail ->
            version_of_hid s = Some ver) as Hgo.
  { intros tail Htail Hc. unfold version_of_hid. rewrite Hc.
    assert (rev (chars prefix ++ "V"%char :: chars ver ++ chars ".bin" ++ tail)
            = rev tail ++ chars "nib." ++ rev (chars ver) ++ "V"%char :: rev (chars prefix))
      as ->.
    { rewrite rev_app_distr. cbn [rev]. rewrite !rev_app_distr.
      rewrite <- !app_assoc. done. }
    assert (forallb is_version_char (rev (chars ver)) = true) as Hrev.
    { rewrite forallb_forall in *. intros x Hx. apply Hver. by apply in_rev. }
    pose proof (strip_prefix_app (chars "nib.")
                  (rev (chars ver) ++ "V"%char :: rev (chars prefix))) as Hstrip.
    destruct Htail as [-> | ->]; cbn [rev app].
    - change (chars "nib.") with ["n"; "i"; "b"; "."]%char in *.
      cbn [app] in *.
      rewrite bool_decide_eq_false_2 by done. cbn [andb].
      rewrite Hstrip, span_app by done.
      destruct (rev (chars ver)) as [|c digits] eqn:Hr.
      + apply (f_equal (@rev ascii)) in Hr. rewrite rev_involutive in Hr.
        cbn in Hr. apply (f_equal of_chars) in Hr.
        rewrite of_chars_chars in Hr. done.
      + change (rev digits ++ [c]) with (rev (c :: digits)).
        rewrite <- Hr, rev_involutive, of_chars_chars. done.
    - change (chars "nib.") with ["n"; "i"; "b"; "."]%char in *.
      cbn [app] in *.
      rewrite bool_decide_eq_true_2 by done. rewrite Hstrip. cbn [andb].
      rewrite bool_decide_eq_true_2 by eauto.
      rewrite Hstrip, span_app by done.
      destruct (rev (chars ver)) as [|c digits] eqn:Hr.
      + apply (f_equal (@rev ascii)) in Hr. rewrite rev_involutive in Hr.
        cbn in Hr. apply (f_equal of_chars) in Hr.
        rewrite of_chars_chars in Hr. done.
      + change (rev digits ++ [c]) with (rev (c :: digits)).
        rewrite <- Hr, rev_involutive, of_chars_chars. done. }
  destruct Hs as [-> | ->].
  + apply (Hgo []); [by left|]. rewrite !chars_app. by rewrite app_nil_r.
  + apply (Hgo ["010"%char]); [by right|]. rewrite !chars_app. done.
Qed.

Lemma version_of_hid_shape (s ver : string) :
  version_of_hid s = Some ver ->
  ver <> "" /\ forallb is_version_char (chars ver) = true /\
  exists prefix,
    s = String.append prefix (String.append "V" (String.append ver ".bin")) \/
    s = String.append prefix
          (String.append "V" (String.append ver (String.append ".bin" (String "010" "")))).
Proof.
  unfold version_of_hid.
  set (r := rev (chars s)).
  set (r1 := match r with
             | c :: r' =>
                 if bool_decide (c = "010"%char)
                    && bool_decide (is_Some (strip_prefix (chars "nib.") r'))
                 then r' else r
             | [] => r
             end).
  destruct (strip_prefix (chars "nib.") r1) as [before|] eqn:Hstrip; [|done].
  destruct (span is_version_char before) as [found rest] eqn:Hspan.
  destruct found as [|c digits]; [done|].
  destruct rest as [|x rest]; [done|].
  intros H.
  assert (x = "V"%char) as ->.
  { destruct x as [b0 b1 b2 b3 b4 b5 b6 b7].
    destruct b0, b1, b2, b3, b4, b5, b6, b7; done. }
  assert (ver = of_chars (rev (c :: digits))) as -> by congruence. clear H.
  apply strip_prefix_Some in Hstrip.
  destruct (span_spec _ _ _ _ Hspan) as (Hbefore & Hall & _).
  assert (forallb is_version_char (rev (c :: digits)) = true) as Hrev.
  { rewrite forallb_forall in *. intros y Hy. apply Hall. by apply in_rev in Hy. }
  split; [|split].
  + intros Hempty. apply (f_equal chars) in Hempty.
    rewrite chars_of_chars in Hempty. cbn in Hempty.
    by destruct (rev digits).
  + by rewrite chars_of_chars.
  + exists (of_chars (rev rest)).
    assert (exists tail, (tail = [] \/ tail = ["010"%char]) /\
              r = rev tail ++ r1) as (tail & Htail & Hr).
    { subst r1. destruct r as [|c0 r']; [exists []; by split; [left|]|].
      destruct (bool_decide (c0 = "010"%char)
                && bool_decide (is_Some (strip_prefix (chars "nib.") r'))) eqn:Hnl.
      - apply andb_prop in Hnl as [->%bool_decide_eq_true _].
        exists ["010"%char]. by split; [right|].
      - exists []. by split; [left|]. }
    assert (chars s = rev r) as Hs by (subst r; by rewrite rev_involutive).
    rewrite Hr, Hstrip, Hbefore in Hs.
    rewrite !rev_app_distr in Hs. cbn [rev] in Hs.
    rewrite rev_involutive in Hs.
    assert (s = of_chars (chars s)) as Hss by (by rewrite of_chars_chars).
    destruct Htail as [-> | ->]; [left|right]; rewrite Hss, Hs.
    * rewrite <- (of_chars_chars (String.append _ _)). f_equal.
      rewrite !chars_app, !chars_of_chars.
      change (chars "V") with ["V"%char].
      change (rev (chars "nib.")) with (chars ".bin").
      cbn [rev]. rewrite <- !app_assoc. cbn [app]. by rewrite app_nil_r.
    * rewrite <- (of_chars_chars (String.append _ _)). f_equal.
      rewrite !chars_app, !chars_of_chars.
      change (chars "V") with ["V"%char].
      change (rev (chars "nib.")) with (chars ".bin").
      change (chars (String "010" "")) with ["010"%char].
      cbn [rev]. rewrite <- !app_assoc. cbn [app]. done.
Qed.

(** X11. The firmware id [prefix V version .bin], where the version is a non-empty
    run of digits and dots, parses to that version, with or without a newline
    at the end of the id; and whenever an id parses to a version, the id has
    this shape. *)
Theorem version_of_hid_round_trip (s : string) (ver : string) :
  (forall prefix,
     ver <> "" -> forallb is_version_char (chars ver) = true ->
     s = String.append prefix (String.append "V" (String.append ver ".bin")) \/
     s = String.append prefix
           (String.append "V" (String.append ver (String.append ".bin" (String "010" "")))) ->
     version_of_hid s = Some ver) /\
  (version_of_hid s = Some ver ->
     ver <> "" /\ forallb is_version_char (chars ver) = true /\
     exists prefix,
       s = String.append prefix (String.append "V" (String.append ver ".bin")) \/
       s = String.append prefix
             (String.append "V" (String.append ver (String.append ".bin" (String "010" ""))))).
Proof.
  split.
  - intros prefix Hne Hver Hs. by apply (version_of_hid_parses s prefix ver).
  - apply version_of_hid_shape.
Qed.

Lemma version_of_hid_round_trip_witness :
  version_of_hid "362001000762+U-CS532AE(LT)V3.31.bin" = Some "3.31" /\
  forallb is_version_char (chars "3.31") = true.
Proof.
  destruct (version_of_hid_round_trip "362001000762+U-CS532AE(LT)V3.31.bin" "3.31")
    as [Hparse Hshape].
  assert (version_of_hid "362001000762+U-CS532AE(LT)V3.31.bin" = Some "3.31") as H.
  { apply (Hparse "362001000762+U-CS532AE(LT)");
      [discriminate | reflexivity | left; reflexivity]. }
  split; [exact H|]. by destruct (Hshape H) as (_ & Hchars & _).
Defined.

(** X12. A version whose first component is not a number, as parsed from a
    firmware id such as [...V.5.bin], makes [current_temperature] raise
    ValueError whenever a raw sensor value is stored: the major number is
    computed outside the [try]. *)
Theorem current_temperature_malformed_version (self : Device) (s : string) :
  version self = Some s -> s <> "" ->
  py_int (first_component s) = Raise ValueError ->
  dict_get (_properties self) "TemSen" <> VNone ->
  current_temperature self = (Raise ValueError, self) /\
  (forall prefix rest,
     forallb is_version_char (chars rest) = true ->
     let v := String "." rest in
     version_of_hid (String.append prefix (String.append "V" (String.append v ".bin")))
       = Some v /\
     py_int (first_component v) = Raise ValueError).
Proof.
  intros Hv Hne Hint Hsensor. split.
  - unfold current_temperature, bnd. rewrite !get_property_value. cbn [value].
    rewrite bool_decide_eq_true_2 by done.
    unfold major_version, bnd, get_self, eval. rewrite Hv.
    destruct (String.eqb s "") eqn:He; [by apply String.eqb_eq in He|].
    by rewrite Hint.
  - intros prefix rest Hrest. cbn zeta. split; [|done].
    apply (version_of_hid_parses _ prefix (String "." rest)); [done | | by left].
    cbn. exact Hrest.
Qed.

Lemma current_temperature_malformed_version_witness :
  let d := snd (handle_state_update
                  (<["hid" := VStr "362001000762+U-CS532AE(LT)V.5.bin"]>
                     {["TemSen" := VInt 65]})
                  (Device_init None)) in
  version d = Some ".5" /\ current_temperature d = (Raise ValueError, d).
Proof.
  cbn zeta. split; [reflexivity|].
  apply (current_temperature_malformed_version _ ".5");
    [reflexivity | discriminate | reflexivity | discriminate].
Defined.

(** ** What a status update stores *)

Lemma handle_state_update_props (kwargs : gmap string pyval) (self : Device) :
  hid_ok kwargs ->
  _properties (snd (handle_state_update kwargs self))
  = delete "hid" kwargs ∪ _properties self.
Proof.
  intros Hok.
  pose proof (handle_state_update_after kwargs self Hok) as Hafter.
  cbn zeta in Hafter.
  destruct (merged_fields kwargs self Hok) as (_ & _ & Hp).
  rewrite Hafter. destruct (check_version self && _); [|done].
  destruct (dict_get _ "TemSen") as [|n|s]; try done.
  by destruct (negb (n =? 0) && (n <? 40)).
Qed.

Lemma handle_state_update_hid (kwargs : gmap string pyval) (self : Device) :
  hid_ok kwargs ->
  hid (snd (handle_state_update kwargs self)) = default (hid self) (kwargs !! "hid").
Proof.
  intros Hok.
  pose proof (handle_state_update_after kwargs self Hok) as Hafter.
  cbn zeta in Hafter. rewrite Hafter.
  assert (hid (merged kwargs self) = default (hid self) (kwargs !! "hid")) as Hm
    by (unfold merged; by destruct (kwargs !! "hid")).
  destruct (check_version self && _); [|done].
  destruct (dict_get _ "TemSen") as [|n|s]; try done.
  by destruct (negb (n =? 0) && (n <? 40)).
Qed.

(** X13. A status update whose [hid], if any, is a string stores every other
    column under its key, known to the accessors or not, leaves every
    property it does not mention and the dirty list as they were, and keeps
    the [hid] column out of the store, in the [hid] attribute. A [hid] that is
    not a string raises TypeError after the attribute is assigned and before
    anything is stored. *)
Theorem status_update_merges (kwargs : gmap string pyval) (self : Device) :
  let self' := snd (handle_state_update kwargs self) in
  (hid_ok kwargs ->
     (forall k v, k <> "hid" -> kwargs !! k = Some v -> _properties self' !! k = Some v) /\
     (forall k, kwargs !! k = None -> _properties self' !! k = _properties self !! k) /\
     _properties self' !! "hid" = _properties self !! "hid" /\
     _dirty self' = _dirty self /\
     hid self' = default (hid self) (kwargs !! "hid")) /\
  (forall h, kwargs !! "hid" = Some h -> (forall s, h <> VStr s) ->
     handle_state_update kwargs self = (Raise TypeError, set_hid h self)).
Proof.
  cbn zeta. split.
  - intros Hok.
    destruct (handle_state_update_store kwargs self) as [Hd _].
    rewrite (handle_state_update_props kwargs self Hok).
    split; [|split; [|split; [|split]]]; try done.
    + intros k v Hk Hv. apply lookup_union_Some_l. by rewrite lookup_delete_ne.
    + intros k Hk. rewrite lookup_union_r; [done|].
      destruct (decide (k = "hid")) as [->|Hne];
        [apply lookup_delete_eq | by rewrite lookup_delete_ne].
    + rewrite lookup_union_r; [done|]. apply lookup_delete_eq.
    + by apply handle_state_update_hid.
  - intros h Hh Hns. unfold handle_state_update, bnd. rewrite Hh. cbn.
    destruct h as [| |s]; [done | done | by destruct (Hns s)].
Qed.

Lemma status_update_merges_witness :
  let report := <["hid" := VStr "362001000762+U-CS532AE(LT)V3.31.bin"]>
                  (<["Pow" := VInt 1]> {["NewKey" := VInt 7]}) in
  let self' := snd (handle_state_update report demo_device) in
  _properties self' !! "NewKey" = Some (VInt 7) /\
  _properties self' !! "Mod" = Some (VInt 1) /\
  _dirty self' = ["Mod"] /\
  handle_state_update {["hid" := VInt 3]} demo_device
    = (Raise TypeError, set_hid (VInt 3) demo_device).
Proof.
  cbn zeta.
  set (report := <["hid" := VStr "362001000762+U-CS532AE(LT)V3.31.bin"]>
                   (<["Pow" := VInt 1]> {["NewKey" := VInt 7]})).
  destruct (status_update_merges report demo_device) as [Hmerge _].
  destruct (Hmerge I) as (Hnew & Hkeep & _ & Hdirty & _).
  destruct (status_update_merges {["hid" := VInt 3]} demo_device) as [_ Hbad].
  split; [|split; [|split]].
  - apply Hnew; [discriminate | reflexivity].
  - rewrite Hkeep; reflexivity.
  - exact Hdirty.
  - apply Hbad; [reflexivity | discriminate].
Defined.

(** ** The status request *)

Lemma update_state_sends (env : Env) (self : Device) :
  device_cipher self <> None ->
  let m := StatusMsg (device_info self) (status_columns self) in
  let r := update_state env self in
  calls (snd r) = calls self ++ [CallSend m None] /\
  fst r = (if timed_out (env (calls self ++ [CallSend m None]))
           then Raise DeviceTimeoutError else Ok tt).
Proof.
  intros Hc. cbn zeta. rewrite update_state_unfold, ensure_bound_unfold.
  rewrite bool_decide_eq_false_2 by done.
  destruct (guarded_send_spec env
              (StatusMsg (device_info self) (status_columns self)) self)
    as (Hr & Hcalls & _).
  unfold status_columns in *. by rewrite Hr, Hcalls.
Qed.

(** X14. [update_state] on a Device that has a cipher makes one call, a status
    request for the 25 known properties, with [hid] added as long as no
    non-empty [hid] has been received, and raises DeviceTimeoutError exactly
    when that send times out; [request_version] asks for [hid] alone. On a
    Device with neither cipher nor device info both raise DeviceNotBoundError
    without any call. Once a status update has delivered a non-empty [hid]
    the request no longer asks for it. *)
Theorem update_state_request (env : Env) (self : Device) :
  (device_cipher self <> None ->
     let m := StatusMsg (device_info self) (status_columns self) in
     let r := update_state env self in
     calls (snd r) = calls self ++ [CallSend m None] /\
     fst r = (if timed_out (env (calls self ++ [CallSend m None]))
              then Raise DeviceTimeoutError else Ok tt)) /\
  (device_cipher self <> None ->
     let m := StatusMsg (device_info self) ["hid"] in
     let r := request_version env self in
     calls (snd r) = calls self ++ [CallSend m None] /\
     fst r = (if timed_out (env (calls self ++ [CallSend m None]))
              then Raise DeviceTimeoutError else Ok tt)) /\
  (device_cipher self = None -> device_info self = None ->
     update_state env self = (Raise DeviceNotBoundError, self) /\
     request_version env self = (Raise DeviceNotBoundError, self)) /\
  (length (status_columns self) = (if py_bool (hid self) then 25 else 26)%nat) /\
  (forall kwargs s, kwargs !! "hid" = Some (VStr s) -> s <> "" ->
     status_columns (snd (handle_state_update kwargs self)) = map value all_props).
Proof.
  split; [|split; [|split; [|split]]].
  - apply update_state_sends.
  - intros Hc. cbn zeta. rewrite request_version_unfold, ensure_bound_unfold.
    rewrite bool_decide_eq_false_2 by done.
    destruct (guarded_send_spec env (StatusMsg (device_info self) ["hid"]) self)
      as (Hr & Hcalls & _).
    by rewrite Hr, Hcalls.
  - intros Hc Hi.
    assert (ensure_bound env self = (Raise DeviceNotBoundError, self)) as He.
    { rewrite ensure_bound_unfold, bool_decide_eq_true_2 by done.
      unfold bind, bnd, get_self. by rewrite Hi. }
    by rewrite update_state_unfold, request_version_unfold, He.
  - unfold status_columns. rewrite length_app. by destruct (py_bool (hid self)).
  - intros kwargs s Hh Hs.
    assert (hid_ok kwargs) as Hok by (unfold hid_ok; by rewrite Hh).
    unfold status_columns. rewrite (handle_state_update_hid kwargs self Hok), Hh.
    change (default (hid self) (Some (VStr s))) with (VStr s). cbn [py_bool].
    destruct (String.eqb s "") eqn:He; [by apply String.eqb_eq in He|].
    cbn [negb]. apply app_nil_r.
Qed.

Lemma update_state_request_witness :
  fst (update_state silent bound_dirty) = Raise DeviceTimeoutError /\
  length (calls (snd (update_state silent bound_dirty))) = 1%nat /\
  fst (request_version keyless bound_dirty) = Ok tt /\
  update_state silent (Device_init None)
    = (Raise DeviceNotBoundError, Device_init None) /\
  status_columns
    (snd (handle_state_update
            {["hid" := VStr "362001000762+U-CS532AE(LT)V3.31.bin"]} bound_dirty))
  = map value all_props.
Proof.
  destruct (update_state_request silent bound_dirty) as (Hu & _ & _ & _ & Hhid).
  destruct (update_state_request keyless bound_dirty) as (_ & Hv & _).
  destruct (update_state_request silent (Device_init None)) as (_ & _ & Hn & _).
  destruct Hu as [Hcalls Hres]; [discriminate|].
  destruct Hv as [_ Hres']; [discriminate|].
  destruct Hn as [Hnone _]; [reflexivity | reflexivity |].
  split; [exact Hres|]. split; [by rewrite Hcalls|]. split; [exact Hres'|].
  split; [exact Hnone|].
  apply (Hhid _ "362001000762+U-CS532AE(LT)V3.31.bin"); [reflexivity | discriminate].
Defined.

(** ** The command that a push sends *)

Lemma items_get_dict_set (l : list (string * pyval)) (k k' : string) (v : pyval) :
  items_get (dict_set l k v) k' =
  if bool_decide (k' = k) then Some v else items_get l k'.
Proof.
  induction l as [|[k0 v0] l IH]; cbn.
  - case_bool_decide as H1; case_bool_decide as H2; congruence.
  - destruct (String.eqb k0 k) eqn:He.
    + apply String.eqb_eq in He. subst k0. cbn.
      case_bool_decide as H1; case_bool_decide as H2; congruence.
    + apply String.eqb_neq in He. cbn. rewrite IH.
      case_bool_decide as H1; case_bool_decide as H2; congruence.
Qed.

Lemma dict_set_keys (l : list (string * pyval)) (k : string) (v : pyval) :
  NoDup (map fst l) -> NoDup (map fst (dict_set l k v)) /\
  forall k', k' ∈ map fst (dict_set l k v) <-> k' = k \/ k' ∈ map fst l.
Proof.
  induction l as [|[k0 v0] l IH]; cbn; intros Hnd.
  - split; [apply NoDup_singleton|]. intros k'. rewrite list_elem_of_singleton.
    split; [by left|]. intros [?|Hin]; [done|]. by apply elem_of_nil in Hin.
  - apply NoDup_cons in Hnd as [Hk0 Hnd]. destruct (IH Hnd) as [IH1 IH2].
    destruct (String.eqb k0 k) eqn:He.
    + apply String.eqb_eq in He. subst k0. cbn. split.
      * by apply NoDup_cons.
      * intros k'. rewrite elem_of_cons. tauto.
    + apply String.eqb_neq in He. cbn. split.
      * apply NoDup_cons. split; [|done]. rewrite IH2. intros [?|?]; congruence.
      * intros k'. rewrite !elem_of_cons, IH2. tauto.
Qed.

Lemma elem_of_command_keys (dirty : list string) (k : string) :
  k ∈ command_keys dirty <->
  k ∈ dirty \/ ("SetTem" ∈ dirty /\ (k = "TemRec" \/ k = "TemUn")).
Proof.
  unfold command_keys. rewrite elem_of_app. case_bool_decide as Hs.
  - rewrite !elem_of_cons, elem_of_nil. tauto.
  - rewrite elem_of_nil. tauto.
Qed.

#[local] Set Warnings "-clear-no-such-hyp".

Lemma push_fold_lookup (get : string -> pyval) (dirty : list string)
    (acc : list (string * pyval)) (k : string) :
  items_get
    (fold_left
       (fun props name =>
          let props := dict_set props name (get name) in
          if String.eqb name (value TEMP_SET) then
            dict_set (dict_set props (value TEMP_BIT) (get (value TEMP_BIT)))
                     (value TEMP_UNIT) (get (value TEMP_UNIT))
          else props)
       dirty acc) k =
  if bool_decide (k ∈ command_keys dirty) then Some (get k) else items_get acc k.
Proof.
  revert acc. induction dirty as [|name rest IH]; intros acc.
  - cbn [fold_left]. rewrite bool_decide_eq_false_2; [done|].
    rewrite elem_of_command_keys, !elem_of_nil. tauto.
  - cbn [fold_left]. rewrite IH. cbn [value].
    pose proof (elem_of_command_keys rest k) as Hrest.
    pose proof (elem_of_command_keys (name :: rest) k) as Hall.
    rewrite !elem_of_cons in Hall.
    destruct (String.eqb name "SetTem") eqn:He;
      [apply String.eqb_eq in He | apply String.eqb_neq in He].
    + rewrite !items_get_dict_set.
      repeat case_bool_decide; try (by subst); exfalso; clear IH; naive_solver.
    + rewrite !items_get_dict_set.
      repeat case_bool_decide; try (by subst); exfalso; clear IH; naive_solver.
Qed.

Lemma push_state_update_sends (env : Env) (self : Device) :
  device_cipher self <> None -> _dirty self <> [] ->
  let m := CommandMsg (device_info self) (push_props self) in
  let r := push_state_update env self in
  calls (snd r) = calls self ++ [CallSend m None] /\
  fst r = (if timed_out (env (calls self ++ [CallSend m None]))
           then Raise DeviceTimeoutError else Ok tt).
Proof.
  intros Hc Hd. cbn zeta.
  rewrite push_state_update_unfold, ensure_bound_unfold.
  rewrite bool_decide_eq_false_2 by done.
  destruct (_dirty self) as [|k0 rest] eqn:Hdirty; [done|].
  destruct (guarded_send_spec env (CommandMsg (device_info self) (push_props self))
              (set_dirty (fun _ => []) self)) as (Hr & Hcalls & _).
  by split.
Qed.

Lemma push_props_lookup (self : Device) (k : string) :
  items_get (push_props self) k =
  if bool_decide (k = "Buzzer_ON_OFF") && negb (_beep self) then Some (VInt 1)
  else if bool_decide (k ∈ command_keys (_dirty self))
       then Some (dict_get (_properties self) k)
       else None.
Proof.
  unfold push_props.
  destruct (_beep self); cbn [negb]; rewrite ?andb_false_r, ?andb_true_r.
  - rewrite push_fold_lookup. done.
  - rewrite items_get_dict_set, push_fold_lookup. by case_bool_decide.
Qed.

Lemma push_state_update_clears (env : Env) (self : Device) :
  device_cipher self <> None -> _dirty (snd (push_state_update env self)) = [].
Proof.
  intros Hc. rewrite push_state_update_unfold, ensure_bound_unfold.
  rewrite bool_decide_eq_false_2 by done.
  destruct (_dirty self) as [|k0 rest] eqn:Hdirty; [done|].
  destruct (guarded_send_spec env (CommandMsg (device_info self) (push_props self))
              (set_dirty (fun _ => []) self)) as (_ & _ & Hm & _).
  by destruct Hm as (_ & _ & _ & _ & _ & -> & _).
Qed.

Lemma set_property_marks (name : Props) (v : pyval) (self : Device) :
  dict_get (_properties self) (value name) <> v ->
  value name ∈ _dirty (snd (set_property name v self)).
Proof.
  intros Hne. unfold set_property. rewrite (proj2 (py_eq_false _ _) Hne).
  case_bool_decide as Hin; cbn in *; [done|].
  apply elem_of_app. right. by apply list_elem_of_singleton.
Qed.

(** X15. A push from a Device that has a cipher and dirty keys makes one call, a
    command whose items are exactly the dirty keys with their stored values,
    joined by the compensation bit and the unit whenever the target
    temperature is dirty, and by [Buzzer_ON_OFF = 1] unless beep is on; it
    raises DeviceTimeoutError exactly when that send times out. *)
Theorem push_command_content (env : Env) (self : Device) :
  device_cipher self <> None -> _dirty self <> [] ->
  let props := push_props self in
  let m := CommandMsg (device_info self) props in
  let r := push_state_update env self in
  calls (snd r) = calls self ++ [CallSend m None] /\
  fst r = (if timed_out (env (calls self ++ [CallSend m None]))
           then Raise DeviceTimeoutError else Ok tt) /\
  (forall k,
     items_get props k =
     if bool_decide (k = "Buzzer_ON_OFF") && negb (_beep self) then Some (VInt 1)
     else if bool_decide (k ∈ command_keys (_dirty self))
          then Some (dict_get (_properties self) k)
          else None).
Proof.
  intros Hc Hd. cbn zeta.
  destruct (push_state_update_sends env self Hc Hd) as [Hcalls Hr].
  split; [exact Hcalls|]. split; [exact Hr|].
  intros k. apply push_props_lookup.
Qed.

Lemma push_command_content_witness :
  let d := snd (target_temperature_setter 21 bound_dirty) in
  push_props d =
    [("Pow", VInt 1); ("SetTem", VInt 21); ("TemRec", VNone); ("TemUn", VNone);
     ("Buzzer_ON_OFF", VInt 1)] /\
  items_get (push_props d) "SetTem" = Some (VInt 21) /\
  fst (push_state_update silent d) = Raise DeviceTimeoutError.
Proof.
  cbn zeta.
  destruct (push_command_content silent (snd (target_temperature_setter 21 bound_dirty)))
    as (_ & Hres & Hitems); [discriminate | discriminate |].
  split; [reflexivity|]. split; [by rewrite Hitems | exact Hres].
Defined.

(** ** The other ways to bind *)

(** X16. Binding with a key and a cipher makes no call into the protocol layer and
    installs that cipher with the key; with a key and no cipher it raises
    ValueError and changes nothing. A Device bound this way is not bound
    again by [update_state] or [push_state_update]: each makes its one call,
    and none of the recorded calls is a bind request. An empty key counts as
    no key. *)
Theorem bind_with_key (env : Env) (k : string) (c : Cipher) (self : Device) :
  k <> "" ->
  let bound := set_cipher (Some {| variant := variant c; key := Some k |}) self in
  bind env (Some k) (Some c) self = (Ok tt, bound) /\
  calls bound = calls self /\
  bind env (Some k) None self = (Raise ValueError, self) /\
  bind_trials (calls (snd (update_state env bound))) = bind_trials (calls self) /\
  bind_trials (calls (snd (push_state_update env bound))) = bind_trials (calls self) /\
  (forall c', bind env (Some "") c' self = bind env None c' self).
Proof.
  intros Hk. cbn zeta.
  set (bound := set_cipher (Some {| variant := variant c; key := Some k |}) self).
  assert (forall a b, bind_trials (a ++ b) = bind_trials a ++ bind_trials b) as Happ.
  { induction a as [|[[| |] [|]|] a IH]; intros b; cbn; by rewrite ?IH. }
  split; [by destruct k|]. split; [done|]. split; [by destruct k|].
  split; [|split; [|intros; apply bind_empty_key]].
  - destruct (update_state_sends env bound) as [-> _]; [done|]. rewrite Happ. cbn. by rewrite app_nil_r.
  - destruct (_dirty bound) as [|k0 rest] eqn:Hd.
    + by rewrite push_state_update_unfold, Hd.
    + destruct (push_state_update_sends env bound) as [-> _]; [done | by rewrite Hd |].
      rewrite Happ. cbn. by rewrite app_nil_r.
Qed.

Lemma bind_with_key_witness :
  let c := {| variant := CipherV2; key := None |} in
  bind silent (Some "a3K8Bx%2r8Y7#xDh") (Some c) unbound_dirty
    = (Ok tt, set_cipher (Some {| variant := CipherV2; key := Some "a3K8Bx%2r8Y7#xDh" |})
                unbound_dirty) /\
  bind silent (Some "a3K8Bx%2r8Y7#xDh") None unbound_dirty
    = (Raise ValueError, unbound_dirty).
Proof.
  cbn zeta.
  destruct (bind_with_key silent "a3K8Bx%2r8Y7#xDh"
              {| variant := CipherV2; key := None |} unbound_dirty)
    as (Hok & _ & Hbad & _); [discriminate|].
  split; [exact Hok | exact Hbad].
Defined.

(** X17. Binding with a chosen cipher and no key tries that cipher once and no
    other: a timeout raises DeviceTimeoutError without a second attempt, and a
    completed attempt ends as in the probing case. Without device info every
    negotiated bind raises DeviceNotBoundError without a call. *)
Theorem bind_with_cipher (env : Env) (c : Cipher) (self : Device) :
  (device_info self <> None ->
     let a := bind_internal env c (opened self) in
     let r := bind env None (Some c) self in
     (exists sent, calls (snd r) = calls self ++ sent /\
                   bind_trials sent = [variant c]) /\
     (fst a = Raise AsyncTimeoutError -> fst r = Raise DeviceTimeoutError) /\
     (fst a = Ok tt ->
        (device_cipher (snd r) = None -> fst r = Raise DeviceNotBoundError) /\
        (device_cipher (snd r) <> None -> fst r = Ok tt))) /\
  (device_info self = None ->
     forall c', bind env None c' self = (Raise DeviceNotBoundError, self)).
Proof.
  split.
  - intros Hinfo. cbn zeta. rewrite (bind_explicit_unfold env c self Hinfo).
    cbn zeta.
    assert (calls (opened self) = calls self) as Hopen
      by (unfold opened; by destruct (_transport self)).
    destruct (bind_internal_spec env c (opened self)) as (H1 & (sent & Hc & Ht) & _).
    destruct (bind_internal env c (opened self)) as [r1 s1]. cbn [fst snd] in *.
    rewrite Hopen in Hc.
    destruct H1 as [-> | ->]; unfold verdict; cbn [fst snd].
    + split; [by exists sent|]. split; [discriminate|].
      intros _. split; intros Hcip;
        [by rewrite bool_decide_eq_true_2 | by rewrite bool_decide_eq_false_2].
    + split; [by exists sent|]. split; [done | discriminate].
  - intros Hinfo c'. unfold bind, bnd, get_self. rewrite Hinfo. by destruct c'.
Qed.

Lemma bind_with_cipher_witness :
  fst (bind silent None (Some CipherV1_new) (Device_init some_info))
    = Raise DeviceTimeoutError /\
  bind_trials (calls (snd (bind silent None (Some CipherV1_new) (Device_init some_info))))
    = [CipherV1] /\
  bind silent None None (Device_init None) = (Raise DeviceNotBoundError, Device_init None).
Proof.
  destruct (bind_with_cipher silent CipherV1_new (Device_init some_info)) as [Hone _].
  destruct (bind_with_cipher silent CipherV1_new (Device_init None)) as [_ Hnone].
  destruct Hone as ((sent & Hcalls & Htrials) & Htimeout & _); [discriminate|].
  split; [apply Htimeout; reflexivity|]. split.
  - rewrite Hcalls. cbn [calls Device_init app]. exact Htrials.
  - apply Hnone. reflexivity.
Defined.

(** * Further properties of the coordinator *)

Lemma update_state_results (env : Env) (self : Device) :
  fst (update_state env self) = Ok tt \/
  fst (update_state env self) = Raise DeviceTimeoutError \/
  fst (update_state env self) = Raise DeviceNotBoundError.
Proof.
  rewrite update_state_unfold, ensure_bound_unfold.
  case_bool_decide.
  - destruct (bind_none_spec env self) as [_ Hb].
    destruct (bind env None None self) as [[[]|e] s]; cbn [fst] in *.
    + destruct (guarded_send_spec env
                  (StatusMsg (device_info s)
                     (map value all_props ++ (if py_bool (hid s) then [] else ["hid"]))) s)
        as (-> & _).
      destruct (timed_out _); auto.
    + destruct Hb as [?|[?|?]]; [done|auto|auto].
  - destruct (guarded_send_spec env
                (StatusMsg (device_info self)
                   (map value all_props ++ (if py_bool (hid self) then [] else ["hid"])))
                self) as (-> & _).
    destruct (timed_out _); auto.
Qed.

Section CycleFacts.
Variable env : Env.
Variable MAX_ERRORS : Z.
Variable MAX_EXPECTED_RESPONSE_TIME_INTERVAL : Z.

Lemma on_sent_spec (now : Z) (c : Coordinator) :
  let r := on_sent MAX_ERRORS MAX_EXPECTED_RESPONSE_TIME_INTERVAL now c in
  let due :=
    match _last_error_time c, update_interval c with
    | Some t, Some i => t <=? now - i
    | _, _ => true
    end in
  let is_stale :=
    timedelta_bool (update_interval c)
    && (MAX_EXPECTED_RESPONSE_TIME_INTERVAL <=? now - _last_response_time c) in
  let count :=
    if is_stale then (if due then _error_count c + 1 else _error_count c) else 0 in
  snd r = set_error_count count
            (set_last_error_time
               (if is_stale && due then Some now else _last_error_time c) c) /\
  fst r = (if last_update_success c && (MAX_ERRORS <=? count)
           then Raise UpdateFailed else Ok tt).
Proof.
  cbn zeta. unfold on_sent, bnd, get_self, modify.
  destruct c as [d ui lus dat ec lrt let_]. cbn.
  destruct (timedelta_bool ui && _); cbn.
  - destruct let_ as [t|], ui as [i|]; cbn;
      try (destruct (t <=? now - i); cbn);
      destruct lus; cbn; try (destruct (MAX_ERRORS <=? _); cbn); done.
  - destruct lus; cbn; try (destruct (MAX_ERRORS <=? 0); cbn); done.
Qed.
End CycleFacts.

(** X18. Every polling cycle either returns, with the Device's properties as its
    data and the response time set to the end of the cycle, or raises
    UpdateFailed and leaves the response time as it was: no device error
    leaves [_async_update_data] as it is. The cycle keeps the error counter
    non-negative and raises it by one at most, and a DeviceNotBoundError of
    the Device fails the update without touching the counter or the last
    error time. *)
Theorem cycle_results
    (env : Env) (MAX_ERRORS max_interval : Z) (now now_end : Z) (c : Coordinator) :
  let r := _async_update_data env MAX_ERRORS max_interval now now_end c in
  ((exists dat, fst r = Ok dat /\ dat = _properties (device (snd r)) /\
                _last_response_time (snd r) = now_end) \/
   (fst r = Raise UpdateFailed /\
    _last_response_time (snd r) = _last_response_time c)) /\
  device (snd r) = snd (update_state env (device c)) /\
  (0 <= _error_count c -> 0 <= _error_count (snd r) <= _error_count c + 1) /\
  (fst (update_state env (device c)) = Raise DeviceNotBoundError ->
     fst r = Raise UpdateFailed /\ _error_count (snd r) = _error_count c /\
     _last_error_time (snd r) = _last_error_time c).
Proof.
  cbn zeta. unfold _async_update_data, on_device.
  destruct (update_state_results env (device c)) as [Hu|[Hu|Hu]];
    destruct (update_state env (device c)) as [ru d]; cbn [fst snd] in *; subst ru.
  - unfold bnd.
    destruct (on_sent_spec MAX_ERRORS max_interval now (set_device d c)) as [Hs Hr].
    cbn zeta in Hs, Hr.
    destruct (on_sent MAX_ERRORS max_interval now (set_device d c)) as [r1 c1].
    cbn [fst snd] in *. subst r1 c1.
    destruct (last_update_success (set_device d c) && _) eqn:Hfail.
    + cbn. split; [by right|]. split; [done|]. split; [|done].
      intros H0. repeat case_match; lia.
    + cbn. split; [left; by eexists|]. split; [done|]. split; [|done].
      intros H0. repeat case_match; lia.
  - unfold bnd, on_timeout, finish_cycle, get_self, modify. cbn.
    destruct (last_update_success c && _) eqn:Hfail; cbn.
    + split; [by right|]. split; [done|]. split; [lia|done].
    + split; [left; by eexists|]. split; [done|]. split; [lia|done].
  - cbn. split; [by right|]. split; [done|]. split; [lia|done].
Qed.

Lemma cycle_results_witness :
  let r := _async_update_data silent 3 120 60 61 fresh_coordinator in
  0 <= _error_count (snd r) <= 1 /\
  (let r' := _async_update_data silent 3 120 60 61
               (set_device (Device_init None) fresh_coordinator) in
   fst r' = Raise UpdateFailed /\ _error_count (snd r') = 0).
Proof.
  cbn zeta.
  destruct (cycle_results silent 3 120 60 61 fresh_coordinator) as (_ & _ & Hcount & _).
  destruct (cycle_results silent 3 120 60 61
              (set_device (Device_init None) fresh_coordinator)) as (_ & _ & _ & Hnb).
  split; [apply Hcount; reflexivity|].
  destruct (Hnb eq_refl) as (Hr & Hc & _). split; [exact Hr | exact Hc].
Defined.

(** X19. A cycle whose request goes out while the last response is stale counts
    one error and notes its time when no staleness error was counted before
    or the last one is at least one polling interval old, and leaves both
    alone otherwise; it raises UpdateFailed exactly when the last update
    counted as successful and the counter has then reached MAX_ERRORS. *)
Theorem stale_cycle
    (env : Env) (MAX_ERRORS max_interval : Z) (now now_end : Z) (c : Coordinator) :
  request_sent env c -> stale max_interval now c ->
  let r := _async_update_data env MAX_ERRORS max_interval now now_end c in
  (error_due now c ->
     _error_count (snd r) = _error_count c + 1 /\
     _last_error_time (snd r) = Some now) /\
  (~ error_due now c ->
     _error_count (snd r) = _error_count c /\
     _last_error_time (snd r) = _last_error_time c) /\
  (fst r = Raise UpdateFailed <->
   last_update_success c = true /\ MAX_ERRORS <= _error_count (snd r)).
Proof.
  unfold request_sent, stale, error_due. intros Hs [Hui Hold]. cbn zeta.
  unfold _async_update_data, on_device.
  destruct (update_state env (device c)) as [ru d]. cbn [fst] in Hs. subst ru.
  unfold bnd.
  destruct (on_sent_spec MAX_ERRORS max_interval now (set_device d c)) as [Hsnd Hfst].
  cbn zeta in Hsnd, Hfst.
  destruct (on_sent MAX_ERRORS max_interval now (set_device d c)) as [r1 c1].
  cbn [fst snd] in *. subst r1 c1.
  cbn [update_interval set_device _last_response_time _last_error_time
       _error_count last_update_success] in *.
  rewrite Hui. apply Z.leb_le in Hold. rewrite Hold. cbn [andb].
  set (due := match _last_error_time c with
              | Some t => match update_interval c with
                          | Some i => t <=? now - i
                          | None => true
                          end
              | None => true
              end).
  assert (due = true <->
          match _last_error_time c with
          | Some t => match update_interval c with
                      | Some i => t <= now - i
                      | None => True
                      end
          | None => True
          end) as Hdue.
  { subst due. destruct (_last_error_time c) as [t|]; [|done].
    destruct (update_interval c) as [i|]; [apply Z.leb_le | done]. }
  destruct due eqn:Hd.
  - split; [|split].
    + intros _. destruct (last_update_success c && _); done.
    + intros Hn. exfalso. apply Hn, Hdue. done.
    + destruct (last_update_success c) eqn:Hl; cbn [andb].
      * destruct (MAX_ERRORS <=? _error_count c + 1) eqn:Hm; cbn.
        -- split; [intros _; split; [done|lia] | done].
        -- split; [done | intros [_ ?]; lia].
      * cbn. split; [done | by intros [? _]].
  - split; [|split].
    + intros Hy. apply Hdue in Hy. done.
    + intros _. destruct (last_update_success c && _); done.
    + destruct (last_update_success c) eqn:Hl; cbn [andb].
      * destruct (MAX_ERRORS <=? _error_count c) eqn:Hm; cbn.
        -- split; [intros _; split; [done|lia] | done].
        -- split; [done | intros [_ ?]; lia].
      * cbn. split; [done | by intros [? _]].
Qed.

Lemma stale_cycle_witness :
  let r := _async_update_data answers_once 3 120 200 201 fresh_coordinator in
  _error_count (snd r) = 1 /\ _last_error_time (snd r) = Some 200 /\
  fst r <> Raise UpdateFailed.
Proof.
  cbn zeta.
  destruct (stale_cycle answers_once 3 120 200 201 fresh_coordinator)
    as (Hdue & _ & Hiff); [reflexivity | split; [reflexivity | cbn; lia] |].
  destruct (Hdue I) as [Hcount Htime].
  split; [exact Hcount|]. split; [exact Htime|].
  intros Hraise. apply Hiff in Hraise as [_ Hle]. rewrite Hcount in Hle. cbn in Hle. lia.
Defined.

Lemma push_state_update_results (env : Env) (self : Device) :
  fst (push_state_update env self) = Ok tt \/
  fst (push_state_update env self) = Raise DeviceTimeoutError \/
  fst (push_state_update env self) = Raise DeviceNotBoundError.
Proof.
  rewrite push_state_update_unfold.
  destruct (_dirty self) as [|k0 rest]; [by left|].
  rewrite ensure_bound_unfold. case_bool_decide.
  - destruct (bind_none_spec env self) as [_ Hb].
    destruct (bind env None None self) as [[[]|e] s]; cbn [fst] in *.
    + destruct (guarded_send_spec env (CommandMsg (device_info s) (push_props s))
                  (set_dirty (fun _ => []) s)) as (-> & _).
      destruct (timed_out _); auto.
    + destruct Hb as [?|[?|?]]; [done|auto|auto].
  - destruct (guarded_send_spec env (CommandMsg (device_info self) (push_props self))
                (set_dirty (fun _ => []) self)) as (-> & _).
    destruct (timed_out _); auto.
Qed.

Lemma coordinator_push_spec (env : Env) (c : Coordinator) :
  let r := coordinator_push_state_update env c in
  (fst r = Ok tt \/ fst r = Raise DeviceNotBoundError) /\
  snd r = set_device (snd (push_state_update env (device c))) c.
Proof.
  cbn zeta. unfold coordinator_push_state_update, try_except, on_device.
  destruct (push_state_update_results env (device c)) as [H|[H|H]];
    destruct (push_state_update env (device c)) as [rp d]; cbn [fst snd] in *;
    subst rp; cbn; auto.
Qed.

(** X20. The coordinator's push hands a timeout of the Device's push back as a
    normal return and lets DeviceNotBoundError through; it leaves the error
    counter, the response and error times and the success flag of the read
    path alone, and the Device ends as its own push leaves it. *)
Theorem coordinator_push_independent (env : Env) (c : Coordinator) :
  let r := coordinator_push_state_update env c in
  (fst r = Ok tt \/ fst r = Raise DeviceNotBoundError) /\
  (fst r = Raise DeviceNotBoundError <->
   fst (push_state_update env (device c)) = Raise DeviceNotBoundError) /\
  snd r = set_device (snd (push_state_update env (device c))) c.
Proof.
  cbn zeta. destruct (coordinator_push_spec env c) as [Hr Hs].
  split; [exact Hr|]. split; [|exact Hs].
  clear Hr Hs. unfold coordinator_push_state_update, try_except, on_device.
  destruct (push_state_update_results env (device c)) as [H|[H|H]];
    destruct (push_state_update env (device c)) as [rp d]; cbn [fst snd] in *;
    subst rp; cbn; by split.
Qed.

Lemma coordinator_push_independent_witness :
  fst (coordinator_push_state_update silent
         (set_device unbound_dirty fresh_coordinator)) = Ok tt.
Proof.
  destruct (coordinator_push_independent silent
              (set_device unbound_dirty fresh_coordinator)) as ([H|H] & Hiff & _).
  - exact H.
  - apply Hiff in H. discriminate H.
Defined.

(** * The climate entity *)

Lemma on_entity_device_run {A} (m : Py Device A) (e : ClimateEntity) :
  on_entity_device m e =
  (fst (m (entity_device e)), with_device (snd (m (entity_device e))) e).
Proof.
  unfold on_entity_device, on_coordinator, on_device, entity_device, with_device.
  by destruct (m (device (coordinator e))).
Qed.

Lemma with_device_same (e : ClimateEntity) : with_device (entity_device e) e = e.
Proof. by destruct e as [[] ? ? ?]. Qed.

Lemma with_device_twice (d1 d2 : Device) (e : ClimateEntity) :
  with_device d2 (with_device d1 e) = with_device d2 e.
Proof. done. Qed.

Lemma entity_device_with (d : Device) (e : ClimateEntity) :
  entity_device (with_device d e) = d.
Proof. done. Qed.

Lemma entity_get (name : Props) (e : ClimateEntity) :
  on_entity_device (get_property name) e = (Ok (stored e (value name)), e).
Proof.
  rewrite on_entity_device_run, get_property_value. cbn [fst snd].
  by rewrite with_device_same.
Qed.

Lemma entity_get_bool (name : Props) (e : ClimateEntity) :
  on_entity_device (bool_property name) e = (Ok (py_bool (stored e (value name))), e).
Proof.
  rewrite on_entity_device_run, bool_property_value. cbn [fst snd].
  by rewrite with_device_same.
Qed.

Lemma entity_set (name : Props) (v : pyval) (e : ClimateEntity) :
  let e' := with_device (snd (set_property name v (entity_device e))) e in
  on_entity_device (set_property name v) e = (Ok tt, e') /\
  (forall k, stored e' k = if bool_decide (k = value name) then v else stored e k) /\
  calls (entity_device e') = calls (entity_device e).
Proof.
  cbn zeta. rewrite on_entity_device_run, set_property_ok. split; [done|].
  unfold stored. rewrite entity_device_with. split.
  - intros k. apply set_property_lookup.
  - by destruct (set_property_frame name v (entity_device e)) as (_ & _ & _ & ? & _).
Qed.

Lemma entity_push_spec (env : Env) (e : ClimateEntity) :
  let r := entity_push env e in
  (fst r = Ok tt \/ fst r = Raise DeviceNotBoundError) /\
  (forall k, stored (snd r) k = stored e k) /\
  _attr_temperature_unit (snd r) = _attr_temperature_unit e /\
  _attr_min_temp (snd r) = _attr_min_temp e /\
  _attr_max_temp (snd r) = _attr_max_temp e.
Proof.
  cbn zeta. unfold entity_push, on_coordinator.
  destruct (coordinator_push_spec env (coordinator e)) as (Hr & Hs).
  destruct (coordinator_push_state_update env (coordinator e)) as [r c'].
  cbn [fst snd] in *. subst c'. split; [done|]. split; [|done].
  intros k. unfold stored, entity_device. cbn.
  destruct (push_state_update_model env (device (coordinator e))) as (Hm & _).
  destruct Hm as (_ & _ & _ & _ & Hp & _). cbn in Hp. by rewrite Hp.
Qed.

Lemma entity_push_device (env : Env) (e : ClimateEntity) :
  entity_device (snd (entity_push env e)) = snd (push_state_update env (entity_device e)) /\
  (fst (push_state_update env (entity_device e)) <> Raise DeviceNotBoundError ->
   fst (entity_push env e) = Ok tt).
Proof.
  unfold entity_push, on_coordinator, entity_device.
  unfold coordinator_push_state_update, try_except, on_device.
  destruct (push_state_update_results env (device (coordinator e))) as [H|[H|H]];
    destruct (push_state_update env (device (coordinator e))) as [rp d];
    cbn [fst snd] in *; subst rp; cbn; by split.
Qed.

Lemma run_entity_set {B} (name : Props) (v : pyval) (k : Py ClimateEntity B)
    (e : ClimateEntity) :
  (run on_entity_device (set_property name v) then k) e =
  k (with_device (snd (set_property name v (entity_device e))) e).
Proof. unfold bnd. by rewrite (proj1 (entity_set name v e)). Qed.

Lemma run_entity_sleep {B} (b : bool) (k : Py ClimateEntity B) (e : ClimateEntity) :
  (run on_entity_device (sleep_setter b) then k) e =
  k (with_device
       (snd (set_property SLEEP_MODE (VInt (int_of_bool b))
               (snd (set_property SLEEP (VInt (int_of_bool b)) (entity_device e)))))
       e).
Proof.
  unfold bnd at 1. rewrite on_entity_device_run. unfold sleep_setter, bnd.
  pose proof (set_property_ok SLEEP (VInt (int_of_bool b)) (entity_device e)) as H1.
  destruct (set_property SLEEP (VInt (int_of_bool b)) (entity_device e)) as [[[]|x] s];
    [|discriminate H1].
  cbn [fst snd]. by rewrite set_property_ok.
Qed.

Lemma run_ret_tt {S B} (k : Py S B) (s : S) : (run ret tt then k) s = k s.
Proof. done. Qed.

Lemma stored_with_device (d : Device) (e : ClimateEntity) (k : string) :
  stored (with_device d e) k = dict_get (_properties d) k.
Proof. done. Qed.

Lemma hvac_mode_value (e : ClimateEntity) :
  hvac_mode e =
  (Ok (if py_bool (stored e "Pow") then get_by_value HVAC_MODES (stored e "Mod")
       else Some HVAC_OFF), e).
Proof.
  unfold hvac_mode, bnd, power, mode. rewrite entity_get_bool. cbn [value].
  destruct (py_bool (stored e "Pow")); [|done]. cbn [negb].
  by rewrite entity_get.
Qed.

Lemma set_hvac_on (env : Env) (m : HVACMode) (k : Z) (e : ClimateEntity) :
  m <> HVAC_OFF -> items_get HVAC_MODES_REVERSE m = Some k ->
  async_set_hvac_mode env m e =
  entity_push env
    (with_device
       (snd (set_property MODE (VInt k)
               (if py_bool (stored e "Pow") then entity_device e
                else snd (set_property POWER (VInt 1) (entity_device e)))))
       e).
Proof.
  intros Hoff Hk. unfold async_set_hvac_mode.
  assert (m ∈ map fst HVAC_MODES_REVERSE ++ [HVAC_OFF]) as Hin.
  { destruct m; try done; vm_compute; set_solver. }
  rewrite bool_decide_eq_true_2 by done. cbn [negb].
  rewrite bool_decide_eq_false_2 by done. rewrite Hk.
  unfold bnd at 1, power. rewrite entity_get_bool. cbn [value].
  destruct (py_bool (stored e "Pow")); cbn [negb].
  - unfold bnd at 1, ret, mode_setter. rewrite run_entity_set. done.
  - unfold power_setter. rewrite run_entity_set. unfold mode_setter.
    rewrite run_entity_set. by rewrite entity_device_with.
Qed.

(** X21. Setting an HVAC mode and reading it back: [hvac_mode] returns the mode
    just set, whether the push of the change reaches the device or not, for
    off and the five modes the unit has; switching off keeps the stored mode,
    and a mode the unit does not have (heat_cool) raises ValueError and
    changes nothing. The call returns or raises DeviceNotBoundError. *)
Theorem hvac_mode_round_trip (env : Env) (m : HVACMode) (e : ClimateEntity) :
  let r := async_set_hvac_mode env m e in
  (m = HVAC_HEAT_COOL -> r = (Raise ValueError, e)) /\
  (m <> HVAC_HEAT_COOL ->
     fst (hvac_mode (snd r)) = Ok (Some m) /\
     (fst r = Ok tt \/ fst r = Raise DeviceNotBoundError)) /\
  (m = HVAC_OFF -> stored (snd r) "Mod" = stored e "Mod").
Proof.
  cbn zeta. split; [by intros ->|].
  assert (HVAC_OFF = m ->
          let r := async_set_hvac_mode env m e in
          (fst r = Ok tt \/ fst r = Raise DeviceNotBoundError) /\
          stored (snd r) "Pow" = VInt 0 /\ stored (snd r) "Mod" = stored e "Mod")
    as Hoff.
  { intros <-. cbn zeta. unfold async_set_hvac_mode.
    rewrite bool_decide_eq_true_2 by (vm_compute; set_solver). cbn [negb].
    rewrite bool_decide_eq_true_2 by done.
    unfold power_setter. rewrite run_entity_set.
    destruct (entity_push_spec env
      (with_device (snd (set_property POWER (VInt 0) (entity_device e))) e))
      as (Hr & Hst & _).
    split; [exact Hr|]. rewrite !Hst, !stored_with_device, !set_property_lookup.
    by split. }
  assert (forall k, m <> HVAC_OFF -> items_get HVAC_MODES_REVERSE m = Some k ->
          let r := async_set_hvac_mode env m e in
          (fst r = Ok tt \/ fst r = Raise DeviceNotBoundError) /\
          py_bool (stored (snd r) "Pow") = true /\ stored (snd r) "Mod" = VInt k)
    as Hon.
  { intros k Hm Hk. cbn zeta. rewrite (set_hvac_on env m k e Hm Hk).
    match goal with |- context [entity_push env ?x] =>
      destruct (entity_push_spec env x) as (Hr & Hst & _) end.
    split; [exact Hr|]. rewrite !Hst, !stored_with_device, !set_property_lookup.
    rewrite bool_decide_eq_false_2 by done. rewrite bool_decide_eq_true_2 by done.
    split; [|done].
    destruct (py_bool (stored e "Pow")) eqn:Hp; [exact Hp|].
    by rewrite set_property_lookup. }
  split.
  - intros Hm. rewrite hvac_mode_value. cbn [fst].
    destruct m; try done.
    + destruct (Hoff eq_refl) as (Hr & Hp & _). by rewrite Hp.
    + destruct (Hon 4 ltac:(done) eq_refl) as (Hr & -> & ->). done.
    + destruct (Hon 1 ltac:(done) eq_refl) as (Hr & -> & ->). done.
    + destruct (Hon 0 ltac:(done) eq_refl) as (Hr & -> & ->). done.
    + destruct (Hon 2 ltac:(done) eq_refl) as (Hr & -> & ->). done.
    + destruct (Hon 3 ltac:(done) eq_refl) as (Hr & -> & ->). done.
  - intros ->. by destruct (Hoff eq_refl) as (_ & _ & ?).
Qed.

Lemma hvac_mode_round_trip_witness :
  fst (hvac_mode (snd (async_set_hvac_mode silent HVAC_HEAT fresh_entity)))
    = Ok (Some HVAC_HEAT) /\
  async_set_hvac_mode silent HVAC_HEAT_COOL fresh_entity
    = (Raise ValueError, fresh_entity).
Proof.
  destruct (hvac_mode_round_trip silent HVAC_HEAT fresh_entity) as (_ & Hset & _).
  destruct (hvac_mode_round_trip silent HVAC_HEAT_COOL fresh_entity) as (Hbad & _).
  split; [by destruct Hset as [? _] | by apply Hbad].
Defined.

Lemma preset_mode_value (e : ClimateEntity) :
  preset_mode e =
  (Ok (if py_bool (stored e "StHt") then PRESET_AWAY
       else if py_bool (stored e "SvSt") then PRESET_ECO
       else if py_bool (stored e "SwhSlp") then PRESET_SLEEP
       else if py_bool (stored e "Tur") then PRESET_BOOST
       else PRESET_NONE), e).
Proof.
  unfold preset_mode, bnd, steady_heat, power_save, sleep, turbo.
  rewrite entity_get_bool. cbn [value].
  destruct (py_bool (stored e "StHt")); [done|].
  rewrite entity_get_bool. cbn [value].
  destruct (py_bool (stored e "SvSt")); [done|].
  rewrite entity_get_bool. cbn [value].
  destruct (py_bool (stored e "SwhSlp")); [done|].
  rewrite entity_get_bool. cbn [value].
  by destruct (py_bool (stored e "Tur")).
Qed.

(** X22. Setting a preset and reading it back: for each of eco, away, boost, none
    and sleep, [preset_mode] returns the preset just set, whatever was set
    before and whether or not the push reaches the device; any other name
    raises ValueError and changes nothing. *)
Theorem preset_mode_round_trip (env : Env) (preset : string) (e : ClimateEntity) :
  let r := async_set_preset_mode env preset e in
  (preset ∉ PRESET_MODES -> r = (Raise ValueError, e)) /\
  (preset ∈ PRESET_MODES ->
     fst (preset_mode (snd r)) = Ok preset /\
     (fst r = Ok tt \/ fst r = Raise DeviceNotBoundError)).
Proof.
  cbn zeta. split.
  - intros Hout. unfold async_set_preset_mode.
    by rewrite bool_decide_eq_false_2.
  - intros Hin. unfold async_set_preset_mode.
    rewrite bool_decide_eq_true_2 by done. cbn [negb].
    unfold steady_heat_setter, power_save_setter, turbo_setter.
    rewrite !run_entity_set, run_entity_sleep.
    assert (preset = PRESET_ECO \/ preset = PRESET_AWAY \/ preset = PRESET_BOOST \/
            preset = PRESET_NONE \/ preset = PRESET_SLEEP) as Hcases.
    { unfold PRESET_MODES in Hin. rewrite !elem_of_cons, elem_of_nil in Hin. tauto. }
    rewrite preset_mode_value. cbn [fst].
    destruct Hcases as [->|[->|[->|[->| ->]]]]; cbn [String.eqb Ascii.eqb Bool.eqb];
      unfold PRESET_ECO, PRESET_AWAY, PRESET_BOOST, PRESET_NONE, PRESET_SLEEP;
      cbn [String.eqb Ascii.eqb Bool.eqb andb];
      rewrite ?run_entity_set, ?run_entity_sleep;
      try (unfold bnd at 1, ret);
      match goal with |- context [entity_push env ?x] =>
        destruct (entity_push_spec env x) as (Hr & Hst & _) end;
      (split; [|exact Hr]);
      rewrite !Hst, !stored_with_device, !entity_device_with, !set_property_lookup;
      done.
Qed.

Lemma preset_mode_round_trip_witness :
  fst (preset_mode (snd (async_set_preset_mode silent "boost"
                           (snd (async_set_preset_mode silent "away" fresh_entity)))))
    = Ok "boost" /\
  async_set_preset_mode silent "comfort" fresh_entity = (Raise ValueError, fresh_entity).
Proof.
  destruct (preset_mode_round_trip silent "boost"
              (snd (async_set_preset_mode silent "away" fresh_entity))) as [_ Hset].
  destruct (preset_mode_round_trip silent "comfort" fresh_entity) as [Hbad _].
  split.
  - destruct Hset as [Hget _]; [|exact Hget].
    unfold PRESET_MODES, PRESET_BOOST. set_solver.
  - apply Hbad. unfold PRESET_MODES, PRESET_ECO, PRESET_AWAY, PRESET_BOOST,
      PRESET_NONE, PRESET_SLEEP. rewrite !elem_of_cons, elem_of_nil.
    intros [H|[H|[H|[H|[H|[]]]]]]; discriminate H.
Defined.

Lemma swing_mode_value (e : ClimateEntity) :
  swing_mode e =
  (Ok (let h := py_eq (stored e "SwingLfRig") (VInt 1) in
       let v := py_eq (stored e "SwUpDn") (VInt 1) in
       if h && v then SWING_BOTH else if h then SWING_HORIZONTAL
       else if v then SWING_VERTICAL else SWING_OFF), e).
Proof.
  unfold swing_mode, bnd, horizontal_swing, vertical_swing.
  rewrite !entity_get. cbn [value]. cbn zeta.
  destruct (py_eq (stored e "SwingLfRig") (VInt 1)),
           (py_eq (stored e "SwUpDn") (VInt 1)); done.
Qed.

(** X23. Setting a swing mode and reading it back: for each of off, vertical,
    horizontal and both, [swing_mode] returns the mode just set, and a louvre
    that is not swinging is left at its middle position (4); any other name
    raises ValueError and changes nothing. *)
Theorem swing_mode_round_trip (env : Env) (swing : string) (e : ClimateEntity) :
  let r := async_set_swing_mode env swing e in
  (swing ∉ SWING_MODES -> r = (Raise ValueError, e)) /\
  (swing ∈ SWING_MODES ->
     fst (swing_mode (snd r)) = Ok swing /\
     (stored (snd r) "SwingLfRig" = VInt 1 \/ stored (snd r) "SwingLfRig" = VInt 4) /\
     (stored (snd r) "SwUpDn" = VInt 1 \/ stored (snd r) "SwUpDn" = VInt 4) /\
     (fst r = Ok tt \/ fst r = Raise DeviceNotBoundError)).
Proof.
  cbn zeta. split.
  - intros Hout. unfold async_set_swing_mode.
    by rewrite bool_decide_eq_false_2.
  - intros Hin. unfold async_set_swing_mode.
    rewrite bool_decide_eq_true_2 by done. cbn [negb].
    unfold horizontal_swing_setter, vertical_swing_setter.
    rewrite !run_entity_set.
    assert (swing = SWING_OFF \/ swing = SWING_VERTICAL \/ swing = SWING_HORIZONTAL \/
            swing = SWING_BOTH) as Hcases.
    { unfold SWING_MODES in Hin. rewrite !elem_of_cons, elem_of_nil in Hin. tauto. }
    rewrite swing_mode_value. cbn [fst].
    destruct Hcases as [->|[->|[->| ->]]];
      unfold SWING_OFF, SWING_VERTICAL, SWING_HORIZONTAL, SWING_BOTH;
      cbn [String.eqb Ascii.eqb Bool.eqb andb orb];
      rewrite ?run_entity_set, ?run_ret_tt, ?run_entity_set, ?run_ret_tt;
      match goal with |- context [entity_push env ?x] =>
        destruct (entity_push_spec env x) as (Hr & Hst & _) end;
      rewrite !Hst, !stored_with_device, !entity_device_with, !set_property_lookup;
      cbn; auto.
Qed.

Lemma swing_mode_round_trip_witness :
  fst (swing_mode (snd (async_set_swing_mode silent "horizontal" fresh_entity)))
    = Ok "horizontal" /\
  async_set_swing_mode silent "on" fresh_entity = (Raise ValueError, fresh_entity).
Proof.
  destruct (swing_mode_round_trip silent "horizontal" fresh_entity) as [_ Hset].
  destruct (swing_mode_round_trip silent "on" fresh_entity) as [Hbad _].
  split.
  - destruct Hset as [Hget _]; [|exact Hget].
    unfold SWING_MODES, SWING_HORIZONTAL. set_solver.
  - apply Hbad. unfold SWING_MODES, SWING_OFF, SWING_VERTICAL, SWING_HORIZONTAL,
      SWING_BOTH. rewrite !elem_of_cons, elem_of_nil.
    intros [H|[H|[H|[H|[]]]]]; discriminate H.
Defined.

(** ** Reversed dictionaries *)

Lemma items_get_reverse_step {K V} `{EqDecision V}
    (acc : list (V * K)) (k : K) (v v' : V) :
  items_get
    (if bool_decide (v ∈ map fst acc)
     then map (fun '(v0, k0) => if bool_decide (v0 = v) then (v0, k) else (v0, k0)) acc
     else acc ++ [(v, k)]) v' =
  if bool_decide (v' = v) then Some k else items_get acc v'.
Proof.
  case_bool_decide as Hin.
  - induction acc as [|[v0 k0] acc IH]; [by apply elem_of_nil in Hin|].
    cbn. destruct (decide (v0 = v)) as [->|Hne].
    + rewrite bool_decide_eq_true_2 by done. cbn.
      case_bool_decide as H1; case_bool_decide as H2; try congruence.
      clear IH Hin. induction acc as [|[v1 k1] acc IH]; [done|]. cbn.
      case_bool_decide; cbn; case_bool_decide; try congruence; done.
    + rewrite bool_decide_eq_false_2 by done. cbn.
      cbn in Hin. apply elem_of_cons in Hin as [Hin|Hin]; [congruence|].
      rewrite (IH Hin).
      case_bool_decide as H1; case_bool_decide as H2; congruence.
  - induction acc as [|[v0 k0] acc IH]; cbn.
    + case_bool_decide as H1; case_bool_decide as H2; congruence.
    + cbn in Hin. rewrite not_elem_of_cons in Hin. destruct Hin as [Hne Hin].
      rewrite (IH Hin).
      case_bool_decide as H1; case_bool_decide as H2; congruence.
Qed.

Lemma reverse_dict_fold {K V} `{EqDecision V} (d : list (K * V)) (acc : list (V * K))
    (v : V) (k : K) :
  items_get
    (fold_left
       (fun acc '(k, v) =>
          if bool_decide (v ∈ map fst acc)
          then map (fun '(v', k') => if bool_decide (v' = v) then (v', k) else (v', k')) acc
          else acc ++ [(v, k)])
       d acc) v = Some k ->
  In (k, v) d \/ items_get acc v = Some k.
Proof.
  revert acc. induction d as [|[k0 v0] d IH]; intros acc; cbn [fold_left]; [auto|].
  intros H. apply IH in H as [H|H]; [left; by right|].
  rewrite items_get_reverse_step in H.
  case_bool_decide as Hv; [|by right].
  injection H as ->. subst v0. left. by left.
Qed.

Lemma reverse_dict_fold_dom {K V} `{EqDecision V} (d : list (K * V))
    (acc : list (V * K)) (v : V) :
  v ∈ map snd d \/ is_Some (items_get acc v) ->
  is_Some
    (items_get
       (fold_left
          (fun acc '(k, v) =>
             if bool_decide (v ∈ map fst acc)
             then map (fun '(v', k') => if bool_decide (v' = v) then (v', k) else (v', k')) acc
             else acc ++ [(v, k)])
          d acc) v).
Proof.
  revert acc. induction d as [|[k0 v0] d IH]; intros acc; cbn [fold_left map snd].
  - intros [H|H]; [by apply elem_of_nil in H | done].
  - intros H. apply IH. rewrite items_get_reverse_step.
    rewrite elem_of_cons in H.
    case_bool_decide as Hv; [right; eauto|].
    destruct H as [[H|H]|H]; [congruence | by left | by right].
Qed.

Lemma items_get_In {K V} `{EqDecision K} (d : list (K * V)) (k : K) (v : V) :
  NoDup (map fst d) -> In (k, v) d -> items_get d k = Some v.
Proof.
  induction d as [|[k0 v0] d IH]; [done|]. cbn.
  intros [Hk0 Hnd]%NoDup_cons [[= -> ->]|Hin].
  - by rewrite bool_decide_eq_true_2.
  - rewrite bool_decide_eq_false_2; [by apply IH|].
    intros ->. apply Hk0. apply list_elem_of_In, in_map_iff. by exists (k, v).
Qed.

(** X24. Setting a fan mode and reading it back: every name of [FAN_MODES] is
    accepted, [fan_mode] returns the name just set, whatever the two names
    taken from the constants are, and a name outside [FAN_MODES] raises
    ValueError and changes nothing. *)
Theorem fan_mode_round_trip
    (env : Env) (FAN_MEDIUM_LOW FAN_MEDIUM_HIGH : string) (fan : string)
    (e : ClimateEntity) :
  let modes := FAN_MODES FAN_MEDIUM_LOW FAN_MEDIUM_HIGH in
  let r := async_set_fan_mode env FAN_MEDIUM_LOW FAN_MEDIUM_HIGH fan e in
  (fan ∉ map snd modes -> r = (Raise ValueError, e)) /\
  (fan ∈ map snd modes ->
     fst (fan_mode FAN_MEDIUM_LOW FAN_MEDIUM_HIGH (snd r)) = Ok (Some fan) /\
     (fst r = Ok tt \/ fst r = Raise DeviceNotBoundError)).
Proof.
  cbn zeta. unfold async_set_fan_mode, FAN_MODES_REVERSE, reverse_dict.
  set (modes := FAN_MODES FAN_MEDIUM_LOW FAN_MEDIUM_HIGH).
  assert (NoDup (map fst modes)) as Hnd.
  { cbn. repeat (apply NoDup_cons; split; [set_solver|]). apply NoDup_nil_2. }
  split.
  - intros Hout.
    destruct (items_get (fold_left _ modes []) fan) as [speed|] eqn:Hget; [|done].
    apply reverse_dict_fold in Hget as [Hin|Hin]; [|done].
    exfalso. apply Hout. apply list_elem_of_In, in_map_iff. by exists (speed, fan).
  - intros Hin.
    destruct (reverse_dict_fold_dom modes [] fan (or_introl Hin)) as [speed Hget].
    rewrite Hget.
    apply reverse_dict_fold in Hget as [Hmem|Hmem]; [|done].
    pose proof (items_get_In modes speed fan Hnd Hmem) as Hback.
    unfold fan_speed_setter. rewrite run_entity_set.
    match goal with |- context [entity_push env ?x] =>
      destruct (entity_push_spec env x) as (Hr & Hst & _) end.
    split; [|exact Hr].
    unfold fan_mode, bnd, fan_speed. rewrite entity_get. cbn [value fst].
    rewrite Hst, stored_with_device, set_property_lookup.
    rewrite bool_decide_eq_true_2 by done. cbn [get_by_value].
    unfold modes in Hback. by rewrite Hback.
Qed.

Lemma fan_mode_round_trip_witness :
  fst (fan_mode "medium low" "medium high"
         (snd (async_set_fan_mode silent "medium low" "medium high" "medium low"
                 fresh_entity)))
    = Ok (Some "medium low") /\
  async_set_fan_mode silent "medium low" "medium high" "turbo" fresh_entity
    = (Raise ValueError, fresh_entity).
Proof.
  destruct (fan_mode_round_trip silent "medium low" "medium high" "medium low"
              fresh_entity) as [_ Hset].
  destruct (fan_mode_round_trip silent "medium low" "medium high" "turbo"
              fresh_entity) as [Hbad _].
  split.
  - destruct Hset as [Hget _]; [|exact Hget]. cbn. set_solver.
  - apply Hbad. cbn. unfold FAN_AUTO, FAN_LOW, FAN_MEDIUM, FAN_HIGH.
    rewrite !elem_of_cons, elem_of_nil.
    intros [H|[H|[H|[H|[H|[H|[]]]]]]]; discriminate H.
Defined.

(** ** Units and limits of the entity *)

(** X25. The entity's temperature unit and its limits stay paired (Celsius with
    8..30, Fahrenheit with 46..86), from the class attributes on; after a
    coordinator update they are those of the Device's unit when that is 0 or
    1, and are left as they were for any other stored unit. The update never
    raises and does not touch the coordinator. *)
Theorem unit_follows_device (e : ClimateEntity) :
  unit_consistent (ClimateEntity_init (coordinator e)) /\
  (unit_consistent e ->
     let r := _handle_coordinator_update e in
     fst r = Ok tt /\ unit_consistent (snd r) /\ coordinator (snd r) = coordinator e /\
     (stored e "TemUn" = VInt 0 -> _attr_temperature_unit (snd r) = CELSIUS) /\
     (stored e "TemUn" = VInt 1 -> _attr_temperature_unit (snd r) = FAHRENHEIT) /\
     (stored e "TemUn" <> VInt 0 -> stored e "TemUn" <> VInt 1 ->
        _attr_temperature_unit (snd r) = _attr_temperature_unit e)).
Proof.
  split; [by left|]. intros Hc. cbn zeta.
  unfold _handle_coordinator_update, bnd, temperature_units, get_self, modify.
  rewrite entity_get. cbn [value].
  destruct (py_eq (stored e "TemUn") (VInt 0)) eqn:H0;
    [apply py_eq_true in H0 | apply py_eq_false in H0].
  - rewrite H0. cbn [andb].
    destruct (_attr_temperature_unit e) eqn:Hu; cbn;
      repeat split;
      first [done | by rewrite ?Hu | by left | exact Hc | congruence].
  - cbn [andb].
    destruct (py_eq (stored e "TemUn") (VInt 1)) eqn:H1;
      [apply py_eq_true in H1 | apply py_eq_false in H1].
    + cbn [andb]. destruct (_attr_temperature_unit e) eqn:Hu; cbn;
        repeat split;
        first [done | by rewrite ?Hu | by right | exact Hc | congruence].
    + cbn. repeat split; first [done | exact Hc].
Qed.

Lemma unit_follows_device_witness :
  let fahrenheit :=
    with_device (set_props (fun m => <["TemUn" := VInt 1]> m) demo_device) fresh_entity in
  _attr_temperature_unit (snd (_handle_coordinator_update fahrenheit)) = FAHRENHEIT /\
  _attr_max_temp (snd (_handle_coordinator_update fahrenheit)) = 86.
Proof.
  cbn zeta.
  set (fahrenheit := with_device _ fresh_entity).
  destruct (unit_follows_device fahrenheit) as [_ Hstep].
  destruct Hstep as (_ & Hcons & _ & _ & Hf & _); [by left|].
  specialize (Hf eq_refl). split; [exact Hf|].
  destruct Hcons as [(Hu & _)|(_ & _ & Hmax)]; [congruence | exact Hmax].
Defined.

(** ** Setting the temperature through the entity *)

(** X26. [async_set_temperature] without a temperature raises ValueError and
    changes nothing. With a temperature and no HVAC mode, on a Celsius
    Device, a value outside 8..30 raises ValueError before anything is
    stored or sent, and a value inside is stored as the target, read back by
    [target_temperature], and then pushed: the Device ends as its own
    [push_state_update] leaves the Device the setter produced, and when the
    Device has a cipher and the value is new, exactly one call is added, a
    command that carries the new target, the dirty list is empty afterwards
    and the call returns. *)
Theorem entity_set_temperature (env : Env) (t : Z) (e : ClimateEntity) :
  (forall h, async_set_temperature env None h e = (Raise ValueError, e)) /\
  (stored e "TemUn" <> VInt 1 -> t < 8 \/ 30 < t ->
     async_set_temperature env (Some t) None e = (Raise ValueError, e)) /\
  (stored e "TemUn" <> VInt 1 -> 8 <= t <= 30 ->
     let d := snd (target_temperature_setter t (entity_device e)) in
     let r := async_set_temperature env (Some t) None e in
     stored (snd r) "SetTem" = VInt t /\
     fst (target_temperature (entity_device (snd r))) = Ok (VInt t) /\
     (fst r = Ok tt \/ fst r = Raise DeviceNotBoundError) /\
     entity_device (snd r) = snd (push_state_update env d) /\
     (device_cipher (entity_device e) <> None -> stored e "SetTem" <> VInt t ->
        exists props,
          calls (entity_device (snd r))
          = calls (entity_device e)
            ++ [CallSend (CommandMsg (device_info (entity_device e)) props) None] /\
          items_get props "SetTem" = Some (VInt t) /\
          _dirty (entity_device (snd r)) = [] /\
          fst r = Ok tt)).
Proof.
  split; [done|]. split.
  - intros Hu Ht. unfold async_set_temperature. rewrite run_ret_tt.
    unfold bnd. rewrite on_entity_device_run.
    unfold target_temperature_setter, bnd.
    rewrite temperature_units_value. fold (stored e "TemUn").
    rewrite (proj2 (py_eq_false _ _) Hu).
    rewrite validate_out_of_range by (unfold TEMP_MIN, TEMP_MAX; lia).
    cbn [fst snd]. by rewrite with_device_same.
  - intros Hu Ht. cbn zeta.
    rewrite (target_temperature_setter_celsius t (entity_device e)) by done.
    set (d := snd (set_property TEMP_SET (VInt t) (entity_device e))).
    assert (async_set_temperature env (Some t) None e =
            entity_push env (with_device d e)) as ->.
    { unfold async_set_temperature. rewrite run_ret_tt.
      unfold bnd at 1. rewrite on_entity_device_run.
      rewrite target_temperature_setter_celsius by done.
      by rewrite set_property_ok. }
    destruct (entity_push_spec env (with_device d e)) as (Hr & Hst & _).
    destruct (entity_push_device env (with_device d e)) as (Hdev & Hok).
    rewrite entity_device_with in Hdev, Hok.
    assert (stored (snd (entity_push env (with_device d e))) "TemUn" <> VInt 1) as Hu'.
    { rewrite Hst, stored_with_device. unfold d. rewrite set_property_lookup.
      by rewrite bool_decide_eq_false_2. }
    assert (stored (snd (entity_push env (with_device d e))) "SetTem" = VInt t) as Hset.
    { rewrite Hst, stored_with_device. unfold d. rewrite set_property_lookup.
      by rewrite bool_decide_eq_true_2. }
    split; [exact Hset|]. split; [|split; [exact Hr|split; [exact Hdev|]]].
    + rewrite target_temperature_value, convert_celsius by exact Hu'.
      cbn [fst]. f_equal. exact Hset.
    + intros Hc Hnew.
      destruct (set_property_frame TEMP_SET (VInt t) (entity_device e))
        as (Hinfo & Hcipher & _ & Hcalls & _).
      cbn zeta in *. fold d in Hinfo, Hcipher, Hcalls.
      assert ("SetTem" ∈ _dirty d) as Hin
        by (apply (set_property_marks TEMP_SET); exact Hnew).
      assert (device_cipher d <> None) as Hc' by (by rewrite Hcipher).
      assert (_dirty d <> []) as Hd.
      { intros Hnil. rewrite Hnil in Hin. by apply elem_of_nil in Hin. }
      destruct (push_state_update_sends env d Hc' Hd) as [Hsent Hres].
      exists (push_props d). rewrite Hdev. split; [|split; [|split]].
      * by rewrite Hsent, Hcalls, Hinfo.
      * rewrite push_props_lookup.
        rewrite bool_decide_eq_false_2 by done. cbn [andb].
        rewrite bool_decide_eq_true_2
          by (apply elem_of_command_keys; by left).
        f_equal. unfold d. apply (set_property_stores TEMP_SET).
      * by apply push_state_update_clears.
      * apply Hok. rewrite Hres. by destruct (timed_out _).
Qed.

Lemma entity_set_temperature_witness :
  async_set_temperature silent (Some 31) None fresh_entity
    = (Raise ValueError, fresh_entity) /\
  stored (snd (async_set_temperature silent (Some 22) None fresh_entity)) "SetTem"
    = VInt 22 /\
  (let e := with_device bound_dirty fresh_entity in
   let r := async_set_temperature silent (Some 22) None e in
   fst r = Ok tt /\ _dirty (entity_device (snd r)) = [] /\
   length (calls (entity_device (snd r))) = 1%nat).
Proof.
  destruct (entity_set_temperature silent 31 fresh_entity) as (_ & Hout & _).
  destruct (entity_set_temperature silent 22 fresh_entity) as (_ & _ & Hin).
  destruct (entity_set_temperature silent 22 (with_device bound_dirty fresh_entity))
    as (_ & _ & Hbound).
  split; [apply Hout; [discriminate | lia]|].
  split; [destruct Hin as [Hst _]; [discriminate | lia | exact Hst]|].
  destruct Hbound as (_ & _ & _ & _ & Hpush); [discriminate | lia |].
  destruct Hpush as (props & Hcalls & _ & Hdirty & Hr); [discriminate | discriminate |].
  cbn zeta. split; [exact Hr|]. split; [exact Hdirty|].
  rewrite Hcalls. reflexivity.
Defined.

(** ** Target humidity, written *)

(** X27. The humidity setter accepts every integer, inside the range 30..80 or
    not: it never raises, and stores the number of whole steps of 5 above 15,
    rounded down. *)
Theorem target_humidity_setter_unchecked (v : Z) (self : Device) :
  let r := target_humidity_setter v self in
  fst r = Ok tt /\
  exists h, dict_get (_properties (snd r)) "Dwet" = VInt h /\
            15 + 5 * h <= v < 15 + 5 * h + 5.
Proof.
  cbn zeta. unfold target_humidity_setter. split; [apply set_property_ok|].
  exists ((v - 15) / 5). split; [apply (set_property_stores HUM_SET)|].
  pose proof (Z.div_mod (v - 15) 5 ltac:(lia)).
  pose proof (Z.mod_pos_bound (v - 15) 5 ltac:(lia)). lia.
Qed.
